(** * Distributed code indexer: a shallow embedding of
      [src/distributed_indexer.py] and [src/distributed_models.py].

    The indexer walks a source tree bottom-up, extracts structural metadata
    from every Python file, writes one [DirectoryIndex] artifact per
    directory and one [RepositoryIndex] artifact for the repository.

    Python values are rendered as follows: [int] is [Z], [str] is [string],
    [Optional[T]] is [option T], lists are lists, the summary cache (a
    [dict]) is a [gmap], pydantic models are records.  Exceptions are an
    explicit outcome, and the mutable world (cache, output disk, requests
    sent to the completion backend) is threaded through as a state.

    What lies outside the repository is a parameter, the class [Backend]:
    the digest function, the parser, [str.splitlines], the completion
    service, the order in which the thread pool completes its futures,
    which output paths can be written, and the interpreter's recursion
    limit.  The source tree is a finite tree of entries; a listing is
    taken in the order [sorted(os.listdir(...))] gives ([sorted_view]).
    Console output is not modelled, except for the one [print] that
    raises; the [indexed_at] time stamps are left out.

    The environment fails in the ways the code provides for: a file
    cannot be read, the parser raises [SyntaxError], a listing raises
    [PermissionError], a request to the completion service fails, an
    output path cannot be created or written.  Other failures ([ast.parse]
    raising [ValueError] on a NUL byte, the interpreter's recursion limit
    met by the nested calls of [_index_directory]) are not represented,
    and the output disk keeps the documents written, not the directories
    created; where a statement needs a run to get somewhere, it names the
    source trees it holds for.

    The [bash] tool of [src/distributed_agent.py], through which the query
    agent reads the index, is embedded in the module [Agent]. *)

Set Warnings "-register-all".
From Stdlib Require Import ZArith List String Ascii Lia Permutation DecimalString.
From stdpp Require Import gmap strings.
Import ListNotations.
Open Scope Z_scope.

(** ** Python built-ins used by the indexer *)

Module Py.

(** [s.startswith(p)] *)
Definition startswith (s p : string) : bool := String.prefix p s.

(** [s.endswith(p)]: some tail of [s] is [p] *)
Fixpoint endswith (s p : string) : bool :=
  (s =? p)%string
  || match s with
     | EmptyString => false
     | String _ rest => endswith rest p
     end.

(** The last character of a string. *)
Fixpoint last_char (s : string) : option ascii :=
  match s with
  | EmptyString => None
  | String c EmptyString => Some c
  | String _ rest => last_char rest
  end.

(** [c in s] for a one-character string [c] *)
Definition contains_char (c : ascii) (s : string) : bool :=
  existsb (Ascii.eqb c) (list_ascii_of_string s).

(** [x in l] for a list of strings *)
Definition str_in (x : string) (l : list string) : bool :=
  existsb (String.eqb x) l.

(** [sep.join(l)] *)
Definition str_join (sep : string) (l : list string) : string :=
  String.concat sep l.

(** [len(l)] *)
Definition len {A} (l : list A) : Z := Z.of_nat (length l).

(** [l[:n]] for a literal [n >= 0] *)
Definition slice_to {A} (n : nat) (l : list A) : list A := firstn n l.

(** [sum(...)] over a generator of ints *)
Definition sum (l : list Z) : Z := fold_right Z.add 0 l.

(** Truth value of an [Optional[str]]: [None] and the empty string are
    false. *)
Definition truthy (o : option string) : bool :=
  match o with
  | Some s => negb (s =? EmptyString)%string
  | None => false
  end.

(** [f"{n}"] for an int *)
Definition str_of_int (n : Z) : string := NilZero.string_of_int (Z.to_int n).

(** Groups of three digits from the right, as [f"{n:,}"] writes them. *)
Fixpoint group3 (fuel : nat) (rev_digits : list ascii) : list ascii :=
  match fuel with
  | O => rev_digits
  | S fuel' =>
      match rev_digits with
      | a :: b :: c :: (_ :: _) as rest =>
          a :: b :: c :: ","%char :: group3 fuel' rest
      | _ => rev_digits
      end
  end.

(** [f"{n:,}"] for an int *)
Definition str_of_int_grouped (n : Z) : string :=
  let digits := list_ascii_of_string (str_of_int (Z.abs n)) in
  let body := string_of_list_ascii (rev (group3 (length digits) (rev digits))) in
  if n <? 0 then "-" +:+ body else body.

(** [os.path.join(a, b)] (posixpath) *)
Definition path_join (a b : string) : string :=
  if startswith b "/" then b
  else if (a =? EmptyString)%string || endswith a "/" then a +:+ b
  else a +:+ "/" +:+ b.

(** [os.path.basename(p)] (posixpath): what follows the last separator *)
Fixpoint basename (p : string) : string :=
  match p with
  | EmptyString => EmptyString
  | String c rest =>
      if contains_char "/" rest then basename rest
      else if Ascii.eqb c "/" then rest else p
  end.

(** The newline character, [chr(10)] *)
Definition nl : string := String (ascii_of_nat 10) EmptyString.

End Py.

(** ** The abstract syntax trees of Python's [ast] module

    One constructor for each node class the indexer tests with
    [isinstance], carrying the fields it reads; every other class is
    [Other], with its child nodes in field order. *)

Module Ast.

Inductive boolop : Type := And | Or.

Inductive node : Type :=
| Module (body : list node)
| Import (names : list string)
| ImportFrom (module : option string) (names : list string)
| ClassDef (name : string) (lineno : Z) (end_lineno : option Z)
           (bases : list node) (body : list node) (decorator_list : list node)
  (** [FunctionDef], and [AsyncFunctionDef] when [is_async]; [arg_names]
      are the [arg] fields of [args.args], [arguments] is the
      [ast.arguments] node itself *)
| FunctionDef (is_async : bool) (name : string) (lineno : Z)
              (end_lineno : option Z) (arg_names : list string)
              (arguments : node) (body : list node)
              (decorator_list : list node) (returns : option node)
| If (test : node) (body orelse : list node)
| While (test : node) (body orelse : list node)
| For (target iter : node) (body orelse : list node)
| ExceptHandler (type : option node) (body : list node)
| BoolOp (op : boolop) (values : list node)
| Other (cls : string) (children : list node).

(** Attribute reads the indexer makes on nodes it has tested with
    [isinstance]; on any other node class the attribute does not exist
    and the value below is never used. *)
Definition node_name (n : node) : string :=
  match n with
  | ClassDef name _ _ _ _ _ | FunctionDef _ name _ _ _ _ _ _ _ => name
  | _ => EmptyString
  end.

Definition node_lineno (n : node) : Z :=
  match n with
  | ClassDef _ lineno _ _ _ _ | FunctionDef _ _ lineno _ _ _ _ _ _ => lineno
  | _ => 0
  end.

Definition node_end_lineno (n : node) : option Z :=
  match n with
  | ClassDef _ _ e _ _ _ | FunctionDef _ _ _ e _ _ _ _ _ => e
  | _ => None
  end.

Definition node_body (n : node) : list node :=
  match n with
  | Module body | ClassDef _ _ _ _ body _ | FunctionDef _ _ _ _ _ _ body _ _
  | If _ body _ | While _ body _ | For _ _ body _ | ExceptHandler _ body => body
  | _ => []
  end.

(** [[arg.arg for arg in node.args.args]] *)
Definition node_arg_names (n : node) : list string :=
  match n with
  | FunctionDef _ _ _ _ arg_names _ _ _ _ => arg_names
  | _ => []
  end.

(** [isinstance(n, (ast.FunctionDef, ast.AsyncFunctionDef))] *)
Definition is_function_def (n : node) : bool :=
  match n with FunctionDef _ _ _ _ _ _ _ _ _ => true | _ => false end.

Definition is_class_def (n : node) : bool :=
  match n with ClassDef _ _ _ _ _ _ => true | _ => false end.

Definition opt_node (o : option node) : list node :=
  match o with Some n => [n] | None => [] end.

Definition alias_node (name : string) : node := Other "alias" [].

Definition boolop_node (op : boolop) : node :=
  match op with And => Other "And" [] | Or => Other "Or" [] end.

(** [ast.iter_child_nodes(n)]: the direct child nodes, in field order *)
Definition iter_child_nodes (n : node) : list node :=
  match n with
  | Module body => body
  | Import names => map alias_node names
  | ImportFrom _ names => map alias_node names
  | ClassDef _ _ _ bases body decorator_list => bases ++ body ++ decorator_list
  | FunctionDef _ _ _ _ _ arguments body decorator_list returns =>
      arguments :: body ++ decorator_list ++ opt_node returns
  | If test body orelse => test :: body ++ orelse
  | While test body orelse => test :: body ++ orelse
  | For target iter body orelse => target :: iter :: body ++ orelse
  | ExceptHandler type body => opt_node type ++ body
  | BoolOp op values => boolop_node op :: values
  | Other _ children => children
  end.

(** Number of nodes of a tree: the number of nodes [ast.walk] yields. *)
Fixpoint node_count (n : node) : nat :=
  let count_opt (o : option node) : nat :=
    match o with Some x => node_count x | None => O end in
  match n with
  | Module body => S (list_sum (map node_count body))
  | Import names => S (length names)
  | ImportFrom _ names => S (length names)
  | ClassDef _ _ _ bases body decorator_list =>
      S (list_sum (map node_count bases) + list_sum (map node_count body)
         + list_sum (map node_count decorator_list))
  | FunctionDef _ _ _ _ _ arguments body decorator_list returns =>
      S (node_count arguments + list_sum (map node_count body)
         + list_sum (map node_count decorator_list) + count_opt returns)
  | If test body orelse | While test body orelse =>
      S (node_count test + list_sum (map node_count body)
         + list_sum (map node_count orelse))
  | For target iter body orelse =>
      S (node_count target + node_count iter + list_sum (map node_count body)
         + list_sum (map node_count orelse))
  | ExceptHandler type body => S (count_opt type + list_sum (map node_count body))
  | BoolOp op values => S (1 + list_sum (map node_count values))
  | Other _ children => S (list_sum (map node_count children))
  end.

(** The loop of [ast.walk]: pop the first node of the queue, push its
    children at the back, yield it.  [fuel] bounds the iterations. *)
Fixpoint walk_loop (fuel : nat) (todo : list node) : list node :=
  match fuel with
  | O => []
  | S fuel' =>
      match todo with
      | [] => []
      | n :: rest => n :: walk_loop fuel' (rest ++ iter_child_nodes n)
      end
  end.

(** [ast.walk(n)]: all nodes of the tree, breadth first.  The queue
    empties after [node_count n] iterations. *)
Definition walk (n : node) : list node := walk_loop (node_count n) [n].

(** [d] is the node [n] or lies below it: it is reached from [n] through
    [iter_child_nodes]. *)
Inductive subnode (d : node) : node -> Prop :=
| subnode_self : subnode d d
| subnode_child (n c : node) :
    In c (iter_child_nodes n) -> subnode d c -> subnode d n.

End Ast.

(** ** [_calculate_complexity] *)

Module Complexity.
Import Ast.

(** [isinstance(child, (ast.If, ast.While, ast.For, ast.ExceptHandler))] *)
Definition is_branching (child : node) : bool :=
  match child with
  | If _ _ _ | While _ _ _ | For _ _ _ _ | ExceptHandler _ _ => true
  | _ => false
  end.

(** One iteration of the loop body of [_calculate_complexity]. *)
Definition complexity_step (complexity : Z) (child : node) : Z :=
  if is_branching child then complexity + 1
  else match child with
       | BoolOp _ values => complexity + (Py.len values - 1)
       | _ => complexity
       end.

(** [_calculate_complexity(node)] *)
Definition _calculate_complexity (n : node) : Z :=
  fold_left complexity_step (walk n) 1.

(** *** The metric, counted structurally

    The count of the node classes the code tests, over the syntax tree of
    the whole definition and not over a traversal. *)

(** The number of [ast.If], [ast.While], [ast.For] and
    [ast.ExceptHandler] nodes in the tree [n]. *)
Fixpoint branching_constructs (n : node) : Z :=
  let in_list (l : list node) : Z := Py.sum (map branching_constructs l) in
  let in_opt (o : option node) : Z :=
    match o with Some x => branching_constructs x | None => 0 end in
  match n with
  | Module body => in_list body
  | Import _ | ImportFrom _ _ => 0
  | ClassDef _ _ _ bases body decorator_list =>
      in_list bases + in_list body + in_list decorator_list
  | FunctionDef _ _ _ _ _ arguments body decorator_list returns =>
      branching_constructs arguments + in_list body + in_list decorator_list
      + in_opt returns
  | If test body orelse | While test body orelse =>
      1 + branching_constructs test + in_list body + in_list orelse
  | For target iter body orelse =>
      1 + branching_constructs target + branching_constructs iter
      + in_list body + in_list orelse
  | ExceptHandler type body => 1 + in_opt type + in_list body
  | BoolOp _ values => in_list values
  | Other _ children => in_list children
  end.

(** The sum, over every boolean combinator of [N] operands in the tree
    [n], of [N - 1]. *)
Fixpoint boolean_surplus (n : node) : Z :=
  let in_list (l : list node) : Z := Py.sum (map boolean_surplus l) in
  let in_opt (o : option node) : Z :=
    match o with Some x => boolean_surplus x | None => 0 end in
  match n with
  | Module body => in_list body
  | Import _ | ImportFrom _ _ => 0
  | ClassDef _ _ _ bases body decorator_list =>
      in_list bases + in_list body + in_list decorator_list
  | FunctionDef _ _ _ _ _ arguments body decorator_list returns =>
      boolean_surplus arguments + in_list body + in_list decorator_list
      + in_opt returns
  | If test body orelse | While test body orelse =>
      boolean_surplus test + in_list body + in_list orelse
  | For target iter body orelse =>
      boolean_surplus target + boolean_surplus iter + in_list body + in_list orelse
  | ExceptHandler type body => in_opt type + in_list body
  | BoolOp _ values => (Py.len values - 1) + in_list values
  | Other _ children => in_list children
  end.

(** [def f(a, b)] whose body is an [if] on a three-way [and], holding a
    [for] loop, with a [try] and one handler in its [else] branch. *)
Definition sample_function : node :=
  let name := Other "Name" [] in
  let pass := Other "Pass" [] in
  FunctionDef false "f" 1 (Some 9) ["a"; "b"]
    (Other "arguments" [Other "arg" []; Other "arg" []])
    [ If (BoolOp And [name; name; name])
         [For name name [pass] []]
         [Other "Try" [pass; ExceptHandler None [pass]]] ]
    [] None.

(** What one node adds to the complexity, and the structural metric of
    a tree. *)
Definition weight (n : node) : Z := complexity_step 0 n.

Definition metric (n : node) : Z := branching_constructs n + boolean_surplus n.

(** A boolean combinator without operands, which the parser never
    builds, is the one node that lowers the count. *)
Definition has_operands (child : node) : bool :=
  match child with
  | BoolOp _ [] => false
  | _ => true
  end.

(** *** The metric as the specification words it

    "+1 per branching construct (conditional, loop, exception handler) in
    its body; +(N-1) per N-way boolean combinator": counted over the
    statements of the body of the definition, with the conditional
    expression among the conditionals and the asynchronous loop among the
    loops. *)

(** A conditional ([if] statement or conditional expression), a loop
    ([while], [for], [async for]) or an exception handler. *)
Definition is_branching_construct (n : node) : bool :=
  match n with
  | If _ _ _ | While _ _ _ | For _ _ _ _ | ExceptHandler _ _ => true
  | Other cls _ => Py.str_in cls ["IfExp"; "AsyncFor"]
  | _ => false
  end.

(** [N - 1] for a boolean combinator of [N] operands. *)
Definition combinator_surplus (n : node) : Z :=
  match n with
  | BoolOp _ values => Py.len values - 1
  | _ => 0
  end.

Definition complexity_as_specified (n : node) : Z :=
  let in_body := flat_map walk (node_body n) in
  1 + Py.len (List.filter is_branching_construct in_body)
  + Py.sum (map combinator_surplus in_body).

(** [async def f(xs)] whose body is an [async for] loop. *)
Definition async_loop_function : node :=
  let name := Other "Name" [] in
  FunctionDef true "f" 1 (Some 3) ["xs"]
    (Other "arguments" [Other "arg" []])
    [Other "AsyncFor" [name; name; Other "Pass" []]]
    [] None.

(** [def g(a=b or c): pass]: a boolean combinator in the default of an
    argument, outside the body. *)
Definition default_function : node :=
  let name := Other "Name" [] in
  FunctionDef false "g" 1 (Some 1) ["a"]
    (Other "arguments" [Other "arg" []; BoolOp Or [name; name]])
    [Other "Pass" []]
    [] None.

End Complexity.

(** ** The pydantic models of [distributed_models.py]

    Every model is a record; a field keeps the name it has in the source
    behind the prefix of its model.  The [indexed_at] time stamps are wall
    clock readings and are left out. *)

Inductive CodeLanguage : Type :=
  PYTHON | JAVASCRIPT | TYPESCRIPT | JAVA | GO | RUST | OTHER.

Inductive CodeElementType : Type := FILE | CLASS | FUNCTION | METHOD.

(** [element_type.value] *)
Definition CodeElementType_value (t : CodeElementType) : string :=
  match t with
  | FILE => "file" | CLASS => "class" | FUNCTION => "function" | METHOD => "method"
  end.

Definition CodeElementType_eqb (a b : CodeElementType) : bool :=
  match a, b with
  | FILE, FILE | CLASS, CLASS | FUNCTION, FUNCTION | METHOD, METHOD => true
  | _, _ => false
  end.

Inductive CodeElementMetadata : Type := mkCodeElementMetadata {
  elem_name : string;
  elem_element_type : CodeElementType;
  elem_file_path : string;
  elem_start_line : Z;
  elem_end_line : Z;
  elem_summary : option string;
  elem_signature : option string;
  elem_complexity : option Z;
  elem_is_public : bool;
  elem_children : list CodeElementMetadata }.

Record FileMetadata : Type := mkFileMetadata {
  file_file_path : string;
  file_relative_path : string;
  file_language : CodeLanguage;
  file_summary : option string;
  file_total_lines : Z;
  file_elements : list CodeElementMetadata;
  file_imports : list string;
  file_exports : list string;
  file_file_hash : option string }.

Record SubdirectoryReference : Type := mkSubdirectoryReference {
  ref_dir_name : string;
  ref_dir_path : string;
  ref_relative_path : string;
  ref_index_file_path : string;
  ref_summary : option string;
  ref_file_count : Z;
  ref_subdir_count : Z }.

Record DirectoryIndex : Type := mkDirectoryIndex {
  dir_dir_path : string;
  dir_relative_path : string;
  dir_index_file_path : string;
  dir_summary : option string;
  dir_parent_index_path : option string;
  dir_files : list FileMetadata;
  dir_subdirectories : list SubdirectoryReference;
  dir_direct_file_count : Z;
  dir_total_file_count : Z;
  dir_total_lines : Z }.

Record RepositoryIndex : Type := mkRepositoryIndex {
  repo_repo_id : string;
  repo_name : string;
  repo_repo_path : string;
  repo_index_root_path : string;
  repo_root_index_path : string;
  repo_summary : option string;
  repo_architecture_description : option string;
  repo_primary_language : string;
  repo_total_files : Z;
  repo_total_lines : Z;
  repo_total_classes : Z;
  repo_total_functions : Z;
  repo_total_methods : Z;
  repo_total_directories : Z;
  repo_entry_points : list string;
  repo_external_dependencies : list string }.

(** [DirectoryIndex.get_file_paths] *)
Definition get_file_paths (d : DirectoryIndex) : list string :=
  map file_file_path (dir_files d).

(** [DirectoryIndex.get_subdirectory_index_paths] *)
Definition get_subdirectory_index_paths (d : DirectoryIndex) : list string :=
  map ref_index_file_path (dir_subdirectories d).

(** Field updates, as the indexer assigns them. *)
Definition set_file_summary (f : FileMetadata) (s : option string) : FileMetadata :=
  mkFileMetadata (file_file_path f) (file_relative_path f) (file_language f) s
    (file_total_lines f) (file_elements f) (file_imports f) (file_exports f)
    (file_file_hash f).

Definition set_file_hash (f : FileMetadata) (h : option string) : FileMetadata :=
  mkFileMetadata (file_file_path f) (file_relative_path f) (file_language f)
    (file_summary f) (file_total_lines f) (file_elements f) (file_imports f)
    (file_exports f) h.

Definition set_file_contents (f : FileMetadata) (elements : list CodeElementMetadata)
    (imports : list string) : FileMetadata :=
  mkFileMetadata (file_file_path f) (file_relative_path f) (file_language f)
    (file_summary f) (file_total_lines f) elements imports (file_exports f)
    (file_file_hash f).

(** What [model_dump()] keeps of a file record: [file_hash] is declared
    with [exclude=True]. *)
Definition dump_file (f : FileMetadata) : FileMetadata := set_file_hash f None.

(** The record read back from the JSON that [json.dump(d.model_dump())]
    wrote. *)
Definition dump_directory (d : DirectoryIndex) : DirectoryIndex :=
  mkDirectoryIndex (dir_dir_path d) (dir_relative_path d) (dir_index_file_path d)
    (dir_summary d) (dir_parent_index_path d) (map dump_file (dir_files d))
    (dir_subdirectories d) (dir_direct_file_count d) (dir_total_file_count d)
    (dir_total_lines d).

(** A record without its summary and stored digest: what a record is
    apart from the fields the summary pass assigns. *)
Definition erase_summary (f : FileMetadata) : FileMetadata :=
  set_file_hash (set_file_summary f None) None.

(** The count invariant of a directory record. *)
Definition file_count_invariant (d : DirectoryIndex) : Prop :=
  dir_total_file_count d
  = dir_direct_file_count d + Py.sum (map ref_file_count (dir_subdirectories d)).

(** What the closing steps of [_index_directory] make of the record [d0]
    the two loops built: [d] has the statistics filled in and possibly
    summaries assigned, and is [d0] otherwise. *)
Definition finished (d0 d : DirectoryIndex) : Prop :=
  dir_dir_path d = dir_dir_path d0
  /\ dir_relative_path d = dir_relative_path d0
  /\ dir_index_file_path d = dir_index_file_path d0
  /\ dir_parent_index_path d = dir_parent_index_path d0
  /\ dir_subdirectories d = dir_subdirectories d0
  /\ dir_direct_file_count d = dir_direct_file_count d0
  /\ dir_total_file_count d
     = dir_direct_file_count d0 + Py.sum (map ref_file_count (dir_subdirectories d0))
  /\ dir_total_lines d = Py.sum (map file_total_lines (dir_files d0))
  /\ map erase_summary (dir_files d) = map erase_summary (dir_files d0).

(** What the closing steps leave alone: a record of [d0] that carries a
    summary is the same record in [d], and a cache entry under a key that
    no record of [d0] stores is the same entry afterwards. *)
Definition kept (d0 d : DirectoryIndex)
    (cache cache' : gmap (option string) string) : Prop :=
  (forall i f, dir_files d0 !! i = Some f -> Py.truthy (file_summary f) = true ->
               dir_files d !! i = Some f)
  /\ (forall key, ~ In key (map file_file_hash (dir_files d0)) -> cache' !! key = cache !! key).

(** ** The world the indexer runs in *)

(** The source tree.  A directory holds its entries under the names
    [os.listdir] reports; [None] stands for an entry that cannot be read:
    [open]/[read] raise on the file, [os.listdir] raises [PermissionError]
    on the directory.  [Special] is an entry for which both
    [os.path.isfile] and [os.path.isdir] are false. *)
Inductive fs_node : Type :=
| RegularFile (content : option string)
| Directory (listing : option (list (string * fs_node)))
| Special.

(** What lies on the output disk: the JSON documents written so far. *)
Inductive artifact : Type :=
| DirectoryArtifact (d : DirectoryIndex)
| RepositoryArtifact (r : RepositoryIndex).

Inductive exn : Type :=
| NotADirectoryError (path : string)
| FileNotFoundError (path : string)
| OSError (path : string)
| ValidationError (path : string)
| RecursionError
| NameError (name : string)
| BackendError.

(** The mutable world: [self.summary_cache] (a key is a digest, or [None]
    when a record without a stored digest went through the batch), the
    files of the output directory (most recent write first) and the
    prompts sent to the completion backend (most recent first). *)
Record state : Type := mkState {
  summary_cache : gmap (option string) string;
  disk : list (string * artifact);
  llm_calls : list string }.

(** The entries of a directory that could be listed. *)
Definition listing_of (nd : fs_node) : list (string * fs_node) :=
  match nd with
  | Directory (Some items) => items
  | _ => []
  end.

(** The disk of [st] is [base] with new documents written on top, each
    of them a directory record that satisfies [P]. *)
Definition new_records_satisfy (P : DirectoryIndex -> Prop)
    (base : list (string * artifact)) (st : state) : Prop :=
  exists new,
    disk st = new ++ base
    /\ Forall (fun entry => exists d, snd entry = DirectoryArtifact d /\ P d) new.

(** The collaborators outside the repository. *)
Class Backend : Type := {
  (** [hashlib.md5(data).hexdigest()] *)
  md5_hexdigest : string -> string;
  (** [ast.parse(content)]; [None] when it raises [SyntaxError] *)
  ast_parse : string -> option Ast.node;
  (** [content.splitlines()] *)
  splitlines : string -> list string;
  (** [client.chat.completions.create(...)] followed by
      [.choices[0].message.content.strip()]: the answer to the prompt given
      the number of calls made before and [max_tokens], or [None] when
      anything in that chain raises *)
  chat_completion : nat -> string -> Z -> option string;
  (** which of the pending futures [as_completed] hands out next, given
      how many it has handed out and how many are pending *)
  next_completed : nat -> nat -> nat;
  (** whether creating or writing the output path succeeds *)
  writable : string -> bool;
  (** the interpreter's bound on nested calls *)
  recursion_limit : nat }.

(** ** Exceptions and state *)

Inductive outcome (A : Type) : Type :=
| Return (a : A)
| Raise (e : exn).
Arguments Return {A} a.
Arguments Raise {A} e.

(** A computation of the indexer: it reads and changes the world and
    either returns or raises; what it changed before raising stays. *)
Definition M (A : Type) : Type := state -> outcome A * state.

Definition ret {A} (a : A) : M A := fun st => (Return a, st).

Definition raise {A} (e : exn) : M A := fun st => (Raise e, st).

Definition bind {A B} (c : M A) (k : A -> M B) : M B :=
  fun st =>
    match c st with
    | (Return a, st') => k a st'
    | (Raise e, st') => (Raise e, st')
    end.

(** [try: c except Exception as e: handler] *)
Definition try_except {A} (c : M A) (handler : exn -> M A) : M A :=
  fun st =>
    match c st with
    | (Return a, st') => (Return a, st')
    | (Raise e, st') => handler e st'
    end.

Notation "'let*' x ':=' c 'in' k" := (bind c (fun x => k))
  (at level 10, x pattern, c at level 100, k at level 200).

Definition get_cache : M (gmap (option string) string) :=
  fun st => (Return (summary_cache st), st).

(** [self.summary_cache[key] = value] *)
Definition cache_store (key : option string) (value : string) : M unit :=
  fun st =>
    (Return tt, mkState (<[key := value]> (summary_cache st)) (disk st) (llm_calls st)).

(** The first entry of an association list under a key. *)
Fixpoint assoc {A} (key : string) (l : list (string * A)) : option A :=
  match l with
  | [] => None
  | (k, v) :: rest => if (k =? key)%string then Some v else assoc key rest
  end.

Section Indexer.
Context {B : Backend}.
Import Ast.

(** *** Output disk and completion backend *)

(** [os.makedirs(path, exist_ok=True)] *)
Definition makedirs (path : string) : M unit :=
  if writable path then ret tt else raise (OSError path).

(** [with open(path, 'w') as f: json.dump(doc, f, ...)] *)
Definition write_json (path : string) (doc : artifact) : M unit :=
  fun st =>
    if writable path
    then (Return tt, mkState (summary_cache st) ((path, doc) :: disk st) (llm_calls st))
    else (Raise (OSError path), st).

(** [with open(path, 'r') as f]: the [DirectoryIndex] built from
    [json.load(f)] *)
Definition load_directory_index (path : string) : M DirectoryIndex :=
  fun st =>
    match assoc path (disk st) with
    | None => (Raise (FileNotFoundError path), st)
    | Some (DirectoryArtifact d) => (Return d, st)
    | Some (RepositoryArtifact _) => (Raise (ValidationError path), st)
    end.

(** One request to the completion backend; a failed request raises. *)
Definition create_completion (prompt : string) (max_tokens : Z) : M string :=
  fun st =>
    let st' := mkState (summary_cache st) (disk st) (prompt :: llm_calls st) in
    match chat_completion (length (llm_calls st)) prompt max_tokens with
    | Some text => (Return text, st')
    | None => (Raise BackendError, st')
    end.

(** *** Element extraction *)

(** [not name.startswith('_')] *)
Definition is_public_name (name : string) : bool := negb (Py.startswith name "_").

(** [node.end_lineno or node.lineno] *)
Definition end_line_of (n : node) : Z :=
  match node_end_lineno n with
  | Some e => if e =? 0 then node_lineno n else e
  | None => node_lineno n
  end.

Definition _extract_function_metadata (n : node) (file_path : string)
    (is_method : bool) : CodeElementMetadata :=
  let args := node_arg_names n in
  let signature := node_name n +:+ "(" +:+ Py.str_join ", " args +:+ ")" in
  {| elem_name := node_name n;
     elem_element_type := if is_method then METHOD else FUNCTION;
     elem_file_path := file_path;
     elem_start_line := node_lineno n;
     elem_end_line := end_line_of n;
     elem_summary := None;
     elem_signature := Some signature;
     elem_complexity := Some (Complexity._calculate_complexity n);
     elem_is_public := is_public_name (node_name n);
     elem_children := [] |}.

Definition _extract_class_metadata (n : node) (file_path : string) : CodeElementMetadata :=
  {| elem_name := node_name n;
     elem_element_type := CLASS;
     elem_file_path := file_path;
     elem_start_line := node_lineno n;
     elem_end_line := end_line_of n;
     elem_summary := None;
     elem_signature := None;
     elem_complexity := None;
     elem_is_public := is_public_name (node_name n);
     elem_children :=
       map (fun item => _extract_function_metadata item file_path true)
           (List.filter (fun item => is_function_def item) (node_body n)) |}.

(** The import loop of [_index_python_file], for one walked node. *)
Definition imports_of (n : node) : list string :=
  match n with
  | Import names => names
  | ImportFrom module _ => if Py.truthy module then option_list module else []
  | _ => []
  end.

(** The top-level loop of [_index_python_file], for one statement. *)
Definition element_of (file_path : string) (n : node) : list CodeElementMetadata :=
  if is_class_def n then [_extract_class_metadata n file_path]
  else if is_function_def n then [_extract_function_metadata n file_path false]
  else [].

(** [_hash_file]: the digest of the file's bytes, or of its path when
    the file cannot be read. *)
Definition _hash_file (file_path : string) (content : option string) : string :=
  match content with
  | Some data => md5_hexdigest data
  | None => md5_hexdigest file_path
  end.

(** [os.path.relpath(p, repo_root)] for the path [p] reached from
    [repo_root] through the entry names [rel]. *)
Definition relpath (rel : list string) : string :=
  match rel with
  | [] => "."
  | _ => Py.str_join "/" rel
  end.

(** [_index_python_file]; [content] is what the file holds and [rel] the
    entry names leading to it from the repository root. *)
Definition _index_python_file (file_path : string) (rel : list string)
    (content : option string) (generate_summaries : bool)
    (cache : gmap (option string) string) : option FileMetadata :=
  match content with
  | None => None
  | Some text =>
      let file_metadata :=
        {| file_file_path := file_path;
           file_relative_path := relpath rel;
           file_language := PYTHON;
           file_summary := None;
           file_total_lines := Py.len (splitlines text);
           file_elements := [];
           file_imports := [];
           file_exports := [];
           file_file_hash := None |} in
      match ast_parse text with
      | None => Some file_metadata
      | Some tree =>
          let imports := flat_map imports_of (walk tree) in
          let elements := flat_map (element_of file_path) (node_body tree) in
          let file_metadata := set_file_contents file_metadata elements imports in
          if generate_summaries then
            let file_hash := _hash_file file_path content in
            match cache !! Some file_hash with
            | Some cached => Some (set_file_summary file_metadata (Some cached))
            | None =>
                Some (set_file_hash (set_file_summary file_metadata None)
                        (Some file_hash))
            end
          else Some file_metadata
      end
  end.

(** *** Summaries *)

(** One line of [elements_desc]. *)
Definition element_desc (element : CodeElementMetadata) : string :=
  if CodeElementType_eqb (elem_element_type element) CLASS
  then "- Class: " +:+ elem_name element +:+ " ("
       +:+ Py.str_of_int (Py.len (elem_children element)) +:+ " methods)"
  else "- " +:+ CodeElementType_value (elem_element_type element) +:+ ": "
       +:+ elem_name element.

Definition file_prompt (file_metadata : FileMetadata) : string :=
  let elements_desc := map element_desc (Py.slice_to 10 (file_elements file_metadata)) in
  let imports_str :=
    match file_imports file_metadata with
    | [] => "none"
    | imports => Py.str_join ", " (Py.slice_to 5 imports)
    end in
  Py.str_join Py.nl
    [ "Summarize this Python file in one concise sentence:";
      EmptyString;
      "File: " +:+ file_relative_path file_metadata;
      "Lines: " +:+ Py.str_of_int (file_total_lines file_metadata);
      "Imports: " +:+ imports_str;
      EmptyString;
      "Code Elements:";
      Py.str_join Py.nl elements_desc;
      EmptyString;
      "Provide ONE sentence describing the file's purpose and main functionality." ].

(** [_generate_file_summary_sync]: the generator the batch calls. *)
Definition _generate_file_summary_sync (file_metadata : FileMetadata) : M string :=
  match file_elements file_metadata with
  | [] => ret ("Python file with " +:+ Py.str_of_int (file_total_lines file_metadata)
               +:+ " lines")
  | _ => create_completion (file_prompt file_metadata) 80
  end.

(** [_generate_file_summary]: the same generator with a handler of its
    own around the request. *)
Definition _generate_file_summary (file_metadata : FileMetadata) : M string :=
  match file_elements file_metadata with
  | [] => ret ("Python file with " +:+ Py.str_of_int (file_total_lines file_metadata)
               +:+ " lines")
  | _ =>
      try_except
        (create_completion (file_prompt file_metadata) 80)
        (fun _ =>
           ret ("Contains " +:+ Py.str_of_int (Py.len (file_elements file_metadata))
                +:+ " code elements"))
  end.

(** [hasattr(f, 'file_hash')]: [file_hash] is a declared field of the
    model, so every record has the attribute. *)
Definition hasattr_file_hash (f : FileMetadata) : bool := true.

(** The records of [files], with their positions, that the batch will
    summarize. *)
Definition files_to_summarize (files : list FileMetadata) : list (nat * FileMetadata) :=
  List.filter (fun '(_, f) => negb (Py.truthy (file_summary f)) && hasattr_file_hash f)
         (combine (seq 0 (length files)) files).

(** [generate_one_summary]: the work of one future.  The record is named
    by its position in [files]. *)
Definition generate_one_summary (job : nat * FileMetadata)
    : M (option string * string * nat) :=
  let '(position, file_metadata) := job in
  try_except
    (let* summary := _generate_file_summary_sync file_metadata in
     ret (file_file_hash file_metadata, summary, position))
    (fun _ =>
       ret (file_file_hash file_metadata,
            "Contains " +:+ Py.str_of_int (Py.len (file_elements file_metadata))
            +:+ " code elements",
            position)).

(** The futures run in submission order here; [as_completed] then hands
    their results out in the order the backend chooses. *)
Fixpoint submit_all (jobs : list (nat * FileMetadata))
    : M (list (option string * string * nat)) :=
  match jobs with
  | [] => ret []
  | job :: rest =>
      let* result := generate_one_summary job in
      let* results := submit_all rest in
      ret (result :: results)
  end.

Definition remove_nth {A} (i : nat) (l : list A) : list A :=
  firstn i l ++ skipn (S i) l.

Fixpoint completion_order {A} (fuel handed : nat) (pending : list A) : list A :=
  match fuel with
  | O => []
  | S fuel' =>
      let i := (next_completed handed (length pending) mod length pending)%nat in
      match nth_error pending i with
      | Some x => x :: completion_order fuel' (S handed) (remove_nth i pending)
      | None => []
      end
  end.

(** [as_completed(futures)] *)
Definition as_completed {A} (futures : list A) : list A :=
  completion_order (length futures) 0 futures.

(** The body of the [for future in as_completed(futures)] loop. *)
Definition collect_result (files : list FileMetadata)
    (result : option string * string * nat) : M (list FileMetadata) :=
  let '(file_hash, summary, position) := result in
  let files := alter (fun f => set_file_summary f (Some summary)) position files in
  let* _ := cache_store file_hash summary in
  ret files.

Fixpoint collect_results (files : list FileMetadata)
    (results : list (option string * string * nat)) : M (list FileMetadata) :=
  match results with
  | [] => ret files
  | result :: rest =>
      let* files := collect_result files result in
      collect_results files rest
  end.

(** [_batch_generate_file_summaries]: returns the list of records as the
    in-place assignments leave it. *)
Definition _batch_generate_file_summaries (files : list FileMetadata)
    : M (list FileMetadata) :=
  match files with
  | [] => ret files
  | _ =>
      match files_to_summarize files with
      | [] => ret files
      | jobs =>
          let* results := submit_all jobs in
          collect_results files (as_completed results)
      end
  end.

(** *** A pure reading of the batch

    The same computation without the state: what each future returns and
    what the collecting loop leaves behind. *)

(** Whether the generator sends a request for the record. *)
Definition uses_backend (f : FileMetadata) : bool :=
  match file_elements f with [] => false | _ => true end.

(** The text one future returns when [calls] requests were sent before. *)
Definition summary_text (calls : nat) (f : FileMetadata) : string :=
  match file_elements f with
  | [] => "Python file with " +:+ Py.str_of_int (file_total_lines f) +:+ " lines"
  | _ =>
      match chat_completion calls (file_prompt f) 80 with
      | Some text => text
      | None =>
          "Contains " +:+ Py.str_of_int (Py.len (file_elements f)) +:+ " code elements"
      end
  end.

Fixpoint batch_results (calls : nat) (jobs : list (nat * FileMetadata))
    : list (option string * string * nat) :=
  match jobs with
  | [] => []
  | (position, f) :: rest =>
      (file_file_hash f, summary_text calls f, position)
        :: batch_results (if uses_backend f then S calls else calls) rest
  end.

(** The prompts the futures of [jobs] send, in submission order. *)
Definition batch_prompts (jobs : list (nat * FileMetadata)) : list string :=
  map file_prompt (List.filter uses_backend (map snd jobs)).

Definition apply_result (files : list FileMetadata)
    (result : option string * string * nat) : list FileMetadata :=
  alter (fun f => set_file_summary f (Some (snd (fst result)))) (snd result) files.

Definition store_result (cache : gmap (option string) string)
    (result : option string * string * nat) : gmap (option string) string :=
  <[fst (fst result) := snd (fst result)]> cache.

(** *** The batch as the specification words it *)

(** The requests one batch sends to the backend. *)
Definition batch_requests (files : list FileMetadata) (st : state) : nat :=
  length (llm_calls (snd (_batch_generate_file_summaries files st))) - length (llm_calls st).

(** The distinct digests of the records in the batch. *)
Definition batch_digests (files : list FileMetadata) : list (option string) :=
  remove_dups (map (fun job => file_file_hash (snd job)) (files_to_summarize files)).

(** "The generator is invoked at most once per distinct content digest." *)
Definition at_most_once_per_digest (files : list FileMetadata) (st : state) : Prop :=
  (batch_requests files st <= length (batch_digests files))%nat.

(** "Byte-identical files end up with identical summary text." *)
Definition same_digest_same_text (files : list FileMetadata) (st : state) : Prop :=
  forall files' st',
    _batch_generate_file_summaries files st = (Return files', st') ->
    forall f g,
      In f files' -> In g files' ->
      is_Some (file_file_hash f) -> file_file_hash f = file_file_hash g ->
      file_summary f = file_summary g.

(** "A hit short-circuits the generator": the record of a file whose
    digest is in the cache carries the cached summary, and a batch over it
    changes neither the record nor the world. *)
Definition hit_short_circuits_generator (file_path : string) (rel : list string)
    (text : string) (st : state) : Prop :=
  forall cached,
    summary_cache st !! Some (md5_hexdigest text) = Some cached ->
    exists file_metadata,
      _index_python_file file_path rel (Some text) true (summary_cache st)
      = Some file_metadata
      /\ file_summary file_metadata = Some cached
      /\ _batch_generate_file_summaries [file_metadata] st = (Return [file_metadata], st).

Definition file_summary_line (file : FileMetadata) : list string :=
  match file_summary file with
  | Some text =>
      if Py.truthy (file_summary file)
      then ["- " +:+ file_relative_path file +:+ ": " +:+ text] else []
  | None => []
  end.

Definition subdir_summary_line (subdir : SubdirectoryReference) : list string :=
  match ref_summary subdir with
  | Some text =>
      if Py.truthy (ref_summary subdir)
      then ["- " +:+ ref_relative_path subdir +:+ "/: " +:+ text] else []
  | None => []
  end.

Definition or_else (lines : list string) (default : string) : string :=
  match lines with
  | [] => default
  | _ => Py.str_join Py.nl lines
  end.

(** The two lists [_generate_directory_summary] collects. *)
Definition directory_file_summaries (dir_index : DirectoryIndex) : list string :=
  flat_map file_summary_line (Py.slice_to 10 (dir_files dir_index)).

Definition directory_subdir_summaries (dir_index : DirectoryIndex) : list string :=
  flat_map subdir_summary_line (Py.slice_to 5 (dir_subdirectories dir_index)).

Definition directory_prompt (dir_index : DirectoryIndex) : string :=
  Py.str_join Py.nl
    [ "Summarize this code directory in one concise sentence based on its contents:";
      EmptyString;
      "Directory: " +:+ dir_relative_path dir_index;
      "Files: " +:+ Py.str_of_int (Py.len (dir_files dir_index));
      "Subdirectories: " +:+ Py.str_of_int (Py.len (dir_subdirectories dir_index));
      EmptyString;
      "File Summaries:";
      or_else (directory_file_summaries dir_index) "(no files)";
      EmptyString;
      "Subdirectory Summaries:";
      or_else (directory_subdir_summaries dir_index) "(no subdirs)";
      EmptyString;
      "Provide ONE sentence describing what this directory contains and its purpose in the codebase." ].

Definition _generate_directory_summary (dir_index : DirectoryIndex) : M string :=
  match directory_file_summaries dir_index, directory_subdir_summaries dir_index with
  | [], [] =>
      ret ("Directory with " +:+ Py.str_of_int (Py.len (dir_files dir_index)) +:+ " files")
  | _, _ =>
      try_except
        (create_completion (directory_prompt dir_index) 100)
        (fun _ =>
           ret ("Directory with " +:+ Py.str_of_int (Py.len (dir_files dir_index))
                +:+ " files and "
                +:+ Py.str_of_int (Py.len (dir_subdirectories dir_index))
                +:+ " subdirectories"))
  end.

Definition repo_prompt (repo_index : RepositoryIndex) (root_index : DirectoryIndex)
    : string :=
  let dir_summaries :=
    flat_map subdir_summary_line (Py.slice_to 10 (dir_subdirectories root_index)) in
  let file_summaries :=
    flat_map file_summary_line (Py.slice_to 5 (dir_files root_index)) in
  Py.str_join Py.nl
    [ "Summarize this code repository based on its structure and contents:";
      EmptyString;
      "Repository: " +:+ repo_name repo_index;
      "Files: " +:+ Py.str_of_int (repo_total_files repo_index);
      "Lines: " +:+ Py.str_of_int_grouped (repo_total_lines repo_index);
      "Classes: " +:+ Py.str_of_int (repo_total_classes repo_index);
      "Functions: " +:+ Py.str_of_int (repo_total_functions repo_index);
      "Methods: " +:+ Py.str_of_int (repo_total_methods repo_index);
      "Dependencies: "
        +:+ Py.str_join ", " (Py.slice_to 10 (repo_external_dependencies repo_index));
      EmptyString;
      "Top-Level Directories:";
      or_else dir_summaries "(no directories)";
      EmptyString;
      "Root Files:";
      or_else file_summaries "(no root files)";
      EmptyString;
      "Provide a 2-3 sentence summary describing what this repository does and its main purpose." ].

Definition _generate_repo_summary (repo_index : RepositoryIndex)
    (root_index : DirectoryIndex) : M string :=
  try_except
    (create_completion (repo_prompt repo_index root_index) 200)
    (fun _ =>
       ret ("A " +:+ repo_primary_language repo_index +:+ " repository with "
            +:+ Py.str_of_int (repo_total_files repo_index) +:+ " files")).

(** *** The directory summary as the specification words it *)

(** "Generated from the top-10 child summaries": the child lines are
    those of the first ten references. *)
Definition uses_top_ten_children (dir_index : DirectoryIndex) : Prop :=
  directory_subdir_summaries dir_index
  = flat_map subdir_summary_line (Py.slice_to 10 (dir_subdirectories dir_index)).

(** Two records give the generator the same material: the same path and
    counts, the same first ten file summaries and the same first five
    child summaries, in the same order. *)
Definition summary_sources_agree (d1 d2 : DirectoryIndex) : Prop :=
  dir_relative_path d1 = dir_relative_path d2
  /\ length (dir_files d1) = length (dir_files d2)
  /\ length (dir_subdirectories d1) = length (dir_subdirectories d2)
  /\ map (fun f => (file_relative_path f, file_summary f)) (Py.slice_to 10 (dir_files d1))
     = map (fun f => (file_relative_path f, file_summary f)) (Py.slice_to 10 (dir_files d2))
  /\ map (fun r => (ref_relative_path r, ref_summary r))
       (Py.slice_to 5 (dir_subdirectories d1))
     = map (fun r => (ref_relative_path r, ref_summary r))
         (Py.slice_to 5 (dir_subdirectories d2)).

(** "Generated from at most the first [files_kept] file summaries and at
    most the first [children_kept] child summaries", together with the
    path and the counts of the record: the lines taken from the two
    truncated lists, the request made of them, and the text that results
    when [calls] requests were sent before. *)
Definition subset_file_lines (files_kept : nat) (dir_index : DirectoryIndex)
    : list string :=
  flat_map file_summary_line (Py.slice_to files_kept (dir_files dir_index)).

Definition subset_child_lines (children_kept : nat) (dir_index : DirectoryIndex)
    : list string :=
  flat_map subdir_summary_line (Py.slice_to children_kept (dir_subdirectories dir_index)).

Definition subset_prompt (files_kept children_kept : nat) (dir_index : DirectoryIndex)
    : string :=
  Py.str_join Py.nl
    [ "Summarize this code directory in one concise sentence based on its contents:";
      EmptyString;
      "Directory: " +:+ dir_relative_path dir_index;
      "Files: " +:+ Py.str_of_int (Py.len (dir_files dir_index));
      "Subdirectories: " +:+ Py.str_of_int (Py.len (dir_subdirectories dir_index));
      EmptyString;
      "File Summaries:";
      or_else (subset_file_lines files_kept dir_index) "(no files)";
      EmptyString;
      "Subdirectory Summaries:";
      or_else (subset_child_lines children_kept dir_index) "(no subdirs)";
      EmptyString;
      "Provide ONE sentence describing what this directory contains and its purpose in the codebase." ].

(** The requests the summary costs: none when neither list gives a
    line, else the one made of the lines. *)
Definition subset_requests (files_kept children_kept : nat) (dir_index : DirectoryIndex)
    : list string :=
  match subset_file_lines files_kept dir_index,
        subset_child_lines children_kept dir_index with
  | [], [] => []
  | _, _ => [subset_prompt files_kept children_kept dir_index]
  end.

Definition subset_summary (files_kept children_kept : nat) (calls : nat)
    (dir_index : DirectoryIndex) : string :=
  match subset_file_lines files_kept dir_index,
        subset_child_lines children_kept dir_index with
  | [], [] =>
      "Directory with " +:+ Py.str_of_int (Py.len (dir_files dir_index)) +:+ " files"
  | _, _ =>
      match chat_completion calls (subset_prompt files_kept children_kept dir_index) 100 with
      | Some text => text
      | None =>
          "Directory with " +:+ Py.str_of_int (Py.len (dir_files dir_index))
          +:+ " files and "
          +:+ Py.str_of_int (Py.len (dir_subdirectories dir_index))
          +:+ " subdirectories"
      end
  end.

(** *** [_index_directory] *)

(** [item.startswith('.') or item in ['node_modules', ...]] *)
Definition is_ignored (item : string) : bool :=
  Py.startswith item "."
  || Py.str_in item ["node_modules"; "__pycache__"; "venv"; ".venv"; "dist"; "build"].

(** [os.path.isfile] and [os.path.isdir] on an entry *)
Definition isfile (nd : fs_node) : bool :=
  match nd with RegularFile _ => true | _ => false end.

Definition isdir (nd : fs_node) : bool :=
  match nd with Directory _ => true | _ => false end.

Definition file_content (nd : fs_node) : option string :=
  match nd with RegularFile content => content | _ => None end.

(** [dir_index.files.append(file_metadata)] with
    [dir_index.direct_file_count += 1] *)
Definition add_file (d : DirectoryIndex) (file_metadata : FileMetadata) : DirectoryIndex :=
  mkDirectoryIndex (dir_dir_path d) (dir_relative_path d) (dir_index_file_path d)
    (dir_summary d) (dir_parent_index_path d) (dir_files d ++ [file_metadata])
    (dir_subdirectories d) (dir_direct_file_count d + 1) (dir_total_file_count d)
    (dir_total_lines d).

(** [dir_index.subdirectories.append(subdir_ref)] *)
Definition add_subdirectory (d : DirectoryIndex) (subdir_ref : SubdirectoryReference)
    : DirectoryIndex :=
  mkDirectoryIndex (dir_dir_path d) (dir_relative_path d) (dir_index_file_path d)
    (dir_summary d) (dir_parent_index_path d) (dir_files d)
    (dir_subdirectories d ++ [subdir_ref]) (dir_direct_file_count d)
    (dir_total_file_count d) (dir_total_lines d).

(** The first loop: index the Python files among the entries. *)
Fixpoint index_files (dir_path : string) (rel : list string)
    (generate_summaries : bool) (cache : gmap (option string) string)
    (items : list (string * fs_node)) (dir_index : DirectoryIndex) : DirectoryIndex :=
  match items with
  | [] => dir_index
  | (item, child) :: rest =>
      let item_path := Py.path_join dir_path item in
      let continue := index_files dir_path rel generate_summaries cache rest in
      if is_ignored item then continue dir_index
      else if isfile child && Py.endswith item ".py" then
        match _index_python_file item_path (rel ++ [item]) (file_content child)
                generate_summaries cache with
        | Some file_metadata => continue (add_file dir_index file_metadata)
        | None => continue dir_index
        end
      else continue dir_index
  end.

(** The reference a directory keeps to an indexed subdirectory. *)
Definition make_reference (item item_path : string) (subdir_index : DirectoryIndex)
    : SubdirectoryReference :=
  {| ref_dir_name := item;
     ref_dir_path := item_path;
     ref_relative_path := dir_relative_path subdir_index;
     ref_index_file_path := dir_index_file_path subdir_index;
     ref_summary := dir_summary subdir_index;
     ref_file_count := dir_total_file_count subdir_index;
     ref_subdir_count := Py.len (dir_subdirectories subdir_index) |}.

(** The second loop: index the subdirectories among the entries, in
    order, through the recursive call [index_child]. *)
Definition index_subdirectories
    (index_child : fs_node -> string -> list string -> M DirectoryIndex)
    (dir_path : string) (rel : list string)
    : list (string * fs_node) -> DirectoryIndex -> M DirectoryIndex :=
  fix loop (items : list (string * fs_node)) (dir_index : DirectoryIndex)
      : M DirectoryIndex :=
    match items with
    | [] => ret dir_index
    | (item, child) :: rest =>
        let item_path := Py.path_join dir_path item in
        if is_ignored item then loop rest dir_index
        else if isdir child then
          let* subdir_index := index_child child item_path (rel ++ [item]) in
          let subdir_ref := make_reference item item_path subdir_index in
          loop rest (add_subdirectory dir_index subdir_ref)
        else loop rest dir_index
    end.

(** [subdir_ref] is the reference made from the record that a call of
    [index_child] on a listed, not ignored entry returned. *)
Definition made_from_entry
    (index_child : fs_node -> string -> list string -> M DirectoryIndex)
    (dir_path : string) (rel : list string) (items : list (string * fs_node))
    (subdir_ref : SubdirectoryReference) : Prop :=
  exists item child subdir_index st1 st2,
    In (item, child) items
    /\ is_ignored item = false
    /\ index_child child (Py.path_join dir_path item) (rel ++ [item]) st1
       = (Return subdir_index, st2)
    /\ subdir_ref = make_reference item (Py.path_join dir_path item) subdir_index.

(** The statistics step: [total_file_count] and [total_lines]. *)
Definition aggregate (dir_index : DirectoryIndex) : DirectoryIndex :=
  let total_file_count := dir_direct_file_count dir_index in
  let total_lines := Py.sum (map file_total_lines (dir_files dir_index)) in
  let total_file_count :=
    fold_left (fun count subdir_ref => count + ref_file_count subdir_ref)
              (dir_subdirectories dir_index) total_file_count in
  mkDirectoryIndex (dir_dir_path dir_index) (dir_relative_path dir_index)
    (dir_index_file_path dir_index) (dir_summary dir_index)
    (dir_parent_index_path dir_index) (dir_files dir_index)
    (dir_subdirectories dir_index) (dir_direct_file_count dir_index)
    total_file_count total_lines.

Definition set_dir_files (d : DirectoryIndex) (files : list FileMetadata) : DirectoryIndex :=
  mkDirectoryIndex (dir_dir_path d) (dir_relative_path d) (dir_index_file_path d)
    (dir_summary d) (dir_parent_index_path d) files (dir_subdirectories d)
    (dir_direct_file_count d) (dir_total_file_count d) (dir_total_lines d).

Definition set_dir_summary (d : DirectoryIndex) (s : option string) : DirectoryIndex :=
  mkDirectoryIndex (dir_dir_path d) (dir_relative_path d) (dir_index_file_path d)
    s (dir_parent_index_path d) (dir_files d) (dir_subdirectories d)
    (dir_direct_file_count d) (dir_total_file_count d) (dir_total_lines d).

(** [_get_index_filename] *)
Definition _get_index_filename (relative_path : string) : string := "index.json".

(** Where the artifact of the directory at [rel] goes. *)
Definition index_dir_path_of (output_root : string) (rel : list string) : string :=
  if (relpath rel =? ".")%string then output_root
  else Py.path_join output_root (relpath rel).

Definition index_file_path_of (output_root : string) (rel : list string) : string :=
  Py.path_join (index_dir_path_of output_root rel) "index.json".

(** What follows the two loops: statistics, file summaries, directory
    summary, and the write of the artifact. *)
Definition finish_directory (generate_summaries : bool) (dir_index : DirectoryIndex)
    : M DirectoryIndex :=
  let dir_index := aggregate dir_index in
  let* files :=
    match generate_summaries, dir_files dir_index with
    | true, _ :: _ => _batch_generate_file_summaries (dir_files dir_index)
    | _, _ => ret (dir_files dir_index)
    end in
  let dir_index := set_dir_files dir_index files in
  let* dir_index :=
    match generate_summaries, dir_files dir_index, dir_subdirectories dir_index with
    | true, [], [] => ret dir_index
    | true, _, _ =>
        let* summary := _generate_directory_summary dir_index in
        ret (set_dir_summary dir_index (Some summary))
    | false, _, _ => ret dir_index
    end in
  let* _ := write_json (dir_index_file_path dir_index)
              (DirectoryArtifact (dump_directory dir_index)) in
  ret dir_index.

(** [DirectoryIndex(dir_path=..., relative_path=..., index_file_path=...,
    parent_index_path=...)]: the other fields take their defaults. *)
Definition new_directory_index (dir_path relative_path index_file_path : string)
    (parent_index_path : option string) : DirectoryIndex :=
  {| dir_dir_path := dir_path;
     dir_relative_path := relative_path;
     dir_index_file_path := index_file_path;
     dir_summary := None;
     dir_parent_index_path := parent_index_path;
     dir_files := [];
     dir_subdirectories := [];
     dir_direct_file_count := 0;
     dir_total_file_count := 0;
     dir_total_lines := 0 |}.

(** The record [_index_directory] starts from for the directory at
    [rel]. *)
Definition initial_index (output_root : string) (parent_index_path : option string)
    (dir_path : string) (rel : list string) : DirectoryIndex :=
  new_directory_index dir_path (relpath rel) (index_file_path_of output_root rel)
    parent_index_path.

(** [_index_directory], on the directory [nd] found at [dir_path], reached
    from the repository root through the entry names [rel].  A listing is
    in the order [sorted(os.listdir(dir_path))] gives. *)
Fixpoint _index_directory (output_root : string) (generate_summaries : bool)
    (parent_index_path : option string)
    (nd : fs_node) (dir_path : string) (rel : list string) {struct nd}
    : M DirectoryIndex :=
  let relative_path := relpath rel in
  let index_dir_path := index_dir_path_of output_root rel in
  let* _ := makedirs index_dir_path in
  let index_file_path := Py.path_join index_dir_path "index.json" in
  let dir_index :=
    new_directory_index dir_path relative_path index_file_path parent_index_path in
  match nd with
  | Directory None => ret dir_index
  | Directory (Some items) =>
      let* cache := get_cache in
      let dir_index := index_files dir_path rel generate_summaries cache items dir_index in
      let* dir_index :=
        index_subdirectories
          (_index_directory output_root generate_summaries (Some index_file_path))
          dir_path rel items dir_index in
      finish_directory generate_summaries dir_index
  | _ => raise (NotADirectoryError dir_path)
  end.

(** *** [_calculate_statistics] *)

Definition count_element (repo_index : RepositoryIndex) (element : CodeElementMetadata)
    : RepositoryIndex :=
  let r := repo_index in
  let is_class := CodeElementType_eqb (elem_element_type element) CLASS in
  let is_function := CodeElementType_eqb (elem_element_type element) FUNCTION in
  mkRepositoryIndex (repo_repo_id r) (repo_name r) (repo_repo_path r)
    (repo_index_root_path r) (repo_root_index_path r) (repo_summary r)
    (repo_architecture_description r) (repo_primary_language r)
    (repo_total_files r) (repo_total_lines r)
    (if is_class then repo_total_classes r + 1 else repo_total_classes r)
    (if is_class then repo_total_functions r
     else if is_function then repo_total_functions r + 1 else repo_total_functions r)
    (if is_class then repo_total_methods r + Py.len (elem_children element)
     else repo_total_methods r)
    (repo_total_directories r) (repo_entry_points r) (repo_external_dependencies r).

Definition collect_dependency (repo_index : RepositoryIndex) (imp : string)
    : RepositoryIndex :=
  let r := repo_index in
  if negb (Py.contains_char "." imp) && negb (Py.str_in imp ["os"; "sys"; "json"; "re"])
  then
    if negb (Py.str_in imp (repo_external_dependencies r))
    then mkRepositoryIndex (repo_repo_id r) (repo_name r) (repo_repo_path r)
           (repo_index_root_path r) (repo_root_index_path r) (repo_summary r)
           (repo_architecture_description r) (repo_primary_language r)
           (repo_total_files r) (repo_total_lines r) (repo_total_classes r)
           (repo_total_functions r) (repo_total_methods r)
           (repo_total_directories r) (repo_entry_points r)
           (repo_external_dependencies r ++ [imp])
    else r
  else r.

Definition count_file (repo_index : RepositoryIndex) (file : FileMetadata)
    : RepositoryIndex :=
  fold_left collect_dependency (file_imports file)
    (fold_left count_element (file_elements file) repo_index).

(** The head of [traverse]: what one directory record adds. *)
Definition count_directory (repo_index : RepositoryIndex) (dir_index : DirectoryIndex)
    : RepositoryIndex :=
  let r := repo_index in
  let r :=
    mkRepositoryIndex (repo_repo_id r) (repo_name r) (repo_repo_path r)
      (repo_index_root_path r) (repo_root_index_path r) (repo_summary r)
      (repo_architecture_description r) (repo_primary_language r)
      (repo_total_files r + dir_direct_file_count dir_index)
      (repo_total_lines r + Py.sum (map file_total_lines (dir_files dir_index)))
      (repo_total_classes r) (repo_total_functions r) (repo_total_methods r)
      (repo_total_directories r + 1) (repo_entry_points r)
      (repo_external_dependencies r) in
  fold_left count_file (dir_files dir_index) r.

(** [traverse]: the records of the subdirectories are read back from
    the output disk.  [depth] is the number of nested calls still
    allowed. *)
Fixpoint traverse (depth : nat) (dir_index : DirectoryIndex)
    (repo_index : RepositoryIndex) {struct depth} : M RepositoryIndex :=
  match depth with
  | O => raise RecursionError
  | S depth' =>
      let repo_index := count_directory repo_index dir_index in
      (fix loop (refs : list SubdirectoryReference) (repo_index : RepositoryIndex)
           : M RepositoryIndex :=
         match refs with
         | [] => ret repo_index
         | subdir_ref :: rest =>
             let* subdir_index := load_directory_index (ref_index_file_path subdir_ref) in
             let* repo_index := traverse depth' subdir_index repo_index in
             loop rest repo_index
         end) (dir_subdirectories dir_index) repo_index
  end.

(** The loop of [traverse] over the references of a record, given what
    a nested call of [traverse] does. *)
Definition visit_subdirectories
    (visit : DirectoryIndex -> RepositoryIndex -> M RepositoryIndex)
    : list SubdirectoryReference -> RepositoryIndex -> M RepositoryIndex :=
  fix loop (refs : list SubdirectoryReference) (repo_index : RepositoryIndex)
      : M RepositoryIndex :=
    match refs with
    | [] => ret repo_index
    | subdir_ref :: rest =>
        let* subdir_index := load_directory_index (ref_index_file_path subdir_ref) in
        let* repo_index := visit subdir_index repo_index in
        loop rest repo_index
    end.

Definition _calculate_statistics (repo_index : RepositoryIndex)
    (root_index : DirectoryIndex) : M RepositoryIndex :=
  traverse recursion_limit root_index repo_index.

(** *** [index_repository] *)

(** [_generate_id]: the first twelve digits of the digest of the path *)
Definition _generate_id (path : string) : string :=
  substring 0 12 (md5_hexdigest path).

Definition set_repo_summary (r : RepositoryIndex) (summary description : option string)
    : RepositoryIndex :=
  mkRepositoryIndex (repo_repo_id r) (repo_name r) (repo_repo_path r)
    (repo_index_root_path r) (repo_root_index_path r) summary description
    (repo_primary_language r) (repo_total_files r) (repo_total_lines r)
    (repo_total_classes r) (repo_total_functions r) (repo_total_methods r)
    (repo_total_directories r) (repo_entry_points r) (repo_external_dependencies r).

(** [index_repository], on the source tree [tree] found at [repo_path].
    After the repository index is saved, the closing report formats the
    name [index_dir], which is not bound in this function. *)
Definition index_repository (repo_path output_dir : string)
    (generate_summaries : bool) (tree : fs_node) : M RepositoryIndex :=
  let* _ := makedirs output_dir in
  let* root_index :=
    _index_directory output_dir generate_summaries None tree repo_path [] in
  let repo_name := Py.basename repo_path in
  let repo_index :=
    {| repo_repo_id := _generate_id repo_path;
       repo_name := repo_name;
       repo_repo_path := repo_path;
       repo_index_root_path := output_dir;
       repo_root_index_path := dir_index_file_path root_index;
       repo_summary := None;
       repo_architecture_description := None;
       repo_primary_language := "python";
       repo_total_files := 0;
       repo_total_lines := 0;
       repo_total_classes := 0;
       repo_total_functions := 0;
       repo_total_methods := 0;
       repo_total_directories := 0;
       repo_entry_points := [];
       repo_external_dependencies := [] |} in
  let* repo_index := _calculate_statistics repo_index root_index in
  let* repo_index :=
    if generate_summaries then
      let* summary := _generate_repo_summary repo_index root_index in
      ret (set_repo_summary repo_index (Some summary)
             (Some ("Distributed index with "
                    +:+ Py.str_of_int (repo_total_directories repo_index)
                    +:+ " directories")))
    else ret repo_index in
  let repo_index_path := Py.path_join output_dir "repo_index.json" in
  let* _ := write_json repo_index_path (RepositoryArtifact repo_index) in
  raise (NameError "index_dir").

(** *** The listing order *)

(** [sorted(names)]: insertion into a list ordered by name *)
Fixpoint insert_entry {A} (x : string * A) (l : list (string * A)) : list (string * A) :=
  match l with
  | [] => [x]
  | y :: rest =>
      if (fst x <=? fst y)%string then x :: l else y :: insert_entry x rest
  end.

Definition sorted_entries {A} (l : list (string * A)) : list (string * A) :=
  fold_right insert_entry [] l.

(** A source tree as the indexer meets it: every listing in the order
    [sorted(os.listdir(dir_path))] gives. *)
Fixpoint sorted_view (nd : fs_node) : fs_node :=
  match nd with
  | Directory (Some items) =>
      Directory (Some (sorted_entries
                         (map (fun entry => (fst entry, sorted_view (snd entry))) items)))
  | _ => nd
  end.

(** *** The source files of a run *)

(** The Python files [_index_directory] reads in and below the directory
    [nd]: for each, the entry names leading to it from the repository
    root, and its text. *)
Fixpoint python_sources (nd : fs_node) (rel : list string) : list (list string * string) :=
  match nd with
  | Directory (Some items) =>
      flat_map
        (fun entry =>
           if is_ignored (fst entry) then []
           else match snd entry with
                | RegularFile (Some text) =>
                    if Py.endswith (fst entry) ".py" then [(rel ++ [fst entry], text)]
                    else []
                | Directory _ => python_sources (snd entry) (rel ++ [fst entry])
                | _ => []
                end)
        items
  | _ => []
  end.

(** The file records held by the directory records among [documents]. *)
Definition written_file_records (documents : list (string * artifact)) : list FileMetadata :=
  flat_map
    (fun entry =>
       match snd entry with
       | DirectoryArtifact d => dir_files d
       | RepositoryArtifact _ => []
       end)
    documents.

(** Whether an entry is a regular file that the first loop hands to
    [_index_python_file]. *)
Definition is_python_source (item : string) (child : fs_node) : bool :=
  negb (is_ignored item) && (isfile child && Py.endswith item ".py").

(** The tree [nd] without its other files: in every listing, only the
    directories and the Python sources stay. *)
Fixpoint without_other_files (nd : fs_node) : fs_node :=
  match nd with
  | Directory (Some items) =>
      Directory
        (Some (flat_map
                 (fun entry =>
                    if isdir (snd entry) || is_python_source (fst entry) (snd entry)
                    then [(fst entry, without_other_files (snd entry))]
                    else [])
                 items))
  | _ => nd
  end.

(** A name as [os.listdir] reports it and the loops accept it: not empty,
    without separator, not ignored. *)
Definition entry_name (name : string) : Prop :=
  name <> EmptyString /\ Py.contains_char "/" name = false /\ is_ignored name = false.

(** What [os.path.join] puts before the second path. *)
Definition join_prefix (a : string) : string :=
  if (a =? EmptyString)%string || Py.endswith a "/" then a else a +:+ "/".

(** The directories [_index_directory] lists in and below [nd], children
    before parents, each by the entry names leading to it from the
    repository root. *)
Fixpoint listed_directories (nd : fs_node) (rel : list string) : list (list string) :=
  match nd with
  | Directory (Some items) =>
      flat_map
        (fun entry =>
           if is_ignored (fst entry) then []
           else match snd entry with
                | Directory _ => listed_directories (snd entry) (rel ++ [fst entry])
                | _ => []
                end)
        items
      ++ [rel]
  | _ => []
  end.

(** A run of [_index_directory] on [nd] that returns has written one
    document for every directory it listed, in that order, each at the
    path of the directory under the output root. *)
Definition writes_listed_directories (output_root : string) (generate_summaries : bool)
    (nd : fs_node) : Prop :=
  forall parent dir_path rel st d st',
    _index_directory output_root generate_summaries parent nd dir_path rel st
    = (Return d, st') ->
    exists new,
      disk st' = new ++ disk st
      /\ map fst new
         = rev (map (index_file_path_of output_root) (listed_directories nd rel)).

(** Among [records] is one for the file at [r] that carries the summary
    [cached]. *)
Definition carries_cached_summary (records : list FileMetadata) (r : list string)
    (cached : string) : Prop :=
  exists fm,
    In fm records /\ file_relative_path fm = relpath r /\ file_summary fm = Some cached.

(** Indexing [nd] with summaries, from a world whose cache maps the digest
    [h] to [cached], writes for every parsable source file with that digest
    a record that carries [cached]. *)
Definition keeps_cached_summaries (output_root : string) (h cached : string)
    (nd : fs_node) : Prop :=
  forall parent dir_path rel st d st',
    summary_cache st !! Some h = Some cached ->
    _index_directory output_root true parent nd dir_path rel st = (Return d, st') ->
    exists new,
      disk st' = new ++ disk st
      /\ forall r text tree,
           In (r, text) (python_sources nd rel) ->
           md5_hexdigest text = h ->
           ast_parse text = Some tree ->
           carries_cached_summary (written_file_records new) r cached.

(** The reference [subdir_ref] holds what the directory record [sub]
    says of itself. *)
Definition mirrors (subdir_ref : SubdirectoryReference) (sub : DirectoryIndex) : Prop :=
  dir_index_file_path sub = ref_index_file_path subdir_ref
  /\ dir_dir_path sub = ref_dir_path subdir_ref
  /\ dir_relative_path sub = ref_relative_path subdir_ref
  /\ dir_summary sub = ref_summary subdir_ref
  /\ dir_total_file_count sub = ref_file_count subdir_ref
  /\ Py.len (dir_subdirectories sub) = ref_subdir_count subdir_ref.

(** A document stored under the path that its own [index_file_path]
    names. *)
Definition stored_at_own_path (entry : string * artifact) : Prop :=
  exists d, snd entry = DirectoryArtifact d /\ dir_index_file_path d = fst entry.

(** *** Records and syntax trees *)

(** The statements of a module that the extractor turns into records,
    and the function definitions that stand directly in the body of one
    of its top-level classes. *)
Definition class_defs (tree : node) : list node :=
  List.filter is_class_def (node_body tree).

Definition function_defs (tree : node) : list node :=
  List.filter is_function_def (node_body tree).

Definition method_defs (tree : node) : list node :=
  flat_map (fun c => List.filter is_function_def (node_body c)) (class_defs tree).

(** The record of a function or method: of the given kind, with signature
    and complexity, without children. *)
Definition function_record (kind : CodeElementType) (file_path : string)
    (e : CodeElementMetadata) : Prop :=
  elem_element_type e = kind
  /\ elem_file_path e = file_path
  /\ elem_summary e = None
  /\ is_Some (elem_signature e)
  /\ is_Some (elem_complexity e)
  /\ elem_children e = [].

(** The record of a class: without signature and complexity, its
    children the records of methods. *)
Definition class_record (file_path : string) (e : CodeElementMetadata) : Prop :=
  elem_element_type e = CLASS
  /\ elem_file_path e = file_path
  /\ elem_summary e = None
  /\ elem_signature e = None
  /\ elem_complexity e = None
  /\ Forall (function_record METHOD file_path) (elem_children e).

Definition top_level_record (file_path : string) (e : CodeElementMetadata) : Prop :=
  class_record file_path e \/ function_record FUNCTION file_path e.

(** *** The entries of a listing that the two loops act on *)

(** The names of the Python files the first loop could read, and of the
    directories the second loop descends into. *)
Definition readable_sources (items : list (string * fs_node)) : list string :=
  map fst
    (List.filter
       (fun entry =>
          is_python_source (fst entry) (snd entry)
          && match file_content (snd entry) with Some _ => true | None => false end)
       items).

(** *** What the statistics pass counts *)

(** The records of classes and of functions among [elements], and the
    records of methods held by those classes. *)
Definition classes_of (elements : list CodeElementMetadata) : list CodeElementMetadata :=
  List.filter (fun e => CodeElementType_eqb (elem_element_type e) CLASS) elements.

Definition functions_of (elements : list CodeElementMetadata) : list CodeElementMetadata :=
  List.filter (fun e => CodeElementType_eqb (elem_element_type e) FUNCTION) elements.

Definition methods_of (elements : list CodeElementMetadata) : list CodeElementMetadata :=
  flat_map elem_children (classes_of elements).

(** [imp] passes the test of the dependency loop: no dot in it, and not
    one of the four names singled out. *)
Definition is_external (imp : string) : bool :=
  negb (Py.contains_char "." imp) && negb (Py.str_in imp ["os"; "sys"; "json"; "re"]).

(** A directory record as a run without summaries leaves it: no summary
    on the directory, no summary and no stored digest on its files. *)
Definition without_summary (d : DirectoryIndex) : Prop :=
  dir_summary d = None
  /\ Forall (fun f => file_summary f = None /\ file_file_hash f = None) (dir_files d).

(** What the statistics pass never assigns: two repository records that
    differ in the counters and the dependency list at most. *)
Definition same_repository (r r' : RepositoryIndex) : Prop :=
  repo_repo_id r' = repo_repo_id r
  /\ repo_name r' = repo_name r
  /\ repo_repo_path r' = repo_repo_path r
  /\ repo_index_root_path r' = repo_index_root_path r
  /\ repo_root_index_path r' = repo_root_index_path r
  /\ repo_summary r' = repo_summary r
  /\ repo_architecture_description r' = repo_architecture_description r
  /\ repo_primary_language r' = repo_primary_language r
  /\ repo_entry_points r' = repo_entry_points r.

Definition child_directories (items : list (string * fs_node)) : list string :=
  map fst
    (List.filter (fun entry => negb (is_ignored (fst entry)) && isdir (snd entry)) items).

(** *** Source trees on which the statistics pass succeeds *)

(** What the directories below the entries [items] of the directory at
    [rel] contribute to [listed_directories]. *)
Definition listed_below (rel : list string) (items : list (string * fs_node))
    : list (list string) :=
  flat_map
    (fun entry =>
       if is_ignored (fst entry) then []
       else match snd entry with
            | Directory _ => listed_directories (snd entry) (rel ++ [fst entry])
            | _ => []
            end)
    items.

(** Every directory the run descends into can be listed. *)
Fixpoint fully_listed (nd : fs_node) : bool :=
  match nd with
  | Directory (Some items) =>
      forallb
        (fun entry =>
           if is_ignored (fst entry) then true
           else match snd entry with
                | Directory _ => fully_listed (snd entry)
                | _ => true
                end)
        items
  | Directory None => false
  | _ => true
  end.


(** [entry_name], decided. *)
Definition entry_nameb (name : string) : bool :=
  negb (name =? EmptyString)%string
  && negb (Py.contains_char "/" name)
  && negb (is_ignored name).

Fixpoint distinct (names : list string) : bool :=
  match names with
  | [] => true
  | name :: rest => negb (Py.str_in name rest) && distinct rest
  end.

(** The directories of every listing the run descends into have
    distinct names, as [os.listdir] reports them: not empty and without
    separator. *)
Fixpoint well_named (nd : fs_node) : bool :=
  match nd with
  | Directory (Some items) =>
      distinct (child_directories items)
      && forallb entry_nameb (child_directories items)
      && forallb
           (fun entry =>
              if is_ignored (fst entry) then true
              else match snd entry with
                   | Directory _ => well_named (snd entry)
                   | _ => true
                   end)
           items
  | _ => true
  end.

(** The number of nested calls of [traverse] that the directories in and
    below [nd] take. *)
Fixpoint height (nd : fs_node) : nat :=
  match nd with
  | Directory (Some items) =>
      S (list_max
           (map (fun entry =>
                   if is_ignored (fst entry) then O
                   else match snd entry with
                        | Directory _ => height (snd entry)
                        | _ => O
                        end)
                items))
  | Directory None => 1%nat
  | _ => O
  end.

(** The counters of [r] are those of [r0] plus what the directory
    records among [documents] hold: one directory for each, and their file
    records with the lines, classes, functions and methods of these. *)
Definition counts_documents (r0 r : RepositoryIndex) (documents : list (string * artifact))
    : Prop :=
  let files := written_file_records documents in
  let elements := flat_map file_elements files in
  repo_total_directories r = repo_total_directories r0 + Py.len documents
  /\ repo_total_files r = repo_total_files r0 + Py.len files
  /\ repo_total_lines r = repo_total_lines r0 + Py.sum (map file_total_lines files)
  /\ repo_total_classes r = repo_total_classes r0 + Py.len (classes_of elements)
  /\ repo_total_functions r = repo_total_functions r0 + Py.len (functions_of elements)
  /\ repo_total_methods r = repo_total_methods r0 + Py.len (methods_of elements).

(** On the record and the disk that indexing [nd] leaves, and on any
    later disk that holds no other document under the paths of [nd], the
    statistics pass returns, having counted the documents of the run. *)
Definition statistics_follow (output_root : string) (generate_summaries : bool)
    (nd : fs_node) : Prop :=
  forall parent dir_path rel st d st1,
    fully_listed nd = true ->
    List.NoDup (map (index_file_path_of output_root) (listed_directories nd rel)) ->
    _index_directory output_root generate_summaries parent nd dir_path rel st
    = (Return d, st1) ->
    exists new,
      disk st1 = new ++ disk st
      /\ forall depth r0 st2 later,
           (height nd <= depth)%nat ->
           disk st2 = later ++ disk st1 ->
           (forall p, In p (map fst later) ->
                      ~ In p (map (index_file_path_of output_root)
                                (listed_directories nd rel))) ->
           exists r,
             traverse depth d r0 st2 = (Return r, st2)
             /\ counts_documents r0 r new
             /\ repo_total_files r = repo_total_files r0 + dir_total_file_count d.

End Indexer.

(** ** A small concrete world, for running the indexer *)

Module Example.
Import Ast.

(** A file is one function when it starts with [def], does not parse
    when it starts with an opening parenthesis, and is empty of
    definitions otherwise. *)
Definition toy_parse (text : string) : option node :=
  if Py.startswith text "(" then None
  else if Py.startswith text "def " then
    Some (Module [FunctionDef false "f" 1 (Some 1) [] (Other "arguments" [])
                    [Other "Pass" []] [] None])
  else Some (Module []).

(** Lines ended by the newline character. *)
Fixpoint toy_lines (text : string) (current : string) : list string :=
  match text with
  | EmptyString => if (current =? EmptyString)%string then [] else [current]
  | String c rest =>
      if Ascii.eqb c (ascii_of_nat 10) then current :: toy_lines rest EmptyString
      else toy_lines rest (current +:+ String c EmptyString)
  end.

(** The backend answers its [n]-th request with the text [summary n]. *)
Definition toy_completion (n : nat) (prompt : string) (max_tokens : Z) : option string :=
  Some ("summary " +:+ Py.str_of_int (Z.of_nat n)).

Definition backend : Backend := {|
  md5_hexdigest := fun data => "md5:" +:+ data;
  ast_parse := toy_parse;
  splitlines := fun text => toy_lines text EmptyString;
  chat_completion := toy_completion;
  next_completed := fun _ _ => O;
  writable := fun _ => true;
  recursion_limit := 1000 |}.

(** The same world with a backend whose first answer is empty. *)
Definition faltering_backend : Backend := {|
  md5_hexdigest := fun data => "md5:" +:+ data;
  ast_parse := toy_parse;
  splitlines := fun text => toy_lines text EmptyString;
  chat_completion := fun n prompt max_tokens =>
    match n with
    | O => Some EmptyString
    | _ => toy_completion n prompt max_tokens
    end;
  next_completed := fun _ _ => O;
  writable := fun _ => true;
  recursion_limit := 1000 |}.

Definition fresh : state := mkState ∅ [] [].

Definition one_line : string := "x = 1" +:+ Py.nl.

Definition one_function : string := "def f(): pass" +:+ Py.nl.

(** [repo/a.py] and [repo/sub/b.py], one line each. *)
Definition nested_tree : fs_node :=
  sorted_view
    (Directory (Some [ ("sub", Directory (Some [("b.py", RegularFile (Some one_line))]));
                       ("a.py", RegularFile (Some one_line)) ])).

(** [repo/locked], a directory that cannot be listed. *)
Definition locked_tree : fs_node :=
  Directory (Some [("locked", Directory None)]).

(** An empty repository. *)
Definition empty_tree : fs_node := Directory (Some []).

(** Two files with the same bytes in one directory. *)
Definition twin_tree : fs_node :=
  Directory (Some [ ("a.py", RegularFile (Some one_function));
                    ("b.py", RegularFile (Some one_function)) ]).

(** Runs on the concrete world. *)
Definition run_repository (tree : fs_node) (generate_summaries : bool)
    : outcome RepositoryIndex * state :=
  index_repository (B:=backend) "/repo" "/out" generate_summaries tree fresh.

Definition run_directory (tree : fs_node) (generate_summaries : bool)
    : outcome DirectoryIndex * state :=
  _index_directory (B:=backend) "/out" generate_summaries None tree "/repo" [] fresh.

(** The records of the two files of [twin_tree] as the first loop of
    [_index_directory] hands them to the batch. *)
Definition twin_files : list FileMetadata :=
  Eval vm_compute in
    dir_files (index_files (B:=backend) "/repo" [] true (summary_cache fresh)
                 (listing_of twin_tree) (initial_index "/out" None "/repo" [])).

(** [repo/a.py], one function. *)
Definition single_tree : fs_node :=
  Directory (Some [("a.py", RegularFile (Some one_function))]).

(** The world after [single_tree] was indexed once with the faltering
    backend: the cache maps the digest of [a.py] to the empty text. *)
Definition after_empty_answer : state :=
  Eval vm_compute in
    snd (_index_directory (B:=faltering_backend) "/out" true None single_tree "/repo" []
           fresh).

(** The world after [single_tree] was indexed once with summaries, and
    what indexing it again from there returns and leaves behind. *)
Definition warm_state : state := Eval vm_compute in snd (run_directory single_tree true).

Definition rerun_root : DirectoryIndex :=
  Eval vm_compute in
    match fst (_index_directory (B:=backend) "/out" true None single_tree "/repo" []
                 warm_state) with
    | Return d => d
    | Raise _ => new_directory_index EmptyString EmptyString EmptyString None
    end.

Definition rerun_final : state :=
  Eval vm_compute in
    snd (_index_directory (B:=backend) "/out" true None single_tree "/repo" [] warm_state).

(** A record with six summarized subdirectories and no files, and the
    same record with another summary for the sixth. *)
Definition child_reference (name summary : string) : SubdirectoryReference :=
  {| ref_dir_name := name;
     ref_dir_path := "/repo/" +:+ name;
     ref_relative_path := name;
     ref_index_file_path := "/out/" +:+ name +:+ "/index.json";
     ref_summary := Some summary;
     ref_file_count := 0;
     ref_subdir_count := 0 |}.

Definition six_children_with (sixth : string) : DirectoryIndex :=
  mkDirectoryIndex "/repo" "." "/out/index.json" None None []
    [ child_reference "d1" "one"; child_reference "d2" "two";
      child_reference "d3" "three"; child_reference "d4" "four";
      child_reference "d5" "five"; child_reference "d6" sixth ]
    0 0 0.

Definition six_children : DirectoryIndex := six_children_with "six".

(** What the run on [twin_tree] with summaries returns and leaves
    behind. *)
Definition twin_root : DirectoryIndex :=
  Eval vm_compute in
    match fst (run_directory twin_tree true) with
    | Return d => d
    | Raise _ => new_directory_index EmptyString EmptyString EmptyString None
    end.

Definition twin_final : state := Eval vm_compute in snd (run_directory twin_tree true).

(** [repo/] with six subdirectories [d1] to [d6], one function file in
    each, and what the run on it with summaries returns and leaves
    behind. *)
Definition six_tree : fs_node :=
  let child := Directory (Some [("a.py", RegularFile (Some one_function))]) in
  Directory (Some [ ("d1", child); ("d2", child); ("d3", child);
                    ("d4", child); ("d5", child); ("d6", child) ]).

Definition six_root : DirectoryIndex :=
  Eval vm_compute in
    match fst (run_directory six_tree true) with
    | Return d => d
    | Raise _ => new_directory_index EmptyString EmptyString EmptyString None
    end.

Definition six_final : state := Eval vm_compute in snd (run_directory six_tree true).

(** [repo/] with a Python file among files of other kinds. *)
Definition mixed_tree : fs_node :=
  Directory (Some [ (".hidden.py", RegularFile (Some one_function));
                    ("README.md", RegularFile (Some one_line));
                    ("a.py", RegularFile (Some one_function));
                    ("build", RegularFile (Some one_line));
                    ("socket.py", Special) ]).

Definition mixed_root : DirectoryIndex :=
  Eval vm_compute in
    match fst (run_directory mixed_tree false) with
    | Return d => d
    | Raise _ => new_directory_index EmptyString EmptyString EmptyString None
    end.

Definition mixed_final : state := Eval vm_compute in snd (run_directory mixed_tree false).

(** What the run on [locked_tree] returns and leaves behind. *)
Definition locked_root : DirectoryIndex :=
  Eval vm_compute in
    match fst (run_directory locked_tree false) with
    | Return d => d
    | Raise _ => new_directory_index EmptyString EmptyString EmptyString None
    end.

Definition locked_final : state := Eval vm_compute in snd (run_directory locked_tree false).

(** What the run on [nested_tree] returns and leaves behind. *)
Definition nested_root : DirectoryIndex :=
  Eval vm_compute in
    match fst (run_directory nested_tree false) with
    | Return d => d
    | Raise _ => new_directory_index EmptyString EmptyString EmptyString None
    end.

Definition nested_final : state := Eval vm_compute in snd (run_directory nested_tree false).

(** A module with imports at three depths, a class with two methods and
    an assignment, and a function, as the parser renders it. *)
Definition sample_text : string :=
  Py.str_join Py.nl
    [ "import os, requests";
      "from . import sibling";
      "class C:";
      "    def m(self):";
      "        from json.decoder import JSONDecoder";
      "    def _p(self): pass";
      "    x = 1";
      "def g():";
      "    import sys" ].

Definition sample_module : node :=
  let self_argument := Other "arguments" [Other "arg" []] in
  Module
    [ Import ["os"; "requests"];
      ImportFrom None ["sibling"];
      ClassDef "C" 3 (Some 7) []
        [ FunctionDef false "m" 4 (Some 5) ["self"] self_argument
            [ImportFrom (Some "json.decoder") ["JSONDecoder"]] [] None;
          FunctionDef false "_p" 6 (Some 6) ["self"] self_argument
            [Other "Pass" []] [] None;
          Other "Assign" [Other "Name" []; Other "Constant" []] ]
        [];
      FunctionDef false "g" 8 (Some 9) [] (Other "arguments" [])
        [Import ["sys"]] [] None ].

(** The world of [backend] with a parser that knows [sample_text]. *)
Definition sample_backend : Backend := {|
  md5_hexdigest := fun data => "md5:" +:+ data;
  ast_parse := fun text =>
    if (text =? sample_text)%string then Some sample_module else toy_parse text;
  splitlines := fun text => toy_lines text EmptyString;
  chat_completion := toy_completion;
  next_completed := fun _ _ => O;
  writable := fun _ => true;
  recursion_limit := 1000 |}.

(** The world of [backend] with a thread pool that completes the future
    submitted last first. *)
Definition last_first_backend : Backend := {|
  md5_hexdigest := fun data => "md5:" +:+ data;
  ast_parse := toy_parse;
  splitlines := fun text => toy_lines text EmptyString;
  chat_completion := toy_completion;
  next_completed := fun _ pending => (pending - 1)%nat;
  writable := fun _ => true;
  recursion_limit := 1000 |}.

(** The repository record [index_repository] hands to the statistics
    pass for [/repo] indexed into [/out]. *)
Definition blank_repository : RepositoryIndex :=
  mkRepositoryIndex (_generate_id (B:=backend) "/repo") "repo" "/repo" "/out"
    "/out/index.json" None None "python" 0 0 0 0 0 0 [] [].

(** The record of a file that holds [sample_text]. *)
Definition sample_record : FileMetadata :=
  Eval vm_compute in
    match _index_python_file (B:=sample_backend) "/repo/a.py" ["a.py"] (Some sample_text)
            false ∅ with
    | Some fm => fm
    | None => mkFileMetadata EmptyString EmptyString OTHER None 0 [] [] [] None
    end.

(** [repo/a.py] holding [sample_text] and [repo/pkg/b.py] holding one
    function; what indexing it returns and leaves behind, and what the
    statistics pass makes of it. *)
Definition sample_tree : fs_node :=
  Directory (Some [ ("a.py", RegularFile (Some sample_text));
                    ("pkg", Directory (Some [("b.py", RegularFile (Some one_function))])) ]).

Definition sample_root : DirectoryIndex :=
  Eval vm_compute in
    match fst (_index_directory (B:=sample_backend) "/out" false None sample_tree "/repo" []
                 fresh) with
    | Return d => d
    | Raise _ => new_directory_index EmptyString EmptyString EmptyString None
    end.

Definition sample_final : state :=
  Eval vm_compute in
    snd (_index_directory (B:=sample_backend) "/out" false None sample_tree "/repo" [] fresh).

Definition sample_statistics : RepositoryIndex :=
  Eval vm_compute in
    match fst (_calculate_statistics (B:=sample_backend) blank_repository sample_root
                 sample_final) with
    | Return r => r
    | Raise _ => blank_repository
    end.

(** The record that run persisted for [repo/sub]. *)
Definition nested_sub : DirectoryIndex :=
  Eval vm_compute in
    match assoc "/out/sub/index.json" (disk nested_final) with
    | Some (DirectoryArtifact d) => d
    | _ => new_directory_index EmptyString EmptyString EmptyString None
    end.

End Example.

(** ** The [bash] tool of [src/distributed_agent.py]

    The tool checks a command against a list of restricted words, notes
    the files a [cat] command reads in the module-level list
    [_files_investigated], runs the command and returns its output, cut
    after 50000 characters.  What [subprocess.run] does is a parameter.
    A character of a [string] stands for the code point of its number, so
    that text is made of the code points below U+0100 and [len] counts its
    characters. *)

Module Agent.

(** [sub in s] for two strings *)
Fixpoint str_contains (sub s : string) : bool :=
  String.prefix sub s
  || match s with
     | EmptyString => false
     | String _ rest => str_contains sub rest
     end.

(** The characters [str.split()] splits at, those for which
    [str.isspace] holds: the ASCII white space (U+0009 to U+000D, U+001C
    to U+001F, U+0020), the next line control U+0085 and the no-break
    space U+00A0. *)
Definition is_space (c : ascii) : bool :=
  let n := nat_of_ascii c in
  (n =? 32)%nat || ((9 <=? n)%nat && (n <=? 13)%nat) || ((28 <=? n)%nat && (n <=? 31)%nat)
  || (n =? 133)%nat || (n =? 160)%nat.

(** [s.split()]: the maximal runs of characters that are not white
    space; [current] is the run being read. *)
Fixpoint split_loop (s current : string) : list string :=
  match s with
  | EmptyString => if (current =? EmptyString)%string then [] else [current]
  | String c rest =>
      if is_space c then
        if (current =? EmptyString)%string then split_loop rest EmptyString
        else current :: split_loop rest EmptyString
      else split_loop rest (current +:+ String c EmptyString)
  end.

Definition split (s : string) : list string := split_loop s EmptyString.

Definition dangerous_commands : list string :=
  ["rm"; "mv"; "cp"; "chmod"; "chown"; "sudo"; "su"; ">"; ">>"; "&&"; "||"].

(** The loop over [enumerate(parts)]: the word after each [cat] is
    appended to the list unless it is in it. *)
Fixpoint track (parts : list string) (investigated : list string) : list string :=
  match parts with
  | part :: rest =>
      match rest with
      | file_path :: _ =>
          track rest
            (if (part =? "cat")%string && negb (Py.str_in file_path investigated)
             then investigated ++ [file_path]
             else investigated)
      | [] => investigated
      end
  | [] => investigated
  end.

(** What [subprocess.run(command, ..., timeout=30)] comes to. *)
Inductive completion : Type :=
| Completed (stdout stderr : string)
| TimeoutExpired
| OtherError (message : string).

(** The module-level list [_files_investigated], and the commands handed
    to [subprocess.run] so far, most recent first. *)
Record agent_state : Type := mkAgentState {
  files_investigated : list string;
  executed : list string }.

Definition truncated_suffix : string :=
  Py.nl +:+ "... (output truncated, use grep or sed for specific sections)".

(** The number of characters after which the output is cut. *)
Definition output_limit : nat := Z.to_nat 50000.

Section Bash.
(** [subprocess.run], given the number of commands run before. *)
Variable subprocess_run : nat -> string -> completion.

(** [bash(command)] *)
Definition bash (command : string) (st : agent_state) : string * agent_state :=
  match List.find (fun dangerous => str_contains dangerous command) dangerous_commands with
  | Some dangerous =>
      ("Error: Command contains restricted operation: " +:+ dangerous, st)
  | None =>
      let investigated :=
        if str_contains "cat " command && str_contains ".py" command
           && negb (str_contains "index.json" command)
        then track (split command) (files_investigated st)
        else files_investigated st in
      let st' := mkAgentState investigated (command :: executed st) in
      match subprocess_run (length (executed st)) command with
      | Completed stdout stderr =>
          let output := if (stdout =? EmptyString)%string then stderr else stdout in
          let output :=
            if (output_limit <? String.length output)%nat
            then substring 0 output_limit output +:+ truncated_suffix
            else output in
          (if (output =? EmptyString)%string
           then "Command executed successfully (no output)" else output,
           st')
      | TimeoutExpired => ("Error: Command timed out after 30 seconds", st')
      | OtherError message => ("Error executing command: " +:+ message, st')
      end
  end.

End Bash.

(** A shell that prints the command back. *)
Definition echo_shell (calls : nat) (command : string) : completion :=
  Completed command EmptyString.

Definition idle : agent_state := mkAgentState [] [].

(** Two [cat] commands, the first with a no-break space between two
    file names. *)
Definition spaced_command : string :=
  "cat a.py" +:+ String (ascii_of_nat 160) "b.py; cat a.py c.py".

End Agent.

(* ================================================================== *)
(** * Properties *)
(* ================================================================== *)

Module ComplexityFacts.
Import Ast Complexity.

Lemma complexity_step_weight c n : complexity_step c n = c + weight n.
Proof.
  unfold weight, complexity_step.
  destruct (is_branching n); [lia|]. destruct n; lia.
Qed.

Lemma fold_complexity l c :
  fold_left complexity_step l c = c + Py.sum (map weight l).
Proof.
  revert c. induction l as [|x l IH]; intros c; simpl; [lia|].
  rewrite IH, complexity_step_weight. lia.
Qed.

Lemma sum_app l1 l2 : Py.sum (l1 ++ l2) = Py.sum l1 + Py.sum l2.
Proof. induction l1 as [|x l1 IH]; simpl; [reflexivity|]. rewrite IH. lia. Qed.

Lemma sum_map_alias (f : node -> Z) names :
  f (Other "alias" []) = 0 -> Py.sum (map f (map alias_node names)) = 0.
Proof. intros H. induction names as [|x l IH]; simpl; [reflexivity|]. unfold alias_node at 1. lia. Qed.

Lemma sum_cons x l : Py.sum (x :: l) = x + Py.sum l.
Proof. reflexivity. Qed.

Local Ltac unfold_children :=
  intros n; destruct n; cbn -[Z.add Z.sub Py.len Py.sum];
  rewrite ?sum_map_alias by reflexivity;
  repeat match goal with
    | o : option node |- _ => destruct o
    | o : boolop |- _ => destruct o
    end; cbn -[Z.add Z.sub Py.len Py.sum];
  repeat (rewrite map_app || rewrite sum_app || rewrite sum_cons);
  cbn [map]; rewrite ?sum_cons; change (Py.sum []) with 0; lia.

(** The structural counts unfold along [iter_child_nodes]. *)
Lemma branching_children : forall n,
  branching_constructs n
  = (if is_branching n then 1 else 0)
    + Py.sum (map branching_constructs (iter_child_nodes n)).
Proof. unfold_children. Qed.

Lemma surplus_children : forall n,
  boolean_surplus n
  = match n with BoolOp _ values => Py.len values - 1 | _ => 0 end
    + Py.sum (map boolean_surplus (iter_child_nodes n)).
Proof. unfold_children. Qed.

Lemma metric_children n :
  metric n = weight n + Py.sum (map metric (iter_child_nodes n)).
Proof.
  unfold metric. rewrite branching_children, surplus_children.
  assert (S : forall l, Py.sum (map (fun x => branching_constructs x + boolean_surplus x) l)
              = Py.sum (map branching_constructs l) + Py.sum (map boolean_surplus l)).
  { induction l as [|x l IH]; simpl; lia. }
  rewrite S. unfold weight, complexity_step.
  destruct n; cbn -[Z.add Z.sub Py.len Py.sum]; lia.
Qed.

Lemma list_sum_app l1 l2 : list_sum (l1 ++ l2) = (list_sum l1 + list_sum l2)%nat.
Proof. induction l1 as [|x l1 IH]; simpl; [reflexivity|]. rewrite IH. lia. Qed.

Lemma node_count_children n :
  node_count n = S (list_sum (map node_count (iter_child_nodes n))).
Proof.
  assert (Al : forall names, list_sum (map node_count (map alias_node names)) = length names).
  { induction names as [|x l IH]; simpl; [reflexivity|]. now rewrite IH. }
  assert (C : forall x l, list_sum (x :: l) = (x + list_sum l)%nat) by reflexivity.
  destruct n; cbn -[Nat.add list_sum]; rewrite ?Al;
    repeat match goal with
      | o : option node |- _ => destruct o
      | o : boolop |- _ => destruct o
      end; cbn -[Nat.add list_sum];
    repeat (rewrite map_app || rewrite list_sum_app || rewrite C);
    cbn [map]; rewrite ?C; change (list_sum []) with O; lia.
Qed.

(** The traversal visits every node once: summing the per-node weights
    over the queue-driven walk gives the structural metric, as soon as
    the fuel covers the nodes still reachable from the queue. *)
Lemma walk_loop_metric fuel : forall todo,
  (list_sum (map node_count todo) <= fuel)%nat ->
  Py.sum (map weight (walk_loop fuel todo)) = Py.sum (map metric todo).
Proof.
  induction fuel as [|fuel IH]; intros todo Hf.
  - destruct todo as [|n rest]; [reflexivity|].
    simpl in Hf. rewrite node_count_children in Hf. lia.
  - destruct todo as [|n rest]; [reflexivity|].
    cbn [walk_loop map Py.sum fold_right].
    change (fold_right Z.add 0) with Py.sum.
    rewrite IH.
    + rewrite map_app, sum_app, (metric_children n). lia.
    + simpl in Hf. rewrite node_count_children in Hf.
      rewrite map_app, list_sum_app. lia.
Qed.

Lemma walk_metric n : Py.sum (map weight (walk n)) = metric n.
Proof.
  unfold walk. rewrite walk_loop_metric; simpl; lia.
Qed.

Example sample_function_complexity : _calculate_complexity sample_function = 6.
Proof. reflexivity. Qed.

Example sample_function_walk :
  length (walk sample_function) = node_count sample_function.
Proof. reflexivity. Qed.

Lemma calculate_complexity_structural (n : node) :
  _calculate_complexity n = 1 + branching_constructs n + boolean_surplus n.
Proof.
  unfold _calculate_complexity. rewrite fold_complexity, walk_metric.
  unfold metric. lia.
Qed.

(** C9 fails on the code as the specification words it: an [async for]
    loop in the body is a loop but adds nothing to the stored complexity,
    and a boolean combinator in the default of an argument is counted
    although it is not in the body. *)
Lemma async_loop_is_not_counted :
  elem_complexity (_extract_function_metadata async_loop_function "/repo/a.py" false)
  = Some 1
  /\ complexity_as_specified async_loop_function = 2
  /\ elem_complexity (_extract_function_metadata default_function "/repo/a.py" false)
     = Some 2
  /\ complexity_as_specified default_function = 1
  /\ ~ (forall n file_path is_method,
          is_function_def n = true ->
          elem_complexity (_extract_function_metadata n file_path is_method)
          = Some (complexity_as_specified n)).
Proof.
  repeat split; try reflexivity.
  intros H. specialize (H async_loop_function "/repo/a.py" false eq_refl).
  vm_compute in H. discriminate.
Qed.

(** C9, as the code has it.  For every function or method the indexer
    extracts, the complexity it stores is 1, plus 1 for each [ast.If],
    [ast.While], [ast.For] and [ast.ExceptHandler] node anywhere in the
    syntax tree of the definition (its body, and its decorators, argument
    defaults, annotations and nested definitions as well), plus [N - 1]
    for each boolean combinator of [N] operands anywhere in that tree.
    Nodes of other classes, such as [async for] loops, conditional
    expressions, comprehensions and [match] statements, add nothing. *)
Theorem stored_complexity_is_structural_count
    (n : node) (file_path : string) (is_method : bool) :
  elem_complexity (_extract_function_metadata n file_path is_method)
  = Some (1 + branching_constructs n + boolean_surplus n).
Proof.
  cbn [_extract_function_metadata elem_complexity].
  now rewrite calculate_complexity_structural.
Qed.

End ComplexityFacts.

(** ** Paths *)

Module PathFacts.

Lemma append_cons c (s t : string) : String c s +:+ t = String c (s +:+ t).
Proof. reflexivity. Qed.

Lemma append_nil_r (s : string) : s +:+ EmptyString = s.
Proof. induction s as [|c s IH]; [reflexivity|]. rewrite append_cons. now f_equal. Qed.

Lemma append_assoc (a b c : string) : (a +:+ b) +:+ c = a +:+ (b +:+ c).
Proof. induction a as [|x a IH]; [reflexivity|]. rewrite !append_cons. now f_equal. Qed.

Lemma append_length (a b : string) :
  String.length (a +:+ b) = (String.length a + String.length b)%nat.
Proof.
  induction a as [|x a IH]; [reflexivity|]. rewrite append_cons. cbn [String.length].
  now rewrite IH.
Qed.

Lemma append_left_cancel (x a b : string) : x +:+ a = x +:+ b -> a = b.
Proof.
  induction x as [|c x IH]; intros H; [exact H|].
  rewrite !append_cons in H. injection H as H. now apply IH.
Qed.

Lemma append_right_cancel (x : string) : forall a b, a +:+ x = b +:+ x -> a = b.
Proof.
  induction a as [|c a IH]; intros [|c' b] H.
  - reflexivity.
  - apply (f_equal String.length) in H. rewrite !append_length in H.
    cbn [String.length] in H. lia.
  - apply (f_equal String.length) in H. rewrite !append_length in H.
    cbn [String.length] in H. lia.
  - rewrite !append_cons in H. injection H as -> H. f_equal. now apply IH.
Qed.

Lemma contains_char_cons c x s :
  Py.contains_char c (String x s) = Ascii.eqb c x || Py.contains_char c s.
Proof. reflexivity. Qed.

Lemma contains_char_append c (a b : string) :
  Py.contains_char c (a +:+ b) = Py.contains_char c a || Py.contains_char c b.
Proof.
  induction a as [|x a IH]; [reflexivity|].
  rewrite append_cons, !contains_char_cons, IH. apply orb_assoc.
Qed.

Lemma last_char_contains s : forall c, Py.last_char s = Some c -> Py.contains_char c s = true.
Proof.
  induction s as [|x s IH]; intros c H; [discriminate|].
  rewrite contains_char_cons. destruct s as [|y s].
  - injection H as ->. now rewrite Ascii.eqb_refl.
  - rewrite (IH c H). apply orb_true_r.
Qed.

Lemma last_char_append (a b : string) :
  b <> EmptyString -> Py.last_char (a +:+ b) = Py.last_char b.
Proof.
  intros Hb. induction a as [|x a IH]; [reflexivity|].
  rewrite append_cons. cbn [Py.last_char]. destruct (a +:+ b) as [|y r] eqn:E.
  - apply (f_equal String.length) in E. rewrite append_length in E.
    destruct b; [contradiction|]. cbn in E. lia.
  - exact IH.
Qed.

Lemma endswith_last s c :
  Py.endswith s (String c EmptyString) = true -> Py.last_char s = Some c.
Proof.
  induction s as [|x s IH]; intros H; [discriminate|].
  cbn [Py.endswith] in H. apply orb_true_iff in H. destruct H as [H|H].
  - apply String.eqb_eq in H. now injection H as -> ->.
  - specialize (IH H). destruct s; [discriminate|exact IH].
Qed.

(** [os.path.join] on a second path that is not absolute. *)
Lemma path_join_relative a b :
  Py.startswith b "/" = false -> Py.path_join a b = join_prefix a +:+ b.
Proof.
  intros H. unfold Py.path_join, join_prefix. rewrite H.
  destruct ((a =? EmptyString)%string || Py.endswith a "/"); [reflexivity|].
  now rewrite append_assoc.
Qed.

Lemma startswith_first c s p :
  Py.startswith (String c s) (String p EmptyString) = Ascii.eqb p c.
Proof.
  unfold Py.startswith. cbn. destruct (ascii_dec p c) as [->|Hne].
  - rewrite Ascii.eqb_refl. now destruct s.
  - symmetry. now apply Ascii.eqb_neq.
Qed.

(** *** The relative path of a directory *)

Lemma join_cons sep x y rest :
  Py.str_join sep (x :: y :: rest) = x +:+ sep +:+ Py.str_join sep (y :: rest).
Proof. reflexivity. Qed.

Lemma join_first rel x :
  entry_name x -> exists c s, Py.str_join "/" (x :: rel) = String c s
                              /\ Ascii.eqb "/" c = false /\ Ascii.eqb "." c = false.
Proof.
  intros (Hne & Hsep & Hign). destruct x as [|c x]; [contradiction|].
  exists c. rewrite contains_char_cons in Hsep. apply orb_false_iff in Hsep.
  destruct Hsep as [Hc _].
  unfold is_ignored in Hign. apply orb_false_iff in Hign. destruct Hign as [Hdot _].
  rewrite startswith_first in Hdot.
  destruct rel as [|y rel].
  - exists x. repeat split; assumption.
  - rewrite join_cons, append_cons. eexists. repeat split; assumption.
Qed.

Lemma join_nonempty rel x : entry_name x -> Py.str_join "/" (x :: rel) <> EmptyString.
Proof. intros H. destruct (join_first rel x H) as (c & s & -> & _). discriminate. Qed.

Lemma join_last rel : forall x,
  Forall entry_name (x :: rel) -> Py.last_char (Py.str_join "/" (x :: rel)) <> Some "/"%char.
Proof.
  induction rel as [|y rel IH]; intros x H Hl.
  - inversion H as [|? ? (_ & Hsep & _) _]; subst.
    apply last_char_contains in Hl. change (Py.str_join "/" [x]) with x in Hl. congruence.
  - inversion H as [|? ? _ Hrest]; subst. rewrite join_cons in Hl.
    rewrite <- append_assoc in Hl. rewrite last_char_append in Hl.
    + now apply (IH y Hrest).
    + inversion Hrest; subst. now apply join_nonempty.
Qed.

(** Names without separator are recovered from their join. *)
Lemma split_at_separator : forall x x' s s',
  Py.contains_char "/" x = false -> Py.contains_char "/" x' = false ->
  x +:+ "/" +:+ s = x' +:+ "/" +:+ s' -> x = x' /\ s = s'.
Proof.
  induction x as [|c x IH]; intros [|c' x'] s s' Hx Hx' H.
  - injection H as H. now split.
  - injection H as E _. subst c'. rewrite contains_char_cons in Hx'. discriminate.
  - injection H as E _. subst c. rewrite contains_char_cons in Hx. discriminate.
  - injection H as -> H. rewrite contains_char_cons in Hx, Hx'.
    apply orb_false_iff in Hx, Hx'. destruct (IH x' s s') as [-> ->]; tauto.
Qed.

Lemma join_injective : forall rel1 rel2,
  Forall entry_name rel1 -> Forall entry_name rel2 ->
  rel1 <> [] -> rel2 <> [] ->
  Py.str_join "/" rel1 = Py.str_join "/" rel2 -> rel1 = rel2.
Proof.
  induction rel1 as [|x rel1 IH]; intros [|x' rel2] H1 H2 N1 N2 E; try congruence.
  inversion H1 as [|? ? (_ & Hx & _) H1']; subst.
  inversion H2 as [|? ? (_ & Hx' & _) H2']; subst.
  destruct rel1 as [|y rel1], rel2 as [|y' rel2].
  - cbn in E. now subst.
  - rewrite join_cons in E. cbn [Py.str_join String.concat] in E. subst x.
    rewrite contains_char_append in Hx. apply orb_false_iff in Hx. destruct Hx as [_ Hx].
    discriminate.
  - rewrite join_cons in E. cbn [Py.str_join String.concat] in E. subst x'.
    rewrite contains_char_append in Hx'. apply orb_false_iff in Hx'. destruct Hx' as [_ Hx'].
    discriminate.
  - rewrite !join_cons in E. apply split_at_separator in E; [|assumption|assumption].
    destruct E as [-> E]. f_equal. apply IH; try assumption; discriminate.
Qed.

(** *** The path of an artifact *)

Lemma index_file_path_root output_root :
  index_file_path_of output_root [] = join_prefix output_root +:+ "index.json".
Proof.
  unfold index_file_path_of, index_dir_path_of. cbn [relpath].
  change (("." =? ".")%string) with true. cbv iota.
  now apply path_join_relative.
Qed.

Lemma index_file_path_below output_root rel :
  Forall entry_name rel -> rel <> [] ->
  index_file_path_of output_root rel
  = join_prefix output_root +:+ relpath rel +:+ "/index.json".
Proof.
  intros Hrel Hne. destruct rel as [|x rel]; [contradiction|].
  inversion Hrel as [|? ? Hx _]; subst.
  destruct (join_first rel x Hx) as (c & s & E & Hsep & Hdot).
  pose proof (join_nonempty rel x Hx) as Hnonempty.
  pose proof (join_last rel x Hrel) as Hlast.
  unfold index_file_path_of, index_dir_path_of.
  change (relpath (x :: rel)) with (Py.str_join "/" (x :: rel)) in *.
  set (rp := Py.str_join "/" (x :: rel)) in *.
  assert (Hd : (rp =? ".")%string = false).
  { apply String.eqb_neq. intros Hd. rewrite Hd in E. injection E as <- _. discriminate. }
  rewrite Hd.
  assert (Hs : Py.startswith rp "/" = false).
  { rewrite E, startswith_first. exact Hsep. }
  rewrite (path_join_relative output_root rp Hs).
  rewrite path_join_relative by reflexivity.
  unfold join_prefix at 1.
  assert (H1 : ((join_prefix output_root +:+ rp) =? EmptyString)%string = false).
  { apply String.eqb_neq. intros H. apply (f_equal String.length) in H.
    rewrite append_length in H. destruct rp; [contradiction|]. cbn in H. lia. }
  assert (H2 : Py.endswith (join_prefix output_root +:+ rp) "/" = false).
  { destruct (Py.endswith _ "/") eqn:H; [|reflexivity].
    apply endswith_last in H. rewrite last_char_append in H by exact Hnonempty.
    contradiction. }
  rewrite H1, H2. cbn [orb]. now rewrite !append_assoc.
Qed.

(** The mirror is one to one: two directories with the same artifact
    path are the same directory. *)
Lemma index_file_path_mirror output_root rel1 rel2 :
  Forall entry_name rel1 -> Forall entry_name rel2 ->
  index_file_path_of output_root rel1 = index_file_path_of output_root rel2 ->
  rel1 = rel2.
Proof.
  intros H1 H2 E.
  assert (Root : forall rel, Forall entry_name rel -> rel <> [] ->
                 index_file_path_of output_root [] <> index_file_path_of output_root rel).
  { intros rel Hrel Hne Eq. rewrite index_file_path_root in Eq.
    rewrite (index_file_path_below _ _ Hrel Hne) in Eq.
    apply append_left_cancel in Eq. apply (f_equal (Py.contains_char "/")) in Eq.
    rewrite contains_char_append in Eq.
    change (Py.contains_char "/" "/index.json") with true in Eq.
    rewrite orb_true_r in Eq. discriminate. }
  destruct rel1 as [|x1 r1], rel2 as [|x2 r2]; [reflexivity| | |].
  - exfalso. now apply (Root (x2 :: r2) H2).
  - exfalso. symmetry in E. now apply (Root (x1 :: r1) H1).
  - rewrite (index_file_path_below _ (x1 :: r1)),
            (index_file_path_below _ (x2 :: r2)) in E by (assumption || discriminate).
    apply append_left_cancel, append_right_cancel in E.
    apply join_injective; try assumption; discriminate.
Qed.

End PathFacts.

(** ** The state-and-exception monad *)

Section MonadFacts.
Context {A C : Type}.

Lemma bind_inv_return (c : M A) (k : A -> M C) st b st' :
  bind c k st = (Return b, st') ->
  exists a st1, c st = (Return a, st1) /\ k a st1 = (Return b, st').
Proof.
  unfold bind. destruct (c st) as [[a|e] st1]; [eauto|discriminate].
Qed.

Lemma bind_return (c : M A) (k : A -> M C) st a st1 :
  c st = (Return a, st1) -> bind c k st = k a st1.
Proof. unfold bind. now intros ->. Qed.

Lemma bind_raise (c : M A) (k : A -> M C) st e st1 :
  c st = (Raise e, st1) -> bind c k st = (Raise e, st1).
Proof. unfold bind. now intros ->. Qed.

Lemma bind_always_raises (c : M A) (k : A -> M C) :
  (forall a st, exists e, fst (k a st) = Raise e) ->
  forall st, exists e, fst (bind c k st) = Raise e.
Proof.
  intros H st. unfold bind. destruct (c st) as [[a|e] st1]; [apply H|eauto].
Qed.

End MonadFacts.

(** ** The summary batch *)

Section BatchFacts.
Context {B : Backend}.

Lemma generate_one_summary_eq position f st :
  generate_one_summary (position, f) st
  = (Return (file_file_hash f, summary_text (length (llm_calls st)) f, position),
     mkState (summary_cache st) (disk st)
       (if uses_backend f then file_prompt f :: llm_calls st else llm_calls st)).
Proof.
  destruct st as [cache dsk calls].
  unfold generate_one_summary, try_except, bind, _generate_file_summary_sync,
    summary_text, uses_backend, create_completion, ret.
  destruct (file_elements f); cbn; [reflexivity|].
  destruct (chat_completion _ _ _); reflexivity.
Qed.

Lemma submit_all_eq jobs : forall st,
  submit_all jobs st
  = (Return (batch_results (length (llm_calls st)) jobs),
     mkState (summary_cache st) (disk st) (rev (batch_prompts jobs) ++ llm_calls st)).
Proof.
  induction jobs as [|[position f] jobs IH]; intros st.
  - destruct st; reflexivity.
  - cbn [submit_all]. unfold bind at 1. rewrite generate_one_summary_eq.
    unfold bind at 1. rewrite IH. cbn [ret summary_cache disk llm_calls batch_results].
    unfold batch_prompts. cbn [map List.filter snd].
    destruct (uses_backend f); cbn [length map rev]; [|reflexivity].
    unfold ret. now rewrite <- app_assoc.
Qed.

Lemma collect_results_eq results : forall files st,
  collect_results files results st
  = (Return (fold_left apply_result results files),
     mkState (fold_left store_result results (summary_cache st)) (disk st) (llm_calls st)).
Proof.
  induction results as [|[[file_hash summary] position] results IH]; intros files st.
  - destruct st; reflexivity.
  - cbn [collect_results]. unfold bind at 1, collect_result, bind at 1, cache_store, ret.
    rewrite IH. reflexivity.
Qed.

(** The batch in one equation: it never raises; the records change as
    the results dictate, the cache receives one store per result, in
    completion order, and the backend receives the prompts of the jobs. *)
Lemma batch_eq files st :
  let jobs := files_to_summarize files in
  let results := as_completed (batch_results (length (llm_calls st)) jobs) in
  _batch_generate_file_summaries files st
  = (Return (fold_left apply_result results files),
     mkState (fold_left store_result results (summary_cache st)) (disk st)
       (rev (batch_prompts jobs) ++ llm_calls st)).
Proof.
  cbn zeta. unfold _batch_generate_file_summaries.
  destruct files as [|f0 files']; [destruct st; reflexivity|].
  set (files := f0 :: files').
  destruct (files_to_summarize files) as [|job jobs] eqn:Ej; [destruct st; reflexivity|].
  unfold bind. rewrite submit_all_eq, collect_results_eq. reflexivity.
Qed.

Lemma erase_set_summary f s : erase_summary (set_file_summary f s) = erase_summary f.
Proof. reflexivity. Qed.

Lemma erase_alter (g : FileMetadata -> FileMetadata) i (files : list FileMetadata) :
  (forall f, erase_summary (g f) = erase_summary f) ->
  map erase_summary (alter g i files) = map erase_summary files.
Proof.
  intros Hg. revert i. induction files as [|f files IH]; intros [|i]; cbn; try reflexivity.
  - now rewrite Hg.
  - f_equal. apply IH.
Qed.

Lemma erase_fold_apply results : forall files,
  map erase_summary (fold_left apply_result results files) = map erase_summary files.
Proof.
  induction results as [|r results IH]; intros files; [reflexivity|].
  cbn [fold_left]. rewrite IH. unfold apply_result. now apply erase_alter.
Qed.

(** The batch assigns summaries and nothing else: it never raises, keeps
    every other field of every record, and leaves the disk alone. *)
Lemma batch_preserves files st :
  exists files' st',
    _batch_generate_file_summaries files st = (Return files', st')
    /\ map erase_summary files' = map erase_summary files
    /\ disk st' = disk st.
Proof.
  rewrite batch_eq. eexists _, _. split; [reflexivity|].
  split; [apply erase_fold_apply|reflexivity].
Qed.

Lemma erased_lines (files files' : list FileMetadata) :
  map erase_summary files' = map erase_summary files ->
  map file_total_lines files' = map file_total_lines files.
Proof.
  intros H.
  assert (E : forall l, map file_total_lines l = map file_total_lines (map erase_summary l)).
  { intros l. rewrite List.map_map. reflexivity. }
  rewrite (E files'), (E files). now rewrite H.
Qed.

Lemma erased_length (files files' : list FileMetadata) :
  map erase_summary files' = map erase_summary files -> length files' = length files.
Proof.
  intros H. rewrite <- (length_map erase_summary files'), H. apply length_map.
Qed.

(** *** Completion order *)

Lemma nth_error_remove {A} (l : list A) : forall i x,
  nth_error l i = Some x -> Permutation (x :: remove_nth i l) l.
Proof.
  induction l as [|y l IH]; intros [|i] x H; try discriminate.
  - injection H as ->. unfold remove_nth. cbn. reflexivity.
  - cbn in H. unfold remove_nth in *. cbn [firstn skipn app].
    etransitivity; [apply perm_swap|]. constructor. now apply IH.
Qed.

Lemma remove_nth_length {A} (l : list A) : forall i x,
  nth_error l i = Some x -> S (length (remove_nth i l)) = length l.
Proof.
  intros i x H. apply nth_error_remove in H.
  apply Permutation_length in H. exact H.
Qed.

Lemma completion_order_perm {A} fuel : forall handed (pending : list A),
  length pending = fuel -> Permutation (completion_order fuel handed pending) pending.
Proof.
  induction fuel as [|fuel IH]; intros handed pending Hl.
  - destruct pending; [reflexivity|discriminate].
  - cbn [completion_order].
    set (i := (next_completed handed (length pending) mod length pending)%nat).
    assert (Hi : (i < length pending)%nat).
    { apply Nat.mod_upper_bound. lia. }
    destruct (nth_error pending i) as [x|] eqn:E.
    + etransitivity; [|apply (nth_error_remove _ _ _ E)].
      constructor. apply IH. pose proof (remove_nth_length _ _ _ E). lia.
    + apply nth_error_None in E. lia.
Qed.

(** [as_completed] hands out every result, once. *)
Lemma as_completed_perm {A} (futures : list A) : Permutation (as_completed futures) futures.
Proof. now apply completion_order_perm. Qed.

(** *** Jobs and results *)

Lemma in_combine_seq (files : list FileMetadata) : forall a n i f,
  In (i, f) (combine (seq a n) files) -> (a <= i)%nat /\ nth_error files (i - a) = Some f.
Proof.
  induction files as [|g files IH]; intros a [|n] i f H; cbn in H; try contradiction.
  destruct H as [H|H].
  - injection H as <- <-. split; [lia|]. now rewrite Nat.sub_diag.
  - apply IH in H. destruct H as [Ha Hn]. split; [lia|].
    replace (i - a)%nat with (S (i - S a)) by lia. exact Hn.
Qed.

Lemma combine_seq_positions (files : list FileMetadata) : forall a n,
  List.NoDup (map fst (combine (seq a n) files)).
Proof.
  induction files as [|g files IH]; intros a [|n]; cbn; try constructor.
  - intros H. apply in_map_iff in H. destruct H as ([i f] & Hi & H). cbn in Hi. subst i.
    apply in_combine_seq in H. lia.
  - apply IH.
Qed.

Lemma filter_positions {X} (P : nat * X -> bool) (l : list (nat * X)) :
  List.NoDup (map fst l) -> List.NoDup (map fst (List.filter P l)).
Proof.
  induction l as [|x l IH]; intros H; cbn; [constructor|].
  inversion H as [|? ? Hx Hl]; subst.
  destruct (P x); [|now apply IH]. cbn. constructor; [|now apply IH].
  intros Hin. apply Hx. apply in_map_iff in Hin. destruct Hin as (y & Hy & Hin).
  apply in_map_iff. exists y. split; [exact Hy|]. apply filter_In in Hin. tauto.
Qed.

Lemma jobs_positions files : List.NoDup (map fst (files_to_summarize files)).
Proof. apply filter_positions, combine_seq_positions. Qed.

Lemma jobs_lookup files i f : In (i, f) (files_to_summarize files) -> files !! i = Some f.
Proof.
  intros H. apply filter_In in H. destruct H as [H _].
  apply in_combine_seq in H. destruct H as [_ H]. rewrite Nat.sub_0_r in H.
  revert i H. induction files as [|g files IH]; intros [|i] H; cbn in *;
    try discriminate; try assumption. now apply IH.
Qed.

Lemma jobs_need_summary files i f :
  In (i, f) (files_to_summarize files) -> Py.truthy (file_summary f) = false.
Proof.
  intros H. apply filter_In in H. destruct H as [_ H].
  unfold hasattr_file_hash in H. rewrite andb_true_r in H.
  now apply negb_true_iff in H.
Qed.

Lemma batch_results_positions jobs : forall calls,
  map snd (batch_results calls jobs) = map fst jobs.
Proof.
  induction jobs as [|[i f] jobs IH]; intros calls; cbn; [reflexivity|]. now rewrite IH.
Qed.

Lemma batch_results_keys jobs : forall calls,
  map (fun r => fst (fst r)) (batch_results calls jobs)
  = map (fun job => file_file_hash (snd job)) jobs.
Proof.
  induction jobs as [|[i f] jobs IH]; intros calls; cbn; [reflexivity|]. now rewrite IH.
Qed.

Lemma batch_results_of_job jobs : forall calls i f,
  In (i, f) jobs ->
  exists calls', In (file_file_hash f, summary_text calls' f, i) (batch_results calls jobs).
Proof.
  induction jobs as [|[j g] jobs IH]; intros calls i f H; [contradiction|].
  destruct H as [H|H].
  - injection H as -> ->. exists calls. now left.
  - destruct (IH (if uses_backend g then S calls else calls) i f H) as [c Hc].
    exists c. now right.
Qed.

Lemma job_of_batch_result jobs : forall calls h s i,
  In (h, s, i) (batch_results calls jobs) ->
  exists f calls', In (i, f) jobs /\ h = file_file_hash f /\ s = summary_text calls' f.
Proof.
  induction jobs as [|[j g] jobs IH]; intros calls h s i H; [contradiction|].
  destruct H as [H|H].
  - injection H as <- <- <-. exists g, calls. repeat split. now left.
  - destruct (IH _ _ _ _ H) as (f & c & Hin & ? & ?). exists f, c. repeat split; try assumption.
    now right.
Qed.

(** *** The collecting loop, record by record and key by key *)

Lemma fold_apply_other results : forall files i,
  ~ In i (map snd results) -> fold_left apply_result results files !! i = files !! i.
Proof.
  induction results as [|r results IH]; intros files i H; [reflexivity|].
  cbn [fold_left]. rewrite IH by (intros Hin; apply H; now right).
  unfold apply_result. apply list_lookup_alter_ne. intros E. apply H. now left.
Qed.

Lemma fold_apply_own results : forall files h s i,
  List.NoDup (map snd results) ->
  In (h, s, i) results ->
  fold_left apply_result results files !! i
  = (fun f => set_file_summary f (Some s)) <$> files !! i.
Proof.
  induction results as [|r results IH]; intros files h s i Hnd Hin; [contradiction|].
  cbn [map] in Hnd. inversion Hnd as [|? ? Hr Hrest]; subst.
  cbn [fold_left]. destruct Hin as [->|Hin].
  - rewrite fold_apply_other by exact Hr.
    unfold apply_result. cbn [fst snd]. rewrite list_lookup_alter.
    destruct (decide (i = i)); [reflexivity|congruence].
  - rewrite (IH _ h s i Hrest Hin). unfold apply_result.
    rewrite list_lookup_alter_ne; [reflexivity|].
    intros E. apply Hr. rewrite E. apply (in_map snd _ _ Hin).
Qed.

Lemma fold_store_other results : forall cache key,
  ~ In key (map (fun r => fst (fst r)) results) ->
  fold_left store_result results cache !! key = cache !! key.
Proof.
  induction results as [|r results IH]; intros cache key H; [reflexivity|].
  cbn [fold_left]. rewrite IH by (intros Hin; apply H; now right).
  unfold store_result. apply lookup_insert_ne. intros E. apply H. now left.
Qed.

Lemma fold_store_own results : forall cache key,
  In key (map (fun r => fst (fst r)) results) ->
  exists s i, In (key, s, i) results
              /\ fold_left store_result results cache !! key = Some s.
Proof.
  induction results as [|[[h s] i] results IH]; intros cache key H; [contradiction|].
  cbn [fold_left].
  destruct (in_dec (fun a b : option string => decide (a = b)) key
              (map (fun r => fst (fst r)) results)) as [Hin|Hout].
  - destruct (IH (store_result cache (h, s, i)) key Hin) as (s' & i' & Hin' & E).
    exists s', i'. split; [now right|exact E].
  - destruct H as [H|H]; [|contradiction]. cbn in H. subst h.
    exists s, i. split; [now left|].
    rewrite fold_store_other by exact Hout.
    unfold store_result. cbn [fst snd]. apply lookup_insert_eq.
Qed.

(** *** The results in completion order *)

Lemma completed_positions calls jobs i :
  In i (map snd (as_completed (batch_results calls jobs))) <-> In i (map fst jobs).
Proof.
  rewrite <- (batch_results_positions jobs calls).
  split; apply Permutation_in, Permutation_map;
    [apply as_completed_perm|apply Permutation_sym, as_completed_perm].
Qed.

Lemma completed_keys calls jobs key :
  In key (map (fun r => fst (fst r)) (as_completed (batch_results calls jobs)))
  <-> In key (map (fun job => file_file_hash (snd job)) jobs).
Proof.
  rewrite <- (batch_results_keys jobs calls).
  split; apply Permutation_in, Permutation_map;
    [apply as_completed_perm|apply Permutation_sym, as_completed_perm].
Qed.

Lemma completed_once calls files :
  List.NoDup (map snd (as_completed (batch_results calls (files_to_summarize files)))).
Proof.
  eapply Permutation_NoDup;
    [apply Permutation_map, Permutation_sym, as_completed_perm|].
  rewrite batch_results_positions. apply jobs_positions.
Qed.

(** What one batch leaves alone: the records it has no job for and the
    cache entries under keys that no job carries. *)
Lemma batch_frame files st :
  exists files' st',
    _batch_generate_file_summaries files st = (Return files', st')
    /\ (forall i, ~ In i (map fst (files_to_summarize files)) -> files' !! i = files !! i)
    /\ (forall key,
          ~ In key (map (fun job => file_file_hash (snd job)) (files_to_summarize files)) ->
          summary_cache st' !! key = summary_cache st !! key).
Proof.
  rewrite batch_eq. cbn zeta. eexists _, _. split; [reflexivity|]. cbn [summary_cache]. split.
  - intros i Hi. apply fold_apply_other. now rewrite completed_positions.
  - intros key Hk. apply fold_store_other. now rewrite completed_keys.
Qed.

(** C3, as the code has it.  One batch: it never raises; it sends one
    request per record that still lacks a summary and has elements, in
    submission order, whatever the digests; every record that lacks a
    summary receives the text its own future returned and no other record
    changes; afterwards the cache holds, under each digest of the batch,
    the text of one of the records with that digest, and is unchanged
    elsewhere. *)
Theorem batch_summarizes_each_record files st :
  let jobs := files_to_summarize files in
  let digest := fun job : nat * FileMetadata => file_file_hash (snd job) in
  exists files' st',
    _batch_generate_file_summaries files st = (Return files', st')
    /\ llm_calls st' = rev (batch_prompts jobs) ++ llm_calls st
    /\ disk st' = disk st
    /\ (forall i f, In (i, f) jobs ->
        exists calls,
          files' !! i = Some (set_file_summary f (Some (summary_text calls f))))
    /\ (forall i, ~ In i (map fst jobs) -> files' !! i = files !! i)
    /\ (forall key, ~ In key (map digest jobs) ->
        summary_cache st' !! key = summary_cache st !! key)
    /\ (forall key, In key (map digest jobs) ->
        exists i f calls,
          In (i, f) jobs /\ file_file_hash f = key
          /\ summary_cache st' !! key = Some (summary_text calls f)
          /\ files' !! i = Some (set_file_summary f (Some (summary_text calls f)))).
Proof.
  cbn zeta. rewrite batch_eq. cbn zeta.
  set (jobs := files_to_summarize files).
  set (results := batch_results (length (llm_calls st)) jobs).
  pose proof (as_completed_perm results) as Hperm.
  pose proof (completed_once (length (llm_calls st)) files) as Hnd.
  fold jobs in Hnd. fold results in Hnd.
  eexists _, _. split; [reflexivity|]. cbn [llm_calls disk summary_cache].
  split; [reflexivity|]. split; [reflexivity|]. split; [|split; [|split]].
  - intros i f Hin.
    destruct (batch_results_of_job jobs (length (llm_calls st)) i f Hin) as [calls Hr].
    fold results in Hr. exists calls.
    rewrite (fold_apply_own _ files _ _ i Hnd
               (Permutation_in _ (Permutation_sym Hperm) Hr)).
    now rewrite (jobs_lookup _ _ _ Hin).
  - intros i Hi. apply fold_apply_other. unfold results. now rewrite completed_positions.
  - intros key Hk. apply fold_store_other. unfold results. now rewrite completed_keys.
  - intros key Hk. apply (completed_keys (length (llm_calls st))) in Hk. fold results in Hk.
    destruct (fold_store_own _ (summary_cache st) key Hk) as (s & i & Hin & E).
    pose proof (Permutation_in _ Hperm Hin) as Hin'.
    destruct (job_of_batch_result _ _ _ _ _ Hin') as (f & calls & Hj & Hh & ->).
    exists i, f, calls. split; [exact Hj|]. split; [now symmetry|]. split; [exact E|].
    rewrite (fold_apply_own _ files _ _ i Hnd Hin).
    now rewrite (jobs_lookup _ _ _ Hj).
Qed.

(** A record that carries a summary is not in the batch. *)
Lemma summarized_record_is_no_job files i f :
  files !! i = Some f -> Py.truthy (file_summary f) = true ->
  ~ In i (map fst (files_to_summarize files)).
Proof.
  intros Hl Ht Hin. apply in_map_iff in Hin. destruct Hin as ([j g] & Hj & Hin).
  cbn in Hj. subst j. pose proof (jobs_lookup _ _ _ Hin) as Hg.
  pose proof (jobs_need_summary _ _ _ Hin) as Hn. congruence.
Qed.

End BatchFacts.

(** ** The run as a whole *)

Section RunFacts.
Context {B : Backend}.

Lemma fold_file_count refs : forall n,
  fold_left (fun count subdir_ref => count + ref_file_count subdir_ref) refs n
  = n + Py.sum (map ref_file_count refs).
Proof.
  induction refs as [|r refs IH]; intros n; cbn [fold_left map].
  - change (Py.sum []) with 0. lia.
  - rewrite IH. change (Py.sum (?x :: ?l)) with (x + Py.sum l). lia.
Qed.

(** The directory summary never raises and touches neither cache nor
    disk. *)
Lemma generate_directory_summary_frame d st :
  exists s st',
    _generate_directory_summary d st = (Return s, st')
    /\ summary_cache st' = summary_cache st /\ disk st' = disk st.
Proof.
  unfold _generate_directory_summary, try_except, create_completion, ret.
  destruct (directory_file_summaries d), (directory_subdir_summaries d);
    try (eexists _, _; split; [reflexivity|split; reflexivity]);
    destruct (chat_completion _ _ _);
    eexists _, _; (split; [reflexivity|split; reflexivity]).
Qed.

(** The closing steps of [_index_directory]: they finish the record and
    then either write it, at the head of the disk, or fail on the write
    with the disk as it was. *)
Lemma finish_directory_full generate_summaries d0 st :
  exists d st1,
    kept d0 d (summary_cache st) (summary_cache st1)
    /\ finished d0 d /\ disk st1 = disk st
    /\ finish_directory generate_summaries d0 st
       = if writable (dir_index_file_path d0)
         then (Return d,
               mkState (summary_cache st1)
                 ((dir_index_file_path d0, DirectoryArtifact (dump_directory d)) :: disk st1)
                 (llm_calls st1))
         else (Raise (OSError (dir_index_file_path d0)), st1).
Proof.
  unfold finish_directory.
  set (d1 := aggregate d0).
  assert (H1 : finished d0 d1).
  { unfold finished, d1, aggregate; cbn. rewrite fold_file_count. repeat split. }
  assert (Hb : exists files' st2,
    match generate_summaries, dir_files d1 with
    | true, _ :: _ => _batch_generate_file_summaries (dir_files d1)
    | _, _ => ret (dir_files d1)
    end st = (Return files', st2)
    /\ map erase_summary files' = map erase_summary (dir_files d1)
    /\ disk st2 = disk st
    /\ (forall i f, dir_files d0 !! i = Some f -> Py.truthy (file_summary f) = true ->
                    files' !! i = Some f)
    /\ (forall key, ~ In key (map file_file_hash (dir_files d0)) ->
                    summary_cache st2 !! key = summary_cache st !! key)).
  { assert (Hbatch : exists files' st2,
      _batch_generate_file_summaries (dir_files d1) st = (Return files', st2)
      /\ map erase_summary files' = map erase_summary (dir_files d1)
      /\ disk st2 = disk st
      /\ (forall i f, dir_files d0 !! i = Some f -> Py.truthy (file_summary f) = true ->
                      files' !! i = Some f)
      /\ (forall key, ~ In key (map file_file_hash (dir_files d0)) ->
                      summary_cache st2 !! key = summary_cache st !! key)).
    { destruct (batch_preserves (dir_files d1) st) as (files' & st2 & E & He & Hd).
      destruct (batch_frame (dir_files d1) st) as (files'' & st2' & E' & Hother & Hkey).
      rewrite E in E'. injection E' as <- <-.
      exists files', st2. split; [exact E|]. split; [exact He|]. split; [exact Hd|].
      change (dir_files d1) with (dir_files d0) in *. split.
      - intros i f Hl Ht. rewrite Hother; [exact Hl|].
        now apply (summarized_record_is_no_job _ _ f).
      - intros key Hk. apply Hkey. intros Hin. apply Hk.
        apply in_map_iff in Hin. destruct Hin as ([j g] & <- & Hin).
        apply in_map_iff. exists g. split; [reflexivity|].
        apply jobs_lookup in Hin. cbn [snd]. apply list_elem_of_In.
        eapply list_elem_of_lookup_2. exact Hin. }
    destruct generate_summaries; [destruct (dir_files d1) eqn:E|].
    - eexists _, _. split; [reflexivity|].
      split; [reflexivity|]. split; [reflexivity|]. split; [|now intros].
      intros i f Hl _. change (dir_files d0) with (dir_files d1) in Hl.
      now rewrite E in Hl.
    - exact Hbatch.
    - eexists _, _. split; [reflexivity|].
      split; [reflexivity|]. split; [reflexivity|]. split; [now intros|now intros]. }
  destruct Hb as (files' & st2 & Eb & Hf & Hd2 & Hkeep & Hcache).
  unfold bind at 1. rewrite Eb.
  set (d2 := set_dir_files d1 files').
  assert (H2 : finished d0 d2).
  { destruct H1 as (?&?&?&?&?&?&?&?&?). unfold finished, d2; cbn.
    repeat split; try assumption; congruence. }
  assert (Hs : exists d3 st3,
    match generate_summaries, dir_files d2, dir_subdirectories d2 with
    | true, [], [] => ret d2
    | true, _, _ =>
        let* summary := _generate_directory_summary d2 in
        ret (set_dir_summary d2 (Some summary))
    | false, _, _ => ret d2
    end st2 = (Return d3, st3)
    /\ finished d0 d3 /\ disk st3 = disk st2
    /\ dir_files d3 = files' /\ summary_cache st3 = summary_cache st2).
  { assert (G : exists d3 st3,
      (let* summary := _generate_directory_summary d2 in
       ret (set_dir_summary d2 (Some summary))) st2 = (Return d3, st3)
      /\ finished d0 d3 /\ disk st3 = disk st2
      /\ dir_files d3 = files' /\ summary_cache st3 = summary_cache st2).
    { destruct (generate_directory_summary_frame d2 st2) as (s & st3 & E & Hc & Hd).
      unfold bind. rewrite E. eexists _, _. split; [reflexivity|].
      split; [|split; [exact Hd|split; [reflexivity|exact Hc]]].
      destruct H2 as (?&?&?&?&?&?&?&?&?). unfold finished; cbn. repeat split; assumption. }
    destruct generate_summaries.
    - destruct (dir_files d2); [destruct (dir_subdirectories d2)|]; try exact G.
      eexists _, _. split; [reflexivity|].
      split; [exact H2|split; [reflexivity|split; reflexivity]].
    - eexists _, _. split; [reflexivity|].
      split; [exact H2|split; [reflexivity|split; reflexivity]]. }
  destruct Hs as (d3 & st3 & Es & H3 & Hd3 & Hf3 & Hc3).
  unfold bind at 1. rewrite Es.
  exists d3, st3. split; [|split; [exact H3|split; [congruence|]]].
  - split.
    + intros i f Hl Ht. rewrite Hf3. now apply Hkeep.
    + intros key Hk. rewrite Hc3. now apply Hcache.
  - destruct H3 as (_&_&Hp&_). unfold bind, write_json, ret. rewrite Hp.
    destruct (writable (dir_index_file_path d0)); reflexivity.
Qed.

Lemma finish_directory_spec generate_summaries d0 st :
  exists d st1,
    finished d0 d /\ disk st1 = disk st
    /\ finish_directory generate_summaries d0 st
       = if writable (dir_index_file_path d0)
         then (Return d,
               mkState (summary_cache st1)
                 ((dir_index_file_path d0, DirectoryArtifact (dump_directory d)) :: disk st1)
                 (llm_calls st1))
         else (Raise (OSError (dir_index_file_path d0)), st1).
Proof.
  destruct (finish_directory_full generate_summaries d0 st) as (d & st1 & _ & H).
  now exists d, st1.
Qed.

(** Induction on source trees. *)
Lemma fs_node_induction (P : fs_node -> Prop) :
  (forall content, P (RegularFile content)) ->
  P Special ->
  P (Directory None) ->
  (forall items, Forall (fun entry => P (snd entry)) items -> P (Directory (Some items))) ->
  forall nd, P nd.
Proof.
  intros Hfile Hspecial Hnone Hsome. fix IH 1.
  intros [content|[items|]|]; [apply Hfile| |apply Hnone|apply Hspecial].
  apply Hsome. induction items as [|[name child] items IHitems]; constructor.
  - apply IH.
  - apply IHitems.
Qed.

(** [_index_directory] by cases on the node. *)
Lemma index_directory_unlisted output_root generate_summaries parent dir_path rel st :
  _index_directory output_root generate_summaries parent (Directory None) dir_path rel st
  = if writable (index_dir_path_of output_root rel)
    then (Return (initial_index output_root parent dir_path rel), st)
    else (Raise (OSError (index_dir_path_of output_root rel)), st).
Proof.
  cbn [_index_directory]. unfold bind, makedirs, ret, raise.
  destruct (writable _); reflexivity.
Qed.

Lemma index_directory_listed output_root generate_summaries parent items dir_path rel st :
  _index_directory output_root generate_summaries parent (Directory (Some items))
    dir_path rel st
  = if writable (index_dir_path_of output_root rel)
    then
      (let* dir_index :=
         index_subdirectories
           (_index_directory output_root generate_summaries
              (Some (index_file_path_of output_root rel)))
           dir_path rel items
           (index_files dir_path rel generate_summaries (summary_cache st) items
              (initial_index output_root parent dir_path rel)) in
       finish_directory generate_summaries dir_index) st
    else (Raise (OSError (index_dir_path_of output_root rel)), st).
Proof.
  cbn [_index_directory]. unfold bind at 1, makedirs, ret, raise.
  destruct (writable _); reflexivity.
Qed.

Lemma index_directory_not_a_directory output_root generate_summaries parent nd
    dir_path rel st :
  isdir nd = false ->
  exists e,
    _index_directory output_root generate_summaries parent nd dir_path rel st
    = (Raise e, st).
Proof.
  intros H. destruct nd as [content|listing|]; try discriminate;
    cbn [_index_directory]; unfold bind, makedirs, ret, raise;
    destruct (writable _); eauto.
Qed.

(** The first loop only appends records and counts them. *)
Lemma index_files_frame dir_path rel generate_summaries cache items : forall d0,
  let d := index_files dir_path rel generate_summaries cache items d0 in
  dir_dir_path d = dir_dir_path d0
  /\ dir_relative_path d = dir_relative_path d0
  /\ dir_index_file_path d = dir_index_file_path d0
  /\ dir_summary d = dir_summary d0
  /\ dir_parent_index_path d = dir_parent_index_path d0
  /\ dir_subdirectories d = dir_subdirectories d0
  /\ (exists new, dir_files d = dir_files d0 ++ new
                  /\ dir_direct_file_count d = dir_direct_file_count d0 + Py.len new).
Proof.
  induction items as [|[item child] items IH]; intros d0; cbn zeta.
  - repeat split. exists []. rewrite app_nil_r. split; [reflexivity|]. unfold Py.len. cbn. lia.
  - cbn [index_files].
    destruct (is_ignored item); [apply IH|].
    destruct (isfile child && Py.endswith item ".py"); [|apply IH].
    destruct (_index_python_file _ _ _ _ _) as [fm|]; [|apply IH].
    destruct (IH (add_file d0 fm)) as (?&?&?&?&?&?&new&Hn&Hc).
    repeat split; try assumption.
    exists (fm :: new). cbn [add_file dir_files dir_direct_file_count] in Hn, Hc.
    rewrite Hn, Hc, <- app_assoc. split; [reflexivity|].
    unfold Py.len. cbn [length]. lia.
Qed.

Lemma made_from_entry_cons index_child dir_path rel entry items subdir_ref :
  made_from_entry index_child dir_path rel items subdir_ref ->
  made_from_entry index_child dir_path rel (entry :: items) subdir_ref.
Proof.
  intros (i&c&sub&s1&s2&Hin&?&?&?). exists i, c, sub, s1, s2.
  repeat split; try assumption. now right.
Qed.

(** The second loop only appends references, each made from the record
    a call on an entry returned. *)
Lemma index_subdirectories_frame
    (index_child : fs_node -> string -> list string -> M DirectoryIndex)
    dir_path rel items : forall d0 st d st',
  index_subdirectories index_child dir_path rel items d0 st = (Return d, st') ->
  dir_dir_path d = dir_dir_path d0
  /\ dir_relative_path d = dir_relative_path d0
  /\ dir_index_file_path d = dir_index_file_path d0
  /\ dir_summary d = dir_summary d0
  /\ dir_parent_index_path d = dir_parent_index_path d0
  /\ dir_files d = dir_files d0
  /\ dir_direct_file_count d = dir_direct_file_count d0
  /\ exists new,
       dir_subdirectories d = dir_subdirectories d0 ++ new
       /\ Forall (made_from_entry index_child dir_path rel items) new.
Proof.
  induction items as [|[item child] items IH]; intros d0 st d st' H.
  - injection H as <- <-. repeat split. exists []. now rewrite app_nil_r.
  - cbn [index_subdirectories] in H.
    assert (Skip : index_subdirectories index_child dir_path rel items d0 st = (Return d, st') ->
                   dir_dir_path d = dir_dir_path d0
                   /\ dir_relative_path d = dir_relative_path d0
                   /\ dir_index_file_path d = dir_index_file_path d0
                   /\ dir_summary d = dir_summary d0
                   /\ dir_parent_index_path d = dir_parent_index_path d0
                   /\ dir_files d = dir_files d0
                   /\ dir_direct_file_count d = dir_direct_file_count d0
                   /\ exists new,
                        dir_subdirectories d = dir_subdirectories d0 ++ new
                        /\ Forall (made_from_entry index_child dir_path rel
                                     ((item, child) :: items)) new).
    { intros H'. destruct (IH _ _ _ _ H') as (?&?&?&?&?&?&?&new&Hn&Hf).
      repeat split; try assumption. exists new. split; [assumption|].
      eapply List.Forall_impl; [|exact Hf]. intros r. apply made_from_entry_cons. }
    destruct (is_ignored item) eqn:Ei; [now apply Skip|].
    destruct (isdir child); [|now apply Skip].
    apply bind_inv_return in H. destruct H as (sub & st1 & Hc & H).
    destruct (IH _ _ _ _ H) as (?&?&?&?&?&?&?&new&Hn&Hf).
    repeat split; try assumption.
    exists (make_reference item (Py.path_join dir_path item) sub :: new).
    cbn [add_subdirectory dir_subdirectories] in Hn. rewrite Hn, <- app_assoc.
    split; [reflexivity|]. constructor.
    + exists item, child, sub, st, st1. repeat split; try assumption. now left.
    + eapply List.Forall_impl; [|exact Hf]. intros r. apply made_from_entry_cons.
Qed.

(** A property of the world that every step of the recursion keeps is
    kept by the second loop. *)
Lemma index_subdirectories_invariant (I : state -> Prop)
    (index_child : fs_node -> string -> list string -> M DirectoryIndex)
    dir_path rel items :
  Forall (fun entry => forall p r st, I st -> I (snd (index_child (snd entry) p r st))) items ->
  forall d0 st, I st -> I (snd (index_subdirectories index_child dir_path rel items d0 st)).
Proof.
  induction 1 as [|[item child] items Hc _ IH]; intros d0 st Hst; [exact Hst|].
  cbn [index_subdirectories].
  destruct (is_ignored item); [now apply IH|].
  destruct (isdir child); [|now apply IH].
  unfold bind. specialize (Hc (Py.path_join dir_path item) (rel ++ [item]) st Hst).
  cbn [snd] in Hc.
  destruct (index_child child _ _ st) as [[sub|e] st1]; cbn [snd] in Hc |- *.
  - now apply IH.
  - exact Hc.
Qed.

(** A property [I] of the world is kept by [_index_directory] when the
    closing steps keep it on the records [G] the loops can build. *)
Lemma index_directory_invariant (I : state -> Prop) (G : DirectoryIndex -> Prop)
    output_root generate_summaries :
  (forall parent dir_path rel, G (initial_index output_root parent dir_path rel)) ->
  (forall st dir_path rel items d0,
     I st -> G d0 ->
     G (index_files dir_path rel generate_summaries (summary_cache st) items d0)) ->
  (forall index_child dir_path rel items d0 st d st',
     G d0 ->
     index_subdirectories index_child dir_path rel items d0 st = (Return d, st') ->
     G d) ->
  (forall d0 st, I st -> G d0 -> I (snd (finish_directory generate_summaries d0 st))) ->
  forall nd parent dir_path rel st,
    I st ->
    I (snd (_index_directory output_root generate_summaries parent nd dir_path rel st)).
Proof.
  intros G0 Gfiles Gsub Ifinish nd.
  induction nd as [content| | |items IH] using fs_node_induction;
    intros parent dir_path rel st Hst.
  - destruct (index_directory_not_a_directory output_root generate_summaries parent
                (RegularFile content) dir_path rel st eq_refl) as [e ->]. exact Hst.
  - destruct (index_directory_not_a_directory output_root generate_summaries parent
                Special dir_path rel st eq_refl) as [e ->]. exact Hst.
  - rewrite index_directory_unlisted. destruct (writable _); exact Hst.
  - rewrite index_directory_listed. destruct (writable _); [|exact Hst].
    unfold bind.
    set (index_child := _index_directory output_root generate_summaries
                          (Some (index_file_path_of output_root rel))).
    set (d0 := index_files dir_path rel generate_summaries (summary_cache st) items
                 (initial_index output_root parent dir_path rel)).
    assert (Hd0 : G d0) by (apply Gfiles; [exact Hst|apply G0]).
    assert (Hloop : I (snd (index_subdirectories index_child dir_path rel items d0 st))).
    { apply index_subdirectories_invariant; [|exact Hst].
      eapply List.Forall_impl; [|exact IH]. intros entry He p r st0 H0. now apply He. }
    destruct (index_subdirectories index_child dir_path rel items d0 st)
      as [[d|e] st1] eqn:El; cbn [snd] in Hloop.
    + apply Ifinish; [exact Hloop|]. eapply Gsub; [exact Hd0|exact El].
    + exact Hloop.
Qed.

Lemma new_records_refl P st : new_records_satisfy P (disk st) st.
Proof. exists []. split; [reflexivity|constructor]. Qed.

Lemma file_count_invariant_dump d :
  file_count_invariant d -> file_count_invariant (dump_directory d).
Proof. intros H. exact H. Qed.

Lemma finished_file_count d0 d : finished d0 d -> file_count_invariant d.
Proof.
  intros (_&_&_&_&Hs&Hd&Ht&_). unfold file_count_invariant. rewrite Ht, Hs, Hd. reflexivity.
Qed.

(** Every record [_index_directory] writes, at any depth and whether or
    not the run completes, satisfies the count invariant. *)
Lemma written_records_file_count output_root generate_summaries parent nd dir_path rel
    base st :
  new_records_satisfy file_count_invariant base st ->
  new_records_satisfy file_count_invariant base
    (snd (_index_directory output_root generate_summaries parent nd dir_path rel st)).
Proof.
  apply (index_directory_invariant
           (new_records_satisfy file_count_invariant base) (fun _ => True));
    try (intros; exact Logic.I).
  intros d0 st0 (new & Hn & Hf) _.
  destruct (finish_directory_spec generate_summaries d0 st0) as (d & st1 & Hfin & Hd & ->).
  destruct (writable _); cbn [snd].
  - exists ((dir_index_file_path d0, DirectoryArtifact (dump_directory d)) :: new).
    cbn [disk]. rewrite Hd, Hn. split; [reflexivity|]. constructor; [|exact Hf].
    exists (dump_directory d). split; [reflexivity|].
    apply file_count_invariant_dump. eapply finished_file_count; exact Hfin.
  - exists new. split; [congruence|exact Hf].
Qed.

(** What a returned record looks like. *)
Lemma index_directory_returns output_root generate_summaries parent nd dir_path rel
    st d st' :
  _index_directory output_root generate_summaries parent nd dir_path rel st
  = (Return d, st') ->
  dir_index_file_path d = index_file_path_of output_root rel
  /\ dir_relative_path d = relpath rel
  /\ dir_direct_file_count d = Py.len (dir_files d)
  /\ dir_total_file_count d
     = dir_direct_file_count d + Py.sum (map ref_file_count (dir_subdirectories d))
  /\ dir_total_lines d = Py.sum (map file_total_lines (dir_files d))
  /\ Forall (made_from_entry
               (_index_directory output_root generate_summaries
                  (Some (index_file_path_of output_root rel)))
               dir_path rel (listing_of nd))
       (dir_subdirectories d).
Proof.
  intros H. destruct nd as [content|[items|]|].
  - destruct (index_directory_not_a_directory output_root generate_summaries parent
                (RegularFile content) dir_path rel st eq_refl) as [e E]. congruence.
  - rewrite index_directory_listed in H. destruct (writable _); [|discriminate].
    apply bind_inv_return in H. destruct H as (d1 & st1 & Hl & Hf).
    apply index_subdirectories_frame in Hl.
    destruct Hl as (_&Hr&Hp&_&_&Hfiles&Hdirect&new&Hn&Hnew).
    destruct (index_files_frame dir_path rel generate_summaries (summary_cache st) items
                (initial_index output_root parent dir_path rel))
      as (_&Hr0&Hp0&_&_&Hs0&files&Hf0&Hc0).
    cbn [initial_index new_directory_index dir_files dir_direct_file_count
         dir_subdirectories dir_index_file_path dir_relative_path app] in *.
    destruct (finish_directory_spec generate_summaries d1 st1) as (d' & st2 & Hfin & _ & E).
    rewrite E in Hf. destruct (writable _); [|discriminate].
    injection Hf as <- _.
    destruct Hfin as (_&Hr'&Hp'&_&Hs'&Hd'&Ht'&Hl'&He').
    repeat split.
    + congruence.
    + congruence.
    + rewrite Hd', Hdirect, Hc0. unfold Py.len.
      rewrite (erased_length _ _ He'), Hfiles, Hf0. lia.
    + rewrite Ht', Hs', Hd'. reflexivity.
    + rewrite Hl'. now rewrite (erased_lines _ _ He').
    + rewrite Hs', Hn, Hs0. exact Hnew.
  - rewrite index_directory_unlisted in H. destruct (writable _); [|discriminate].
    injection H as <- _. cbn. repeat split. constructor.
  - destruct (index_directory_not_a_directory output_root generate_summaries parent
                Special dir_path rel st eq_refl) as [e E]. congruence.
Qed.

(** A listed directory that returns has just written its record. *)
Lemma index_directory_persists output_root generate_summaries parent items dir_path rel
    st d st' :
  _index_directory output_root generate_summaries parent (Directory (Some items))
    dir_path rel st = (Return d, st') ->
  exists earlier,
    disk st' = (index_file_path_of output_root rel, DirectoryArtifact (dump_directory d))
               :: earlier.
Proof.
  intros H. rewrite index_directory_listed in H. destruct (writable _); [|discriminate].
  apply bind_inv_return in H. destruct H as (d1 & st1 & Hl & Hf).
  apply index_subdirectories_frame in Hl. destruct Hl as (_&_&Hp&_).
  destruct (index_files_frame dir_path rel generate_summaries (summary_cache st) items
              (initial_index output_root parent dir_path rel)) as (_&_&Hp0&_).
  cbn zeta in Hp0. rewrite Hp0 in Hp. cbn in Hp.
  destruct (finish_directory_spec generate_summaries d1 st1) as (d' & st2 & _ & _ & E).
  rewrite E in Hf. destruct (writable _); [|discriminate].
  injection Hf as <- <-. cbn [disk]. rewrite Hp. eauto.
Qed.

(** C4. For every directory [_index_directory] indexes, the record it
    returns and persists has
    [total_file_count = direct_file_count + sum of the references' file_count],
    the [file_count] of each reference being the [total_file_count] of the
    record the recursive call on that subdirectory returned; and every
    record the call writes, at any depth, satisfies the same equation. *)
Theorem directory_file_count_invariant output_root generate_summaries parent nd
    dir_path rel st d st' :
  _index_directory output_root generate_summaries parent nd dir_path rel st
  = (Return d, st') ->
  dir_total_file_count d
  = dir_direct_file_count d + Py.sum (map ref_file_count (dir_subdirectories d))
  /\ dir_direct_file_count d = Py.len (dir_files d)
  /\ Forall (fun subdir_ref =>
       exists item child subdir_index st1 st2,
         In (item, child) (listing_of nd)
         /\ _index_directory output_root generate_summaries
              (Some (dir_index_file_path d)) child (Py.path_join dir_path item)
              (rel ++ [item]) st1 = (Return subdir_index, st2)
         /\ ref_index_file_path subdir_ref = dir_index_file_path subdir_index
         /\ ref_file_count subdir_ref = dir_total_file_count subdir_index)
       (dir_subdirectories d)
  /\ (forall items, nd = Directory (Some items) ->
      exists earlier,
        disk st' = (dir_index_file_path d, DirectoryArtifact (dump_directory d)) :: earlier
        /\ file_count_invariant (dump_directory d))
  /\ new_records_satisfy file_count_invariant (disk st) st'.
Proof.
  intros H.
  destruct (index_directory_returns _ _ _ _ _ _ _ _ _ H) as (Hp&_&Hd&Ht&_&Hrefs).
  split; [exact Ht|]. split; [exact Hd|]. split; [|split].
  - eapply List.Forall_impl; [|exact Hrefs].
    intros r (item&child&sub&st1&st2&Hin&_&Hcall&->).
    exists item, child, sub, st1, st2. rewrite Hp. repeat split; assumption.
  - intros items ->. destruct (index_directory_persists _ _ _ _ _ _ _ _ _ H) as [earlier E].
    exists earlier. rewrite Hp. split; [exact E|exact Ht].
  - pose proof (written_records_file_count output_root generate_summaries parent nd
                  dir_path rel (disk st) st (new_records_refl _ st)) as W.
    now rewrite H in W.
Qed.

(** *** Cache hits *)

(** A file that parses and whose digest is in the cache gets the cached
    summary and no stored digest. *)
Lemma index_python_file_hit file_path rel text tree cache cached :
  ast_parse text = Some tree ->
  cache !! Some (md5_hexdigest text) = Some cached ->
  exists file_metadata,
    _index_python_file file_path rel (Some text) true cache = Some file_metadata
    /\ file_summary file_metadata = Some cached
    /\ file_file_hash file_metadata = None
    /\ file_relative_path file_metadata = relpath rel.
Proof.
  intros Hp Hc. unfold _index_python_file. rewrite Hp. cbn [_hash_file]. rewrite Hc.
  eexists. split; [reflexivity|]. repeat split.
Qed.

(** A record stores a digest only when the cache missed it. *)
Lemma index_python_file_miss file_path rel content generate_summaries cache fm h :
  _index_python_file file_path rel content generate_summaries cache = Some fm ->
  file_file_hash fm = Some h -> cache !! Some h = None.
Proof.
  unfold _index_python_file. destruct content as [text|]; [|discriminate].
  destruct (ast_parse text) as [tree|]; [|intros [= <-]; discriminate].
  destruct generate_summaries; [|intros [= <-]; discriminate].
  cbn [_hash_file]. destruct (cache !! Some (md5_hexdigest text)) eqn:E.
  - intros [= <-]. discriminate.
  - intros [= <-]. cbn. intros [= <-]. exact E.
Qed.

Lemma index_files_misses dir_path rel generate_summaries cache h items : forall d0,
  is_Some (cache !! Some h) ->
  Forall (fun f => file_file_hash f <> Some h) (dir_files d0) ->
  Forall (fun f => file_file_hash f <> Some h)
    (dir_files (index_files dir_path rel generate_summaries cache items d0)).
Proof.
  induction items as [|[item child] items IH]; intros d0 Hc H0; [exact H0|].
  cbn [index_files].
  destruct (is_ignored item); [now apply IH|].
  destruct (isfile child && Py.endswith item ".py"); [|now apply IH].
  destruct (_index_python_file _ _ _ _ _) as [fm|] eqn:E; [|now apply IH].
  apply IH; [exact Hc|]. cbn [add_file dir_files]. apply Forall_app. split; [exact H0|].
  constructor; [|constructor]. intros Hh.
  rewrite (index_python_file_miss _ _ _ _ _ _ _ E Hh) in Hc. now destruct Hc.
Qed.

(** An entry the cache knows under a digest stays as it is through
    [_index_directory], whatever the outcome. *)
Lemma cached_entry_stays output_root generate_summaries parent nd dir_path rel st h cached :
  summary_cache st !! Some h = Some cached ->
  summary_cache
    (snd (_index_directory output_root generate_summaries parent nd dir_path rel st))
    !! Some h = Some cached.
Proof.
  apply (index_directory_invariant
           (fun st => summary_cache st !! Some h = Some cached)
           (fun d => Forall (fun f => file_file_hash f <> Some h) (dir_files d))).
  - intros. constructor.
  - intros st0 dp r items d0 Hc H0. apply index_files_misses; [|exact H0].
    rewrite Hc. now eexists.
  - intros index_child dp r items d0 st0 d st1 H0 Hl.
    apply index_subdirectories_frame in Hl. destruct Hl as (_&_&_&_&_&Hf&_).
    now rewrite Hf.
  - intros d0 st0 Hc H0.
    destruct (finish_directory_full generate_summaries d0 st0)
      as (d & st1 & [_ Hk] & _ & _ & ->).
    assert (E : summary_cache st1 !! Some h = Some cached).
    { rewrite Hk; [exact Hc|]. intros Hin. apply in_map_iff in Hin.
      destruct Hin as (f & Hf & Hin). rewrite List.Forall_forall in H0.
      now apply (H0 f Hin). }
    destruct (writable _); exact E.
Qed.

(** The record of a listed Python file whose digest the cache knows is
    among the records of the first loop, with the cached summary. *)
Lemma index_files_hit dir_path rel cache item text tree cached items : forall d0,
  In (item, RegularFile (Some text)) items ->
  is_ignored item = false ->
  Py.endswith item ".py" = true ->
  ast_parse text = Some tree ->
  cache !! Some (md5_hexdigest text) = Some cached ->
  exists fm,
    In fm (dir_files (index_files dir_path rel true cache items d0))
    /\ file_relative_path fm = relpath (rel ++ [item])
    /\ file_summary fm = Some cached.
Proof.
  induction items as [|[item' child] items IH]; intros d0 Hin Hi He Hp Hc; [contradiction|].
  destruct Hin as [Hin|Hin].
  - injection Hin as -> ->. cbn [index_files]. rewrite Hi. cbn [isfile andb]. rewrite He.
    cbn [file_content].
    destruct (index_python_file_hit (Py.path_join dir_path item) (rel ++ [item]) text tree
                cache cached Hp Hc) as (fm & -> & Hs & _ & Hr).
    exists fm. split; [|split; assumption].
    destruct (index_files_frame dir_path rel true cache items (add_file d0 fm))
      as (_&_&_&_&_&_&new&Hn&_).
    rewrite Hn. cbn [add_file dir_files]. apply in_or_app. left.
    apply in_or_app. right. now left.
  - cbn [index_files].
    destruct (is_ignored item'); [now apply IH|].
    destruct (isfile child && Py.endswith item' ".py"); [|now apply IH].
    destruct (_index_python_file _ _ _ _ _); now apply IH.
Qed.

Lemma written_file_records_app l1 l2 :
  written_file_records (l1 ++ l2) = written_file_records l1 ++ written_file_records l2.
Proof. unfold written_file_records. apply flat_map_app. Qed.

Lemma carries_app_l l1 l2 r cached :
  carries_cached_summary (written_file_records l1) r cached ->
  carries_cached_summary (written_file_records (l1 ++ l2)) r cached.
Proof.
  intros (fm & Hin & H). exists fm. split; [|exact H].
  rewrite written_file_records_app. apply in_or_app. now left.
Qed.

Lemma carries_app_r l1 l2 r cached :
  carries_cached_summary (written_file_records l2) r cached ->
  carries_cached_summary (written_file_records (l1 ++ l2)) r cached.
Proof.
  intros (fm & Hin & H). exists fm. split; [|exact H].
  rewrite written_file_records_app. apply in_or_app. now right.
Qed.

(** The second loop, for a cache that knows [h]. *)
Lemma index_subdirectories_keep_cached output_root h cached parent dir_path rel items :
  Forall (fun entry => keeps_cached_summaries output_root h cached (snd entry)) items ->
  forall d0 st d1 st1,
    summary_cache st !! Some h = Some cached ->
    index_subdirectories (_index_directory output_root true parent) dir_path rel items d0 st
    = (Return d1, st1) ->
    exists new,
      disk st1 = new ++ disk st
      /\ forall item child r text tree,
           In (item, child) items ->
           is_ignored item = false ->
           isdir child = true ->
           In (r, text) (python_sources child (rel ++ [item])) ->
           md5_hexdigest text = h ->
           ast_parse text = Some tree ->
           carries_cached_summary (written_file_records new) r cached.
Proof.
  induction 1 as [|[item child] items Hc _ IH]; intros d0 st d1 st1 Hw Hl.
  - injection Hl as <- <-. exists []. split; [reflexivity|]. intros; contradiction.
  - cbn [index_subdirectories] in Hl. cbn [snd] in Hc.
    assert (Skip : (is_ignored item = true \/ isdir child = false) ->
                   index_subdirectories (_index_directory output_root true parent)
                     dir_path rel items d0 st = (Return d1, st1) ->
                   exists new,
                     disk st1 = new ++ disk st
                     /\ forall item0 child0 r text tree,
                          In (item0, child0) ((item, child) :: items) ->
                          is_ignored item0 = false ->
                          isdir child0 = true ->
                          In (r, text) (python_sources child0 (rel ++ [item0])) ->
                          md5_hexdigest text = h ->
                          ast_parse text = Some tree ->
                          carries_cached_summary (written_file_records new) r cached).
    { intros Hskip Hl'. destruct (IH _ _ _ _ Hw Hl') as (new & Hd & Hs).
      exists new. split; [exact Hd|].
      intros item0 child0 r text tree [Hin|Hin] Hi Hdir; [|now apply Hs].
      injection Hin as <- <-. destruct Hskip; congruence. }
    destruct (is_ignored item) eqn:Ei; [apply Skip; [now left|exact Hl]|].
    destruct (isdir child) eqn:Ed; [|apply Skip; [now right|exact Hl]].
    apply bind_inv_return in Hl. destruct Hl as (sub & st_a & Hcall & Hl).
    pose proof (cached_entry_stays output_root true parent child
                  (Py.path_join dir_path item) (rel ++ [item]) st h cached Hw) as Hwa.
    rewrite Hcall in Hwa. cbn [snd] in Hwa.
    destruct (Hc _ _ _ _ _ _ Hw Hcall) as (new_a & Hda & Hsa).
    destruct (IH _ _ _ _ Hwa Hl) as (new_b & Hdb & Hsb).
    exists (new_b ++ new_a). split; [rewrite Hdb, Hda; apply app_assoc|].
    intros item0 child0 r text tree [Hin|Hin] Hi Hdir Hsrc Hh Hp.
    + injection Hin as <- <-. apply carries_app_r. eapply Hsa; eassumption.
    + apply carries_app_l. eapply Hsb; eassumption.
Qed.

(** Re-indexing with a warm cache: every parsable source file whose
    digest the cache maps to a non-empty text gets a record with that
    text. *)
Lemma reindexing_keeps_cached output_root h cached :
  cached <> EmptyString ->
  forall nd, keeps_cached_summaries output_root h cached nd.
Proof.
  intros Hne nd.
  induction nd as [content| | |items IH] using fs_node_induction;
    intros parent dir_path rel st d st' Hw Hrun.
  - destruct (index_directory_not_a_directory output_root true parent
                (RegularFile content) dir_path rel st eq_refl) as [e E]. congruence.
  - destruct (index_directory_not_a_directory output_root true parent
                Special dir_path rel st eq_refl) as [e E]. congruence.
  - rewrite index_directory_unlisted in Hrun. destruct (writable _); [|discriminate].
    injection Hrun as _ <-. exists []. split; [reflexivity|]. intros; contradiction.
  - rewrite index_directory_listed in Hrun. destruct (writable _); [|discriminate].
    apply bind_inv_return in Hrun. destruct Hrun as (d1 & st1 & Hl & Hf).
    set (d0 := index_files dir_path rel true (summary_cache st) items
                 (initial_index output_root parent dir_path rel)) in *.
    destruct (index_subdirectories_keep_cached output_root h cached _ dir_path rel items
                IH _ _ _ _ Hw Hl) as (new_l & Hdl & Hsl).
    apply index_subdirectories_frame in Hl. destruct Hl as (_&_&_&_&_&Hfiles&_).
    destruct (finish_directory_full true d1 st1) as (d' & st2 & [Hkeep _] & _ & Hd2 & E).
    rewrite E in Hf. destruct (writable _); [|discriminate].
    injection Hf as <- <-. cbn [disk].
    exists ((dir_index_file_path d1, DirectoryArtifact (dump_directory d')) :: new_l).
    split; [rewrite Hd2, Hdl; reflexivity|].
    intros r text tree Hsrc Hh Hp. cbn [python_sources] in Hsrc.
    apply in_flat_map in Hsrc. destruct Hsrc as ([item child] & Hin & Hsrc).
    cbn [fst snd] in Hsrc.
    destruct (is_ignored item) eqn:Ei; [contradiction|].
    destruct child as [[text'|]|listing|]; try contradiction.
    + destruct (Py.endswith item ".py") eqn:Ee; [|contradiction].
      destruct Hsrc as [Hsrc|[]]. injection Hsrc as <- <-.
      subst h.
      destruct (index_files_hit dir_path rel (summary_cache st) item text' tree cached
                  items (initial_index output_root parent dir_path rel)
                  Hin Ei Ee Hp Hw) as (fm & Hfm & Hr & Hs).
      fold d0 in Hfm. rewrite <- Hfiles in Hfm.
      apply list_elem_of_In, list_elem_of_lookup in Hfm. destruct Hfm as [i Hi].
      assert (Ht : Py.truthy (file_summary fm) = true).
      { rewrite Hs. cbn. destruct (String.eqb_spec cached EmptyString); [contradiction|reflexivity]. }
      pose proof (Hkeep i fm Hi Ht) as Hi'.
      exists (dump_file fm). split; [|split; [exact Hr|exact Hs]].
      cbn [written_file_records flat_map snd dump_directory dir_files].
      apply in_or_app. left. apply in_map.
      apply list_elem_of_In. eapply list_elem_of_lookup_2. exact Hi'.
    + change (carries_cached_summary
                (written_file_records
                   ([(dir_index_file_path d1, DirectoryArtifact (dump_directory d'))] ++ new_l))
                r cached).
      apply carries_app_r. eapply Hsl; try eassumption. reflexivity.
Qed.

(** C8, as the code has it.  For a file that parses and whose digest the
    cache maps to a non-empty text: [_index_python_file] attaches the
    cached text; a batch over any list holding the record has no job for
    it and leaves it as it is; and a run of [_index_directory] over a tree
    that holds the file leaves the cache entry as it was and writes for
    the file a record that carries the cached text. *)
Theorem cached_summary_is_reused output_root parent nd dir_path rel st d st'
    r text tree cached :
  cached <> EmptyString ->
  ast_parse text = Some tree ->
  summary_cache st !! Some (md5_hexdigest text) = Some cached ->
  (forall file_path rel',
     exists fm,
       _index_python_file file_path rel' (Some text) true (summary_cache st) = Some fm
       /\ file_summary fm = Some cached
       /\ forall files i st0,
            files !! i = Some fm ->
            ~ In i (map fst (files_to_summarize files))
            /\ exists files' st0',
                 _batch_generate_file_summaries files st0 = (Return files', st0')
                 /\ files' !! i = Some fm)
  /\ (_index_directory output_root true parent nd dir_path rel st = (Return d, st') ->
      In (r, text) (python_sources nd rel) ->
      summary_cache st' !! Some (md5_hexdigest text) = Some cached
      /\ exists new,
           disk st' = new ++ disk st
           /\ carries_cached_summary (written_file_records new) r cached).
Proof.
  intros Hne Hp Hc. split.
  - intros file_path rel'.
    destruct (index_python_file_hit file_path rel' text tree _ cached Hp Hc)
      as (fm & E & Hs & _).
    exists fm. split; [exact E|]. split; [exact Hs|].
    intros files i st0 Hi.
    assert (Ht : Py.truthy (file_summary fm) = true).
    { rewrite Hs. cbn. destruct (String.eqb_spec cached EmptyString); [contradiction|reflexivity]. }
    pose proof (summarized_record_is_no_job files i fm Hi Ht) as Hno.
    split; [exact Hno|].
    destruct (batch_frame files st0) as (files' & st0' & Eb & Hother & _).
    exists files', st0'. split; [exact Eb|]. now rewrite Hother.
  - intros Hrun Hsrc. split.
    + pose proof (cached_entry_stays output_root true parent nd dir_path rel st _ cached Hc)
        as Hstay.
      now rewrite Hrun in Hstay.
    + destruct (reindexing_keeps_cached output_root _ cached Hne nd
                  parent dir_path rel st d st' Hc Hrun) as (new & Hd & Hs).
      exists new. split; [exact Hd|]. now apply (Hs r text tree).
Qed.

(** *** The directory summary *)

Lemma summary_lines_agree {X} (line : X -> list string) (key : X -> string * option string)
    (l1 l2 : list X) :
  (forall x y, key x = key y -> line x = line y) ->
  map key l1 = map key l2 -> flat_map line l1 = flat_map line l2.
Proof.
  intros Hk. revert l2. induction l1 as [|x l1 IH]; intros [|y l2] H; try discriminate;
    [reflexivity|].
  cbn in H. injection H as Hxy H. cbn. rewrite (Hk _ _ Hxy). f_equal. now apply IH.
Qed.

(** The generator sees a record only through the first ten file
    summaries, the first five child summaries, the counts and the path. *)
Lemma generate_directory_summary_sources d1 d2 :
  summary_sources_agree d1 d2 ->
  _generate_directory_summary d1 = _generate_directory_summary d2.
Proof.
  intros (Hr & Hf & Hs & Hfiles & Hsubs).
  assert (Ef : directory_file_summaries d1 = directory_file_summaries d2).
  { unfold directory_file_summaries.
    apply (summary_lines_agree _ (fun f => (file_relative_path f, file_summary f)));
      [|exact Hfiles].
    intros x y [= E1 E2]. unfold file_summary_line. now rewrite E1, E2. }
  assert (Es : directory_subdir_summaries d1 = directory_subdir_summaries d2).
  { unfold directory_subdir_summaries.
    apply (summary_lines_agree _ (fun r => (ref_relative_path r, ref_summary r)));
      [|exact Hsubs].
    intros x y [= E1 E2]. unfold subdir_summary_line. now rewrite E1, E2. }
  unfold _generate_directory_summary, directory_prompt, Py.len.
  now rewrite Ef, Es, Hr, Hf, Hs.
Qed.

Lemma finish_directory_summary d0 st d st' :
  dir_summary d0 = None ->
  finish_directory true d0 st = (Return d, st') ->
  match dir_files d, dir_subdirectories d with
  | [], [] => dir_summary d = None
  | _, _ =>
      exists st1 st2 text,
        _generate_directory_summary (set_dir_summary d None) st1 = (Return text, st2)
        /\ dir_summary d = Some text
  end.
Proof.
  intros H0 H. unfold finish_directory in H.
  apply bind_inv_return in H. destruct H as (files' & st2 & _ & H).
  apply bind_inv_return in H. destruct H as (d3 & st3 & Es & H).
  apply bind_inv_return in H. destruct H as (u & st4 & _ & H).
  injection H as <- _.
  remember (set_dir_files (aggregate d0) files') as d2 eqn:Hd2.
  assert (E0 : dir_summary d2 = None) by (now rewrite Hd2).
  assert (E2 : forall text, set_dir_summary (set_dir_summary d2 (Some text)) None = d2).
  { intros text. rewrite Hd2. unfold set_dir_summary, set_dir_files, aggregate. cbn.
    now rewrite H0. }
  clear Hd2.
  assert (G : forall (k : M DirectoryIndex),
    k = (let* summary := _generate_directory_summary d2 in
         ret (set_dir_summary d2 (Some summary))) ->
    k st2 = (Return d3, st3) ->
    exists st1 st2' text,
      _generate_directory_summary (set_dir_summary d3 None) st1 = (Return text, st2')
      /\ dir_summary d3 = Some text).
  { intros k -> Hk. apply bind_inv_return in Hk. destruct Hk as (text & st5 & Hg & Hk).
    injection Hk as <- _. exists st2, st5, text. rewrite E2. split; [exact Hg|reflexivity]. }
  destruct (dir_files d2) as [|f fs] eqn:Ef; [destruct (dir_subdirectories d2) as [|r rs] eqn:Er|].
  - injection Es as <- _. rewrite Ef, Er. exact E0.
  - destruct (G _ eq_refl Es) as (s1 & s2 & text & Hg & Hs).
    assert (Ed : dir_files d3 = [] /\ dir_subdirectories d3 = r :: rs).
    { apply bind_inv_return in Es. destruct Es as (t & st5 & _ & Es).
      injection Es as <- _. cbn. now rewrite Ef, Er. }
    destruct Ed as [-> ->]. eauto.
  - destruct (G _ eq_refl Es) as (s1 & s2 & text & Hg & Hs).
    assert (Ed : dir_files d3 = f :: fs).
    { apply bind_inv_return in Es. destruct Es as (t & st5 & _ & Es).
      injection Es as <- _. cbn. now rewrite Ef. }
    rewrite Ed. eauto.
Qed.

(** What the generator does with a record, read off the two truncated
    lists. *)
Lemma generate_directory_summary_subset d st :
  _generate_directory_summary d st
  = (Return (subset_summary 10 5 (length (llm_calls st)) d),
     mkState (summary_cache st) (disk st) (subset_requests 10 5 d ++ llm_calls st)).
Proof.
  unfold _generate_directory_summary, subset_summary, subset_requests.
  change (directory_file_summaries d) with (subset_file_lines 10 d).
  change (directory_subdir_summaries d) with (subset_child_lines 5 d).
  change (directory_prompt d) with (subset_prompt 10 5 d).
  assert (G : try_except (create_completion (subset_prompt 10 5 d) 100)
                (fun _ =>
                   ret ("Directory with " +:+ Py.str_of_int (Py.len (dir_files d))
                        +:+ " files and "
                        +:+ Py.str_of_int (Py.len (dir_subdirectories d))
                        +:+ " subdirectories")) st
              = (Return
                   match chat_completion (length (llm_calls st)) (subset_prompt 10 5 d) 100 with
                   | Some text => text
                   | None =>
                       "Directory with " +:+ Py.str_of_int (Py.len (dir_files d))
                       +:+ " files and "
                       +:+ Py.str_of_int (Py.len (dir_subdirectories d))
                       +:+ " subdirectories"
                   end,
                 mkState (summary_cache st) (disk st)
                   ([subset_prompt 10 5 d] ++ llm_calls st))).
  { unfold try_except, create_completion.
    destruct (chat_completion _ _ _); reflexivity. }
  destruct (subset_file_lines 10 d); [destruct (subset_child_lines 5 d)|];
    [destruct st; reflexivity|exact G|exact G].
Qed.

Lemma finish_directory_subset d0 st d st' :
  finish_directory true d0 st = (Return d, st') ->
  match dir_files d, dir_subdirectories d with
  | [], [] => True
  | _, _ =>
      exists earlier,
        llm_calls st' = subset_requests 10 5 d ++ earlier
        /\ dir_summary d = Some (subset_summary 10 5 (length earlier) d)
  end.
Proof.
  intros H. unfold finish_directory in H.
  apply bind_inv_return in H. destruct H as (files' & st2 & _ & H).
  apply bind_inv_return in H. destruct H as (d3 & st3 & Es & H).
  apply bind_inv_return in H. destruct H as (u & st4 & Hw & H).
  injection H as <- <-.
  assert (Ec : llm_calls st4 = llm_calls st3).
  { unfold write_json in Hw. destruct (writable _); [|discriminate].
    now injection Hw as _ <-. }
  rewrite Ec. clear Hw Ec st4 u.
  remember (set_dir_files (aggregate d0) files') as d2 eqn:Hd2. clear Hd2.
  assert (G : forall (k : M DirectoryIndex),
    k = (let* summary := _generate_directory_summary d2 in
         ret (set_dir_summary d2 (Some summary))) ->
    k st2 = (Return d3, st3) ->
    dir_files d3 = dir_files d2 /\ dir_subdirectories d3 = dir_subdirectories d2
    /\ exists earlier,
         llm_calls st3 = subset_requests 10 5 d3 ++ earlier
         /\ dir_summary d3 = Some (subset_summary 10 5 (length earlier) d3)).
  { intros k -> Hk. apply bind_inv_return in Hk. destruct Hk as (text & st5 & Hg & Hk).
    injection Hk as <- <-. rewrite generate_directory_summary_subset in Hg.
    injection Hg as <- <-. split; [reflexivity|]. split; [reflexivity|].
    exists (llm_calls st2). split; reflexivity. }
  destruct (dir_files d2) as [|f fs] eqn:Ef; [destruct (dir_subdirectories d2) as [|r rs] eqn:Er|].
  - injection Es as <- _. now rewrite Ef, Er.
  - destruct (G _ eq_refl Es) as (E1 & E2 & earlier & Hc & Hs).
    rewrite E1, E2. eauto.
  - destruct (G _ eq_refl Es) as (E1 & E2 & earlier & Hc & Hs).
    rewrite E1. eauto.
Qed.

(** C6, as the code has it.  With summaries requested, a directory with
    at least one file record or subdirectory reference gets the text
    generated from the first ten file summaries and the first five child
    summaries of its record, in their order, together with the path and
    the counts: when these give no line the text is "Directory with N
    files" and nothing is asked; otherwise the request made of exactly
    these lines is the last one the run sends, and the summary is the
    answer to it, or the fallback text when the request fails.  The
    generator sees of a record nothing else.  A directory with neither
    files nor subdirectories keeps the summary [None]. *)
Theorem directory_summary_from_truncated_lists output_root parent nd dir_path rel
    st d st' :
  _index_directory output_root true parent nd dir_path rel st = (Return d, st') ->
  match dir_files d, dir_subdirectories d with
  | [], [] => dir_summary d = None
  | _, _ =>
      (exists earlier,
         llm_calls st' = subset_requests 10 5 d ++ earlier
         /\ dir_summary d = Some (subset_summary 10 5 (length earlier) d))
      /\ exists st1 st2 text,
           _generate_directory_summary (set_dir_summary d None) st1 = (Return text, st2)
           /\ dir_summary d = Some text
           /\ forall d', summary_sources_agree d' (set_dir_summary d None) ->
                         _generate_directory_summary d' st1 = (Return text, st2)
  end.
Proof.
  intros H.
  assert (S : match dir_files d, dir_subdirectories d with
              | [], [] => dir_summary d = None
              | _, _ =>
                  (exists earlier,
                     llm_calls st' = subset_requests 10 5 d ++ earlier
                     /\ dir_summary d = Some (subset_summary 10 5 (length earlier) d))
                  /\ exists st1 st2 text,
                       _generate_directory_summary (set_dir_summary d None) st1
                       = (Return text, st2)
                       /\ dir_summary d = Some text
              end).
  { destruct nd as [content|[items|]|].
    - destruct (index_directory_not_a_directory output_root true parent
                  (RegularFile content) dir_path rel st eq_refl) as [e E]. congruence.
    - rewrite index_directory_listed in H. destruct (writable _); [|discriminate].
      apply bind_inv_return in H. destruct H as (d1 & st1 & Hl & Hf).
      pose proof (finish_directory_subset _ _ _ _ Hf) as Hsub.
      apply finish_directory_summary in Hf.
      + destruct (dir_files d); [destruct (dir_subdirectories d)|];
          [exact Hf|split; assumption|split; assumption].
      + apply index_subdirectories_frame in Hl. destruct Hl as (_&_&_&Hs&_).
        rewrite Hs.
        now destruct (index_files_frame dir_path rel true (summary_cache st) items
                        (initial_index output_root parent dir_path rel)) as (_&_&_&->&_).
    - rewrite index_directory_unlisted in H. destruct (writable _); [|discriminate].
      injection H as <- _. reflexivity.
    - destruct (index_directory_not_a_directory output_root true parent
                  Special dir_path rel st eq_refl) as [e E]. congruence. }
  destruct (dir_files d); [destruct (dir_subdirectories d)|]; [exact S| |];
    destruct S as (Hsub & st1 & st2 & text & Hg & Hs); (split; [exact Hsub|]);
    exists st1, st2, text;
    (split; [exact Hg|]); (split; [exact Hs|]);
    intros d' Ha; now rewrite (generate_directory_summary_sources _ _ Ha).
Qed.

(** *** Files that are not Python sources *)

Lemma without_other_files_isdir nd : isdir (without_other_files nd) = isdir nd.
Proof. destruct nd as [c|[items|]|]; reflexivity. Qed.

Lemma without_other_files_file nd : isdir nd = false -> without_other_files nd = nd.
Proof. destruct nd as [c|[items|]|]; try reflexivity. discriminate. Qed.

Lemma isdir_not_isfile nd : isdir nd = true -> isfile nd = false.
Proof. destruct nd; try discriminate; reflexivity. Qed.

(** The first loop does not see the entries that are dropped. *)
Lemma index_files_without_other_files dir_path rel generate_summaries cache items :
  forall d0,
    index_files dir_path rel generate_summaries cache
      (listing_of (without_other_files (Directory (Some items)))) d0
    = index_files dir_path rel generate_summaries cache items d0.
Proof.
  cbn [without_other_files listing_of].
  induction items as [|[item child] items IH]; intros d0; [reflexivity|].
  cbn [flat_map fst snd]. unfold is_python_source.
  destruct (isdir child) eqn:Ed.
  - cbn [orb app index_files].
    rewrite (isdir_not_isfile child Ed).
    rewrite (isdir_not_isfile (without_other_files child))
      by (now rewrite without_other_files_isdir).
    cbn [andb]. destruct (is_ignored item); apply IH.
  - rewrite (without_other_files_file _ Ed). cbn [orb].
    destruct (is_ignored item) eqn:Ei; cbn [negb andb].
    + cbn [app index_files]. rewrite IH, Ei. reflexivity.
    + destruct (isfile child && Py.endswith item ".py") eqn:Ef.
      * cbn [app index_files]. rewrite Ei, Ef.
        destruct (_index_python_file _ _ _ _ _); apply IH.
      * cbn [app index_files]. rewrite IH, Ei, Ef. reflexivity.
Qed.

(** The second loop does not see them either, once the recursive calls
    agree on the entries. *)
Lemma index_subdirectories_without_other_files
    (index_child : fs_node -> string -> list string -> M DirectoryIndex)
    dir_path rel items :
  Forall (fun entry =>
            forall p r st, index_child (without_other_files (snd entry)) p r st
                           = index_child (snd entry) p r st) items ->
  forall d0 st,
    index_subdirectories index_child dir_path rel
      (listing_of (without_other_files (Directory (Some items)))) d0 st
    = index_subdirectories index_child dir_path rel items d0 st.
Proof.
  cbn [without_other_files listing_of].
  induction 1 as [|[item child] items Hc _ IH]; intros d0 st; [reflexivity|].
  cbn [flat_map fst snd] in *. unfold is_python_source.
  destruct (isdir child) eqn:Ed.
  - cbn [orb app index_subdirectories].
    rewrite without_other_files_isdir, Ed.
    destruct (is_ignored item); [apply IH|].
    unfold bind. rewrite Hc.
    destruct (index_child child _ _ st) as [[sub|e] st1]; [|reflexivity].
    apply IH.
  - rewrite (without_other_files_file _ Ed). cbn [orb].
    destruct (negb (is_ignored item) && (isfile child && Py.endswith item ".py")).
    + cbn [app index_subdirectories]. rewrite Ed.
      destruct (is_ignored item); apply IH.
    + cbn [app index_subdirectories]. rewrite IH, Ed.
      destruct (is_ignored item); reflexivity.
Qed.

(** Indexing the tree without its other files is indexing the tree. *)
Lemma index_directory_without_other_files output_root generate_summaries nd :
  forall parent dir_path rel st,
    _index_directory output_root generate_summaries parent (without_other_files nd)
      dir_path rel st
    = _index_directory output_root generate_summaries parent nd dir_path rel st.
Proof.
  induction nd as [content| | |items IH] using fs_node_induction;
    intros parent dir_path rel st; try reflexivity.
  change (without_other_files (Directory (Some items)))
    with (Directory (Some (listing_of (without_other_files (Directory (Some items)))))).
  rewrite !index_directory_listed. destruct (writable _); [|reflexivity].
  unfold bind.
  rewrite index_files_without_other_files.
  rewrite index_subdirectories_without_other_files; [reflexivity|].
  eapply List.Forall_impl; [|exact IH]. intros entry He p r st0. apply He.
Qed.

(** Every record of a returned directory comes from a listed regular
    file that is not ignored and whose name ends in [.py]. *)
Lemma index_files_origin dir_path rel generate_summaries cache items : forall d0 fm,
  In fm (dir_files (index_files dir_path rel generate_summaries cache items d0)) ->
  In fm (dir_files d0)
  \/ exists item content,
       In (item, RegularFile (Some content)) items
       /\ is_ignored item = false
       /\ Py.endswith item ".py" = true
       /\ file_file_path fm = Py.path_join dir_path item.
Proof.
  induction items as [|[item child] items IH]; intros d0 fm H; [now left|].
  cbn [index_files] in H.
  assert (Rest : In fm (dir_files (index_files dir_path rel generate_summaries cache items d0)) ->
                 In fm (dir_files d0)
                 \/ exists item0 content,
                      In (item0, RegularFile (Some content)) ((item, child) :: items)
                      /\ is_ignored item0 = false
                      /\ Py.endswith item0 ".py" = true
                      /\ file_file_path fm = Py.path_join dir_path item0).
  { intros H'. destruct (IH _ _ H') as [?|(i & c & Hin & ?)]; [now left|right].
    exists i, c. split; [now right|assumption]. }
  destruct (is_ignored item) eqn:Ei; [now apply Rest|].
  destruct (isfile child) eqn:Ef; [|now apply Rest].
  destruct (Py.endswith item ".py") eqn:Ee; [|now apply Rest].
  cbn [andb] in H.
  destruct child as [[content|]|listing|]; try discriminate; cbn [file_content] in H.
  - destruct (_index_python_file _ _ _ _ _) as [fm0|] eqn:E; [|now apply Rest].
    destruct (IH _ _ H) as [Hin|(i & c & Hin & ?)].
    + cbn [add_file dir_files] in Hin. apply in_app_or in Hin.
      destruct Hin as [Hin|[<-|[]]]; [now left|right].
      exists item, content. split; [now left|]. repeat split; try assumption.
      unfold _index_python_file in E. destruct (ast_parse content); [|now injection E as <-].
      destruct generate_summaries; [|now injection E as <-].
      destruct (cache !! _); now injection E as <-.
    + right. exists i, c. split; [now right|assumption].
  - now apply Rest.
Qed.

Lemma erased_origin (files files' : list FileMetadata) fm :
  map erase_summary files' = map erase_summary files ->
  In fm files' ->
  exists fm0, In fm0 files /\ file_file_path fm0 = file_file_path fm.
Proof.
  intros H Hin. apply (in_map erase_summary) in Hin. rewrite H in Hin.
  apply in_map_iff in Hin. destruct Hin as (fm0 & E & Hin). exists fm0. split; [exact Hin|].
  change (file_file_path (erase_summary fm0) = file_file_path (erase_summary fm)).
  now rewrite E.
Qed.

(** C10. Only regular files that are not ignored and whose name ends in
    [.py] produce file records, and every other file is without effect:
    indexing a tree, a directory or the whole repository, gives the same
    outcome and the same world as indexing it with all other files
    removed. *)
Theorem only_python_sources_contribute output_root repo_path generate_summaries parent nd
    dir_path rel st :
  _index_directory output_root generate_summaries parent (without_other_files nd)
    dir_path rel st
  = _index_directory output_root generate_summaries parent nd dir_path rel st
  /\ index_repository repo_path output_root generate_summaries (without_other_files nd) st
     = index_repository repo_path output_root generate_summaries nd st
  /\ forall d st',
       _index_directory output_root generate_summaries parent nd dir_path rel st
       = (Return d, st') ->
       forall fm, In fm (dir_files d) ->
         exists item content,
           In (item, RegularFile (Some content)) (listing_of nd)
           /\ is_ignored item = false
           /\ Py.endswith item ".py" = true
           /\ file_file_path fm = Py.path_join dir_path item.
Proof.
  split; [apply index_directory_without_other_files|]. split.
  - unfold index_repository, bind. destruct (makedirs output_root st) as [[u|e] st0];
      [|reflexivity].
    now rewrite index_directory_without_other_files.
  - intros d st' H fm Hin. destruct nd as [content|[items|]|].
    + destruct (index_directory_not_a_directory output_root generate_summaries parent
                  (RegularFile content) dir_path rel st eq_refl) as [e E]. congruence.
    + rewrite index_directory_listed in H. destruct (writable _); [|discriminate].
      apply bind_inv_return in H. destruct H as (d1 & st1 & Hl & Hf).
      apply index_subdirectories_frame in Hl. destruct Hl as (_&_&_&_&_&Hfiles&_).
      destruct (finish_directory_spec generate_summaries d1 st1) as (d' & st2 & Hfin & _ & E).
      rewrite E in Hf. destruct (writable _); [|discriminate]. injection Hf as <- _.
      destruct Hfin as (_&_&_&_&_&_&_&_&He).
      destruct (erased_origin _ _ fm He Hin) as (fm0 & Hin0 & <-).
      rewrite Hfiles in Hin0. apply index_files_origin in Hin0.
      destruct Hin0 as [[]|Hin0]. exact Hin0.
    + rewrite index_directory_unlisted in H. destruct (writable _); [|discriminate].
      injection H as <- _. contradiction.
    + destruct (index_directory_not_a_directory output_root generate_summaries parent
                  Special dir_path rel st eq_refl) as [e E]. congruence.
Qed.

(** *** Where the artifacts go *)

Lemma index_subdirectories_write_listed output_root generate_summaries parent
    dir_path rel items :
  Forall (fun entry => writes_listed_directories output_root generate_summaries (snd entry))
    items ->
  forall d0 st d1 st1,
    index_subdirectories (_index_directory output_root generate_summaries parent)
      dir_path rel items d0 st = (Return d1, st1) ->
    exists new,
      disk st1 = new ++ disk st
      /\ map fst new
         = rev (map (index_file_path_of output_root)
                  (flat_map
                     (fun entry =>
                        if is_ignored (fst entry) then []
                        else match snd entry with
                             | Directory _ =>
                                 listed_directories (snd entry) (rel ++ [fst entry])
                             | _ => []
                             end)
                     items)).
Proof.
  induction 1 as [|[item child] items Hc _ IH]; intros d0 st d1 st1 Hl.
  - injection Hl as <- <-. now exists [].
  - cbn [index_subdirectories] in Hl. cbn [flat_map fst snd] in *.
    destruct (is_ignored item); [now apply (IH _ _ _ _ Hl)|].
    destruct child as [content|listing|]; cbn [isdir] in Hl;
      try (now apply (IH _ _ _ _ Hl)).
    apply bind_inv_return in Hl. destruct Hl as (sub & st_a & Hcall & Hl).
    destruct (Hc _ _ _ _ _ _ Hcall) as (new_a & Hda & Hpa).
    destruct (IH _ _ _ _ Hl) as (new_b & Hdb & Hpb).
    exists (new_b ++ new_a). split; [rewrite Hdb, Hda; apply app_assoc|].
    rewrite !List.map_app, rev_app_distr, Hpa, Hpb. reflexivity.
Qed.

(** One document per listed directory, at its mirrored path. *)
Lemma index_directory_writes_listed output_root generate_summaries nd :
  writes_listed_directories output_root generate_summaries nd.
Proof.
  induction nd as [content| | |items IH] using fs_node_induction;
    intros parent dir_path rel st d st' Hrun.
  - destruct (index_directory_not_a_directory output_root generate_summaries parent
                (RegularFile content) dir_path rel st eq_refl) as [e E]. congruence.
  - destruct (index_directory_not_a_directory output_root generate_summaries parent
                Special dir_path rel st eq_refl) as [e E]. congruence.
  - rewrite index_directory_unlisted in Hrun. destruct (writable _); [|discriminate].
    injection Hrun as _ <-. now exists [].
  - pose proof (index_directory_persists _ _ _ _ _ _ _ _ _ Hrun) as [earlier Hhead].
    rewrite index_directory_listed in Hrun. destruct (writable _); [|discriminate].
    apply bind_inv_return in Hrun. destruct Hrun as (d1 & st1 & Hl & Hf).
    destruct (index_subdirectories_write_listed output_root generate_summaries _
                dir_path rel items IH _ _ _ _ Hl) as (new_l & Hdl & Hpl).
    destruct (finish_directory_spec generate_summaries d1 st1) as (d' & st2 & _ & Hd2 & E).
    rewrite E in Hf. destruct (writable _); [|discriminate].
    injection Hf as <- <-. cbn [disk] in *.
    exists ((dir_index_file_path d1, DirectoryArtifact (dump_directory d')) :: new_l).
    split; [rewrite Hd2, Hdl; reflexivity|].
    cbn [listed_directories map fst]. rewrite List.map_app, rev_app_distr. cbn [map rev app].
    rewrite Hpl. f_equal.
    rewrite Hd2, Hdl in Hhead. cbn in Hhead. now injection Hhead as ->.
Qed.

(** Whatever the tree and the backend, [index_repository] does not
    return: when nothing fails earlier, the closing report raises. *)
Lemma index_repository_raises repo_path output_dir generate_summaries tree st :
  exists e, fst (index_repository repo_path output_dir generate_summaries tree st) = Raise e.
Proof.
  unfold index_repository. revert st.
  repeat (apply bind_always_raises; intros ? ?).
  now exists (NameError "index_dir").
Qed.

End RunFacts.

(** ** The runs on the concrete world *)

Section ConcreteRuns.
Import Example.

Lemma directory_file_count_invariant_witness :
  run_directory nested_tree false = (Return nested_root, nested_final)
  /\ dir_total_file_count nested_root
     = dir_direct_file_count nested_root
       + Py.sum (map ref_file_count (dir_subdirectories nested_root)).
Proof.
  split; [vm_compute; reflexivity|].
  apply (directory_file_count_invariant (B:=backend) "/out" false None nested_tree
           "/repo" [] fresh nested_root nested_final).
  vm_compute; reflexivity.
Defined.

(** C1, on the code.  In [repo/a.py], [repo/sub/b.py] (one line each) the
    record of [repo] is given [total_lines = 1], the lines of [a.py] alone,
    although the record persisted for [repo/sub] has [total_lines = 1] too:
    the lines of subdirectories are never added. *)
Theorem total_lines_omits_subdirectories :
  run_directory nested_tree false = (Return nested_root, nested_final)
  /\ dir_subdirectories nested_root = [make_reference "sub" "/repo/sub" nested_sub]
  /\ assoc "/out/sub/index.json" (disk nested_final) = Some (DirectoryArtifact nested_sub)
  /\ Py.sum (map file_total_lines (dir_files nested_root)) = 1
  /\ dir_total_lines nested_sub = 1
  /\ dir_total_lines nested_root = 1.
Proof. repeat split; vm_compute; reflexivity. Qed.

(** C2, on the code.  Whatever the tree, the backend and the state,
    [index_repository] ends in an exception; on an empty repository with
    every write succeeding, both artifacts are written and then the
    closing report raises [NameError]. *)
Theorem index_repository_never_returns :
  (forall (B : Backend) repo_path output_dir generate_summaries tree st,
     exists e,
       fst (index_repository repo_path output_dir generate_summaries tree st) = Raise e)
  /\ fst (run_repository empty_tree false) = Raise (NameError "index_dir")
  /\ map fst (disk (snd (run_repository empty_tree false)))
     = ["/out/repo_index.json"; "/out/index.json"].
Proof.
  split; [intros; apply index_repository_raises|].
  split; vm_compute; reflexivity.
Qed.

(** C5, on the code.  The call on a directory that cannot be listed
    returns the empty record without writing it; the parent refers to the
    artifact all the same, and the statistics pass of [index_repository]
    fails on opening it: no repository index is written. *)
Theorem unreadable_directory_aborts_run :
  _index_directory (B:=backend) "/out" false (Some "/out/index.json") (Directory None)
    "/repo/locked" ["locked"] fresh
  = (Return (new_directory_index "/repo/locked" "locked" "/out/locked/index.json"
               (Some "/out/index.json")), fresh)
  /\ run_directory locked_tree false = (Return locked_root, locked_final)
  /\ dir_total_file_count locked_root = 0
  /\ map ref_index_file_path (dir_subdirectories locked_root) = ["/out/locked/index.json"]
  /\ fst (run_repository locked_tree false)
     = Raise (FileNotFoundError "/out/locked/index.json")
  /\ map fst (disk (snd (run_repository locked_tree false))) = ["/out/index.json"].
Proof. repeat split; vm_compute; reflexivity. Qed.

(** C3 fails on the code: two files with the same bytes in one batch
    cause two requests for one digest, and end with different texts. *)
Lemma twin_files_summarized_twice :
  map file_file_hash twin_files = [Some ("md5:" +:+ one_function); Some ("md5:" +:+ one_function)]
  /\ ~ at_most_once_per_digest (B:=backend) twin_files fresh
  /\ ~ same_digest_same_text (B:=backend) twin_files fresh.
Proof.
  split; [vm_compute; reflexivity|]. split.
  - unfold at_most_once_per_digest. vm_compute. lia.
  - intros H.
    assert (E : exists f g,
      _batch_generate_file_summaries (B:=backend) twin_files fresh
      = (Return [f; g], snd (_batch_generate_file_summaries (B:=backend) twin_files fresh))
      /\ is_Some (file_file_hash f)
      /\ file_file_hash f = file_file_hash g
      /\ file_summary f <> file_summary g).
    { eexists _, _. split; [vm_compute; reflexivity|]. cbn.
      split; [now eexists|]. split; [reflexivity|discriminate]. }
    destruct E as (f & g & E & Hs & Hh & Hne).
    apply Hne. apply (H _ _ E f g); [now left|right; now left|exact Hs|exact Hh].
Qed.

(** C6 fails on the code for the children: of six summarized
    subdirectories only five reach the generator, and the summary of the
    sixth has no influence on what is generated; on the run over a
    directory with six subdirectories the request sent for the directory
    is not the one made of the first ten child summaries. *)
Lemma sixth_child_summary_unused :
  ~ uses_top_ten_children six_children
  /\ length (directory_subdir_summaries six_children) = 5%nat
  /\ _generate_directory_summary (B:=backend) six_children
     = _generate_directory_summary (B:=backend) (six_children_with "another text")
  /\ run_directory six_tree true = (Return six_root, six_final)
  /\ length (subset_child_lines 10 six_root) = 6%nat
  /\ forall earlier,
       llm_calls six_final <> subset_requests 10 10 six_root ++ earlier.
Proof.
  split; [unfold uses_top_ten_children; vm_compute; discriminate|].
  split; [reflexivity|].
  split; [apply generate_directory_summary_sources; repeat split|].
  split; [vm_compute; reflexivity|].
  split; [reflexivity|].
  intros earlier H. vm_compute in H. discriminate.
Qed.

Lemma directory_summary_from_truncated_lists_witness :
  run_directory six_tree true = (Return six_root, six_final)
  /\ length (dir_subdirectories six_root) = 6%nat
  /\ length (subset_child_lines 5 six_root) = 5%nat
  /\ exists earlier,
       llm_calls six_final = subset_requests 10 5 six_root ++ earlier
       /\ dir_summary six_root
          = Some (subset_summary (B:=backend) 10 5 (length earlier) six_root).
Proof.
  assert (E : run_directory six_tree true = (Return six_root, six_final))
    by (vm_compute; reflexivity).
  split; [exact E|].
  split; [reflexivity|].
  split; [reflexivity|].
  pose proof (directory_summary_from_truncated_lists (B:=backend) "/out" None six_tree
                "/repo" [] fresh six_root six_final E) as W.
  cbn [six_root dir_files dir_subdirectories] in W.
  exact (proj1 W).
Defined.

(** C8 fails on the code when the cached text is empty: the record gets
    the cached (empty) text, the batch takes it as lacking a summary,
    sends a request and assigns the answer. *)
Lemma empty_cached_summary_is_regenerated :
  summary_cache after_empty_answer !! Some (md5_hexdigest (Backend:=faltering_backend) one_function)
  = Some EmptyString
  /\ ~ hit_short_circuits_generator (B:=faltering_backend) "/repo/a.py" ["a.py"]
         one_function after_empty_answer.
Proof.
  split; [vm_compute; reflexivity|].
  intros H. destruct (H EmptyString) as (fm & E1 & _ & E3); [vm_compute; reflexivity|].
  vm_compute in E1. injection E1 as <-. vm_compute in E3. discriminate.
Qed.

Lemma cached_summary_is_reused_witness :
  summary_cache warm_state !! Some (md5_hexdigest (Backend:=backend) one_function)
  = Some "summary 0"
  /\ summary_cache rerun_final !! Some (md5_hexdigest (Backend:=backend) one_function)
     = Some "summary 0"
  /\ exists new,
       disk rerun_final = new ++ disk warm_state
       /\ carries_cached_summary (written_file_records new) ["a.py"] "summary 0".
Proof.
  assert (Hc : summary_cache warm_state !! Some (md5_hexdigest (Backend:=backend) one_function)
               = Some "summary 0") by (vm_compute; reflexivity).
  split; [exact Hc|].
  apply (cached_summary_is_reused (B:=backend) "/out" None single_tree "/repo" []
           warm_state rerun_root rerun_final ["a.py"] one_function
           (Ast.Module [Ast.FunctionDef false "f" 1 (Some 1) [] (Ast.Other "arguments" [])
                          [Ast.Other "Pass" []] [] None])
           "summary 0").
  - discriminate.
  - vm_compute; reflexivity.
  - exact Hc.
  - vm_compute; reflexivity.
  - vm_compute. now left.
Defined.

Lemma only_python_sources_contribute_witness :
  run_directory mixed_tree false = (Return mixed_root, mixed_final)
  /\ run_directory (without_other_files mixed_tree) false
     = run_directory mixed_tree false
  /\ forall fm, In fm (dir_files mixed_root) ->
       exists item content,
         In (item, RegularFile (Some content)) (listing_of mixed_tree)
         /\ is_ignored item = false
         /\ Py.endswith item ".py" = true
         /\ file_file_path fm = Py.path_join "/repo" item.
Proof.
  assert (E : run_directory mixed_tree false = (Return mixed_root, mixed_final))
    by (vm_compute; reflexivity).
  split; [exact E|].
  destruct (only_python_sources_contribute (B:=backend) "/out" "/repo" false None
              mixed_tree "/repo" [] fresh) as (H1 & _ & H3).
  split; [exact H1|]. exact (H3 mixed_root mixed_final E).
Defined.

(** C7, on the code.  The directory [repo/locked] cannot be listed:
    [_index_directory] is called on it and its parent refers to the
    artifact [/out/locked/index.json], but no document is written there,
    and [index_repository] then writes no [repo_index.json] either. *)
Theorem unreadable_directory_has_no_artifact :
  run_directory locked_tree false = (Return locked_root, locked_final)
  /\ map ref_index_file_path (dir_subdirectories locked_root)
     = [index_file_path_of "/out" ["locked"]]
  /\ index_file_path_of "/out" ["locked"] = "/out/locked/index.json"
  /\ assoc "/out/locked/index.json" (disk locked_final) = None
  /\ map fst (disk locked_final) = ["/out/index.json"]
  /\ assoc "/out/repo_index.json" (disk (snd (run_repository locked_tree false))) = None.
Proof. repeat split; vm_compute; reflexivity. Qed.

End ConcreteRuns.

(** ** Element extraction *)

Section ExtractionFacts.
Context {B : Backend}.
Import Ast Complexity.

Lemma subnode_trans a b c : subnode a b -> subnode b c -> subnode a c.
Proof.
  intros Hab Hbc. induction Hbc as [|n c' Hin Hbc IH]; [exact Hab|].
  eapply subnode_child; eauto.
Qed.

(** The queue-driven walk yields nodes of the tree only, *)
Lemma walk_loop_sound root fuel : forall todo,
  (forall t, In t todo -> subnode t root) ->
  forall d, In d (walk_loop fuel todo) -> subnode d root.
Proof.
  induction fuel as [|fuel IH]; intros todo Ht d Hd; [destruct Hd|].
  destruct todo as [|n rest]; [destruct Hd|].
  cbn [walk_loop] in Hd. destruct Hd as [<-|Hd].
  - apply Ht. now left.
  - apply (IH (rest ++ iter_child_nodes n)); [|exact Hd].
    intros t Hin. apply in_app_or in Hin as [Hin|Hin].
    + apply Ht. now right.
    + apply subnode_trans with n; [|apply Ht; now left].
      eapply subnode_child; [exact Hin|apply subnode_self].
Qed.

(** and all of them, as soon as the fuel covers what the queue reaches. *)
Lemma walk_loop_complete fuel : forall todo,
  (list_sum (map node_count todo) <= fuel)%nat ->
  forall t d, In t todo -> subnode d t -> In d (walk_loop fuel todo).
Proof.
  induction fuel as [|fuel IH]; intros todo Hf t d Ht Hd.
  - destruct todo as [|n rest]; [destruct Ht|].
    simpl in Hf. rewrite ComplexityFacts.node_count_children in Hf. lia.
  - destruct todo as [|n rest]; [destruct Ht|].
    cbn [walk_loop].
    assert (Hf' : (list_sum (map node_count (rest ++ iter_child_nodes n)) <= fuel)%nat).
    { simpl in Hf. rewrite ComplexityFacts.node_count_children in Hf.
      rewrite map_app, ComplexityFacts.list_sum_app. lia. }
    destruct Ht as [<-|Ht].
    + inversion Hd as [|n' c Hc Hdc]; subst.
      * now left.
      * right. apply (IH _ Hf' c d); [apply in_or_app; now right|exact Hdc].
    + right. apply (IH _ Hf' t d); [apply in_or_app; now left|exact Hd].
Qed.

Lemma walk_subnodes n d : In d (walk n) <-> subnode d n.
Proof.
  unfold walk. split.
  - apply walk_loop_sound. intros t [<-|[]]. apply subnode_self.
  - intros Hd. apply (walk_loop_complete _ [n]) with (t := n);
      [simpl; lia|now left|exact Hd].
Qed.

Lemma weight_nonneg n : has_operands n = true -> 0 <= weight n.
Proof.
  unfold weight, complexity_step. destruct (is_branching n); [lia|].
  destruct n; try lia. destruct values as [|v values]; [discriminate|].
  intros _. unfold Py.len. cbn [length]. lia.
Qed.

Lemma sum_nonneg (l : list Z) : List.Forall (fun x => 0 <= x) l -> 0 <= Py.sum l.
Proof. induction 1 as [|x l Hx _ IH]; simpl; lia. Qed.

(** X1. The complexity stored for a function or method is at least 1
    whenever every boolean combinator inside the definition has an
    operand, as every combinator built by the parser has: the count starts
    at 1 and no such node lowers it. *)
Theorem complexity_is_at_least_one n file_path is_method :
  forallb has_operands (walk n) = true ->
  exists c,
    elem_complexity (_extract_function_metadata n file_path is_method) = Some c
    /\ 1 <= c.
Proof.
  intros H. eexists. split; [reflexivity|].
  unfold _calculate_complexity. rewrite ComplexityFacts.fold_complexity.
  enough (0 <= Py.sum (map weight (walk n))) by lia.
  apply sum_nonneg, List.Forall_forall. intros x Hx.
  apply in_map_iff in Hx as (c & <- & Hc).
  apply weight_nonneg. rewrite forallb_forall in H. now apply H.
Qed.

(** X2. The imports of a file record are gathered from the whole syntax
    tree, not from the top-level statements only: a name is recorded
    exactly when some [import] statement anywhere in the tree lists it, or
    some [from ... import] statement anywhere in the tree has it as its
    non-empty module; a relative [from . import] adds nothing. *)
Theorem imports_come_from_every_depth file_path rel text tree generate_summaries cache :
  ast_parse text = Some tree ->
  exists fm,
    _index_python_file file_path rel (Some text) generate_summaries cache = Some fm
    /\ (forall name,
          In name (file_imports fm)
          <-> (exists names, subnode (Import names) tree /\ In name names)
              \/ (exists names, subnode (ImportFrom (Some name) names) tree
                                /\ name <> EmptyString)).
Proof.
  intros Hparse.
  assert (Himports : forall name,
            In name (flat_map imports_of (walk tree))
            <-> (exists names, subnode (Import names) tree /\ In name names)
                \/ (exists names, subnode (ImportFrom (Some name) names) tree
                                  /\ name <> EmptyString)).
  { intros name. rewrite in_flat_map. split.
    - intros (n & Hn & Hname). apply walk_subnodes in Hn.
      destruct n; try destruct Hname.
      + left. eauto.
      + destruct module as [m|]; [|destruct Hname]. cbn in Hname.
        destruct (String.eqb_spec m EmptyString) as [->|Hm]; [destruct Hname|].
        cbn in Hname. destruct Hname as [<-|[]]. right. eauto.
    - intros [(names & Hn & Hname)|(names & Hn & Hname)];
        apply walk_subnodes in Hn; eexists; (split; [exact Hn|]).
      + exact Hname.
      + cbn. destruct (String.eqb_spec name EmptyString) as [->|_]; [congruence|].
        now left. }
  unfold _index_python_file. rewrite Hparse.
  destruct generate_summaries;
    [destruct (cache !! Some (_hash_file file_path (Some text)))|];
    eexists; (split; [reflexivity|exact Himports]).
Qed.

Lemma flat_map_element_records file_path body :
  List.Forall (top_level_record file_path) (flat_map (element_of file_path) body).
Proof.
  apply List.Forall_forall. intros e He. apply in_flat_map in He as (n & _ & He).
  unfold element_of in He.
  destruct (is_class_def n).
  - destruct He as [<-|[]]. left. unfold class_record. cbn.
    repeat split. apply List.Forall_forall. intros m Hm.
    apply in_map_iff in Hm as (item & <- & _).
    unfold function_record. cbn. repeat split; eauto.
  - destruct (is_function_def n); [|destruct He].
    destruct He as [<-|[]]. right. unfold function_record. cbn. repeat split; eauto.
Qed.

(** X3. Every record of a file is a Python record for the path it was
    read from, without exports, and its elements are nested two levels at
    most: a top-level element is a class, without signature and complexity,
    whose children are method records, or a function record; function and
    method records carry a signature and a complexity and have no
    children.  No element carries a summary. *)
Theorem file_record_has_classes_and_functions file_path rel content generate_summaries
    cache fm :
  _index_python_file file_path rel content generate_summaries cache = Some fm ->
  file_file_path fm = file_path
  /\ file_relative_path fm = relpath rel
  /\ file_language fm = PYTHON
  /\ file_exports fm = []
  /\ List.Forall (top_level_record file_path) (file_elements fm).
Proof.
  unfold _index_python_file. destruct content as [text|]; [|discriminate].
  destruct (ast_parse text) as [tree|].
  - destruct generate_summaries;
      [destruct (cache !! Some (_hash_file file_path (Some text)))|];
      intros [= <-]; cbn; repeat split; apply flat_map_element_records.
  - intros [= <-]. cbn. repeat split. constructor.
Qed.

End ExtractionFacts.

Lemma complexity_is_at_least_one_witness :
  exists c,
    elem_complexity
      (_extract_function_metadata Complexity.sample_function "/repo/a.py" false) = Some c
    /\ 1 <= c.
Proof. apply complexity_is_at_least_one. vm_compute. reflexivity. Defined.

Lemma imports_come_from_every_depth_witness :
  exists fm,
    _index_python_file (B:=Example.sample_backend) "/repo/a.py" ["a.py"]
      (Some Example.sample_text) false ∅ = Some fm
    /\ (forall name,
          In name (file_imports fm)
          <-> (exists names, Ast.subnode (Ast.Import names) Example.sample_module
                             /\ In name names)
              \/ (exists names,
                    Ast.subnode (Ast.ImportFrom (Some name) names) Example.sample_module
                    /\ name <> EmptyString)).
Proof.
  apply (imports_come_from_every_depth (B:=Example.sample_backend)).
  vm_compute. reflexivity.
Defined.

Lemma file_record_has_classes_and_functions_witness :
  file_file_path Example.sample_record = "/repo/a.py"
  /\ file_relative_path Example.sample_record = relpath ["a.py"]
  /\ file_language Example.sample_record = PYTHON
  /\ file_exports Example.sample_record = []
  /\ List.Forall (top_level_record "/repo/a.py") (file_elements Example.sample_record).
Proof.
  apply (file_record_has_classes_and_functions (B:=Example.sample_backend)
           "/repo/a.py" ["a.py"] (Some Example.sample_text) false ∅).
  vm_compute. reflexivity.
Defined.

(** ** The statistics pass *)

Section StatisticsFacts.
Context {B : Backend}.
Import Ast.

Lemma traverse_step depth d r :
  traverse (S depth) d r
  = visit_subdirectories (traverse depth) (dir_subdirectories d) (count_directory r d).
Proof. reflexivity. Qed.

Lemma load_directory_index_state path st : snd (load_directory_index path st) = st.
Proof.
  unfold load_directory_index. destruct (assoc path (disk st)) as [[d|r]|]; reflexivity.
Qed.

Lemma visit_subdirectories_state visit refs :
  (forall d r st, snd (visit d r st) = st) ->
  forall r st, snd (visit_subdirectories visit refs r st) = st.
Proof.
  intros Hvisit. induction refs as [|ref refs IH]; intros r st; [reflexivity|].
  cbn [visit_subdirectories]. unfold bind at 1.
  pose proof (load_directory_index_state (ref_index_file_path ref) st) as Hload.
  destruct (load_directory_index (ref_index_file_path ref) st) as [[d|e] st1];
    cbn in Hload; subst st1; [|reflexivity].
  unfold bind. pose proof (Hvisit d r st) as Hv.
  destruct (visit d r st) as [[r1|e] st1]; cbn in Hv; subst st1; [apply IH|reflexivity].
Qed.

Lemma traverse_state depth : forall d r st, snd (traverse depth d r st) = st.
Proof.
  induction depth as [|depth IH]; intros d r st; [reflexivity|].
  rewrite traverse_step. now apply visit_subdirectories_state.
Qed.

Lemma visit_subdirectories_invariant (P : RepositoryIndex -> Prop) visit refs :
  (forall d r st r' st', visit d r st = (Return r', st') -> P r -> P r') ->
  forall r st r' st',
    visit_subdirectories visit refs r st = (Return r', st') -> P r -> P r'.
Proof.
  intros Hvisit. induction refs as [|ref refs IH]; intros r st r' st' Hrun Hr.
  - injection Hrun as <- _. exact Hr.
  - cbn [visit_subdirectories] in Hrun.
    apply bind_inv_return in Hrun as (d & st1 & _ & Hrun).
    apply bind_inv_return in Hrun as (r1 & st2 & Hv & Hrun).
    eapply IH; [exact Hrun|]. eapply Hvisit; eauto.
Qed.

(** What holds of the repository record before the pass and is kept by
    the head of [traverse] holds of the record the pass returns. *)
Lemma traverse_invariant (P : RepositoryIndex -> Prop) :
  (forall r d, P r -> P (count_directory r d)) ->
  forall depth d r st r' st',
    traverse depth d r st = (Return r', st') -> P r -> P r'.
Proof.
  intros Hstep. induction depth as [|depth IH]; intros d r st r' st' Hrun Hr;
    [discriminate|].
  rewrite traverse_step in Hrun.
  eapply visit_subdirectories_invariant; [|exact Hrun|apply Hstep, Hr].
  intros d1 r1 st1 r2 st2. apply IH.
Qed.

Lemma same_repository_refl r : same_repository r r.
Proof. unfold same_repository. repeat split. Qed.

Lemma same_repository_trans r1 r2 r3 :
  same_repository r1 r2 -> same_repository r2 r3 -> same_repository r1 r3.
Proof. unfold same_repository. intuition congruence. Qed.

Lemma str_in_In x l : Py.str_in x l = true <-> In x l.
Proof.
  unfold Py.str_in. rewrite existsb_exists. split.
  - intros (y & Hy & Heq). apply String.eqb_eq in Heq. now subst.
  - intros Hx. exists x. split; [exact Hx|apply String.eqb_refl].
Qed.

Lemma len_app {X} (l1 l2 : list X) : Py.len (l1 ++ l2) = Py.len l1 + Py.len l2.
Proof. unfold Py.len. rewrite List.length_app. lia. Qed.

Lemma len_cons {X} (x : X) l : Py.len (x :: l) = 1 + Py.len l.
Proof. unfold Py.len. cbn [length]. lia. Qed.

Lemma nodup_snoc {X} (x : X) l : List.NoDup l -> ~ In x l -> List.NoDup (l ++ [x]).
Proof.
  induction 1 as [|y l Hy Hl IH]; intros Hx; cbn.
  - constructor; [intros []|constructor].
  - constructor.
    + rewrite in_app_iff. cbn. intros [H|[->|[]]]; [now apply Hy|apply Hx; now left].
    + apply IH. intros H. apply Hx. now right.
Qed.

(** The element loop in closed form. *)
Lemma fold_count_element elements : forall r,
  let r' := fold_left count_element elements r in
  repo_total_classes r' = repo_total_classes r + Py.len (classes_of elements)
  /\ repo_total_functions r' = repo_total_functions r + Py.len (functions_of elements)
  /\ repo_total_methods r' = repo_total_methods r + Py.len (methods_of elements)
  /\ repo_total_files r' = repo_total_files r
  /\ repo_total_lines r' = repo_total_lines r
  /\ repo_total_directories r' = repo_total_directories r
  /\ repo_external_dependencies r' = repo_external_dependencies r
  /\ same_repository r r'.
Proof.
  induction elements as [|e elements IH]; intros r.
  - cbn. unfold Py.len. cbn. repeat split; lia.
  - cbn [fold_left]. cbv zeta.
    destruct (IH (count_element r e)) as (Hc & Hf & Hm & H1 & H2 & H3 & H4 & H5).
    rewrite Hc, Hf, Hm, H1, H2, H3, H4.
    unfold methods_of, classes_of, functions_of in *.
    split; [|split; [|split; [|split; [|split; [|split; [|split]]]]]];
      try (eapply same_repository_trans; [|exact H5]; unfold same_repository;
           now repeat split);
      try reflexivity;
      cbn [List.filter count_element repo_total_classes repo_total_functions
             repo_total_methods];
      destruct (elem_element_type e); cbn [CodeElementType_eqb flat_map];
      rewrite ?len_cons, ?len_app; lia.
Qed.

(** The dependency loop: the counters stay, the list is extended by the
    names that pass the test and are not in it yet. *)
Lemma fold_collect_dependency imports : forall r,
  let r' := fold_left collect_dependency imports r in
  repo_total_classes r' = repo_total_classes r
  /\ repo_total_functions r' = repo_total_functions r
  /\ repo_total_methods r' = repo_total_methods r
  /\ repo_total_files r' = repo_total_files r
  /\ repo_total_lines r' = repo_total_lines r
  /\ repo_total_directories r' = repo_total_directories r
  /\ same_repository r r'
  /\ (List.NoDup (repo_external_dependencies r) ->
      List.NoDup (repo_external_dependencies r'))
  /\ (forall imp, In imp (repo_external_dependencies r') <->
        In imp (repo_external_dependencies r)
        \/ (In imp imports /\ is_external imp = true)).
Proof.
  induction imports as [|x imports IH]; intros r.
  - cbn. repeat split; tauto.
  - cbn [fold_left]. cbv zeta.
    destruct (IH (collect_dependency r x)) as (Hc & Hf & Hm & H1 & H2 & H3 & H5 & Hn & Hi).
    rewrite Hc, Hf, Hm, H1, H2, H3.
    assert (Hstep : repo_total_classes (collect_dependency r x) = repo_total_classes r
              /\ repo_total_functions (collect_dependency r x) = repo_total_functions r
              /\ repo_total_methods (collect_dependency r x) = repo_total_methods r
              /\ repo_total_files (collect_dependency r x) = repo_total_files r
              /\ repo_total_lines (collect_dependency r x) = repo_total_lines r
              /\ repo_total_directories (collect_dependency r x) = repo_total_directories r
              /\ same_repository r (collect_dependency r x)).
    { unfold collect_dependency.
      destruct (negb (Py.contains_char "." x) && negb (Py.str_in x ["os"; "sys"; "json"; "re"]));
        [destruct (negb (Py.str_in x (repo_external_dependencies r)))|];
        cbn; repeat split. }
    destruct Hstep as (S1 & S2 & S3 & S4 & S5 & S6 & S7).
    repeat (split; [assumption|]).
    split; [eapply same_repository_trans; eassumption|].
    assert (Hdeps : repo_external_dependencies (collect_dependency r x)
                    = if is_external x && negb (Py.str_in x (repo_external_dependencies r))
                      then repo_external_dependencies r ++ [x]
                      else repo_external_dependencies r).
    { unfold collect_dependency, is_external.
      destruct (negb (Py.contains_char "." x) && negb (Py.str_in x ["os"; "sys"; "json"; "re"]));
        [destruct (negb (Py.str_in x (repo_external_dependencies r)))|]; reflexivity. }
    split.
    + intros Hnd. apply Hn. rewrite Hdeps.
      destruct (is_external x); cbn [andb]; [|exact Hnd].
      destruct (Py.str_in x (repo_external_dependencies r)) eqn:Hin; cbn [negb];
        [exact Hnd|].
      apply nodup_snoc; [exact Hnd|].
      intros H. apply str_in_In in H. congruence.
    + intros imp. rewrite Hi, Hdeps.
      destruct (is_external x) eqn:Ex;
        destruct (Py.str_in x (repo_external_dependencies r)) eqn:Hin;
        cbn [andb negb]; rewrite ?in_app_iff; cbn [In];
        try apply str_in_In in Hin;
        split; intros; intuition (subst; try congruence; auto).
Qed.

Lemma classes_of_app l1 l2 : classes_of (l1 ++ l2) = classes_of l1 ++ classes_of l2.
Proof. apply List.filter_app. Qed.

Lemma functions_of_app l1 l2 : functions_of (l1 ++ l2) = functions_of l1 ++ functions_of l2.
Proof. apply List.filter_app. Qed.

Lemma methods_of_app l1 l2 : methods_of (l1 ++ l2) = methods_of l1 ++ methods_of l2.
Proof. unfold methods_of. now rewrite classes_of_app, flat_map_app. Qed.

(** What one file record adds. *)
Lemma count_file_counts r f :
  let r' := count_file r f in
  repo_total_classes r' = repo_total_classes r + Py.len (classes_of (file_elements f))
  /\ repo_total_functions r' = repo_total_functions r + Py.len (functions_of (file_elements f))
  /\ repo_total_methods r' = repo_total_methods r + Py.len (methods_of (file_elements f))
  /\ repo_total_files r' = repo_total_files r
  /\ repo_total_lines r' = repo_total_lines r
  /\ repo_total_directories r' = repo_total_directories r
  /\ same_repository r r'
  /\ (List.NoDup (repo_external_dependencies r) ->
      List.NoDup (repo_external_dependencies r'))
  /\ (forall imp, In imp (repo_external_dependencies r') <->
        In imp (repo_external_dependencies r)
        \/ (In imp (file_imports f) /\ is_external imp = true)).
Proof.
  unfold count_file. cbv zeta.
  destruct (fold_count_element (file_elements f) r)
    as (Ec & Ef & Em & E1 & E2 & E3 & E4 & E5).
  destruct (fold_collect_dependency (file_imports f)
              (fold_left count_element (file_elements f) r))
    as (Dc & Df & Dm & D1 & D2 & D3 & D5 & Dn & Di).
  rewrite Dc, Df, Dm, D1, D2, D3, Ec, Ef, Em, E1, E2, E3.
  repeat (split; [reflexivity|]).
  split; [eapply same_repository_trans; eassumption|].
  rewrite E4 in Dn, Di. split; assumption.
Qed.

Lemma fold_count_file files : forall r,
  let r' := fold_left count_file files r in
  let elements := flat_map file_elements files in
  repo_total_classes r' = repo_total_classes r + Py.len (classes_of elements)
  /\ repo_total_functions r' = repo_total_functions r + Py.len (functions_of elements)
  /\ repo_total_methods r' = repo_total_methods r + Py.len (methods_of elements)
  /\ repo_total_files r' = repo_total_files r
  /\ repo_total_lines r' = repo_total_lines r
  /\ repo_total_directories r' = repo_total_directories r
  /\ same_repository r r'
  /\ (List.NoDup (repo_external_dependencies r) ->
      List.NoDup (repo_external_dependencies r'))
  /\ (forall imp, In imp (repo_external_dependencies r') <->
        In imp (repo_external_dependencies r)
        \/ (In imp (flat_map file_imports files) /\ is_external imp = true)).
Proof.
  induction files as [|f files IH]; intros r.
  - cbn. unfold Py.len. cbn. repeat split; try lia; tauto.
  - cbn [fold_left flat_map]. cbv zeta.
    destruct (IH (count_file r f)) as (Hc & Hf & Hm & H1 & H2 & H3 & H5 & Hn & Hi).
    destruct (count_file_counts r f) as (Fc & Ff & Fm & F1 & F2 & F3 & F5 & Fn & Fi).
    cbv zeta in *.
    rewrite Hc, Hf, Hm, H1, H2, H3, Fc, Ff, Fm, F1, F2, F3.
    rewrite classes_of_app, functions_of_app, methods_of_app, !len_app.
    repeat (split; [lia|]).
    split; [eapply same_repository_trans; eassumption|].
    split; [tauto|].
    intros imp. rewrite Hi, Fi, in_app_iff. tauto.
Qed.

(** What the head of [traverse] adds for one directory record. *)
Lemma count_directory_counts r d :
  let r' := count_directory r d in
  let elements := flat_map file_elements (dir_files d) in
  repo_total_directories r' = repo_total_directories r + 1
  /\ repo_total_files r' = repo_total_files r + dir_direct_file_count d
  /\ repo_total_lines r' = repo_total_lines r + Py.sum (map file_total_lines (dir_files d))
  /\ repo_total_classes r' = repo_total_classes r + Py.len (classes_of elements)
  /\ repo_total_functions r' = repo_total_functions r + Py.len (functions_of elements)
  /\ repo_total_methods r' = repo_total_methods r + Py.len (methods_of elements)
  /\ same_repository r r'
  /\ (List.NoDup (repo_external_dependencies r) ->
      List.NoDup (repo_external_dependencies r'))
  /\ (forall imp, In imp (repo_external_dependencies r') <->
        In imp (repo_external_dependencies r)
        \/ (In imp (flat_map file_imports (dir_files d)) /\ is_external imp = true)).
Proof.
  unfold count_directory. cbv zeta.
  match goal with
  | |- context [fold_left count_file _ ?r0] =>
      destruct (fold_count_file (dir_files d) r0)
        as (Hc & Hf & Hm & H1 & H2 & H3 & H5 & Hn & Hi)
  end.
  cbv zeta in *. rewrite Hc, Hf, Hm, H1, H2, H3. cbn in *.
  repeat (split; [reflexivity|]).
  split; [exact H5|]. split; assumption.
Qed.

(** X4. The statistics pass only reads: whatever it returns or raises,
    the cache, the output disk and the requests sent are as before, and
    the record it returns differs from the one it was given in the counters
    and the dependency list at most. *)
Theorem statistics_pass_reads_only repo_index root_index st :
  snd (_calculate_statistics repo_index root_index st) = st
  /\ (forall r, fst (_calculate_statistics repo_index root_index st) = Return r ->
      same_repository repo_index r).
Proof.
  unfold _calculate_statistics. split; [apply traverse_state|].
  intros r Hr.
  destruct (traverse recursion_limit root_index repo_index st) as [o st'] eqn:Hrun.
  cbn in Hr. subst o.
  apply (traverse_invariant (same_repository repo_index)) in Hrun;
    [exact Hrun| |apply same_repository_refl].
  intros r0 d H0. eapply same_repository_trans; [exact H0|].
  apply (count_directory_counts r0 d).
Qed.

Lemma visit_subdirectories_missing visit refs :
  (forall d r st, snd (visit d r st) = st) ->
  forall r st subdir_ref,
    In subdir_ref refs ->
    assoc (ref_index_file_path subdir_ref) (disk st) = None ->
    exists e, visit_subdirectories visit refs r st = (Raise e, st).
Proof.
  intros Hvisit. induction refs as [|a refs IH]; intros r st ref Hin Hnone; [destruct Hin|].
  cbn [visit_subdirectories]. unfold bind at 1, load_directory_index at 1.
  destruct (assoc (ref_index_file_path a) (disk st)) as [[d|r1]|] eqn:Ha; eauto.
  destruct Hin as [->|Hin]; [congruence|].
  unfold bind. pose proof (Hvisit d r st) as Hv.
  destruct (visit d r st) as [[r1|e] st1]; cbn in Hv; subst st1; eauto.
Qed.

(** X5. A reference without a document behind it stops the statistics
    pass: when the record handed to the pass refers to an index file that
    is not on the output disk, the pass raises, and no repository record
    with counts left at zero comes back. *)
Theorem missing_artifact_stops_statistics repo_index root_index st subdir_ref :
  In subdir_ref (dir_subdirectories root_index) ->
  assoc (ref_index_file_path subdir_ref) (disk st) = None ->
  exists e, _calculate_statistics repo_index root_index st = (Raise e, st).
Proof.
  intros Hin Hnone. unfold _calculate_statistics.
  destruct recursion_limit as [|depth]; [eexists; reflexivity|].
  rewrite traverse_step.
  eapply visit_subdirectories_missing; eauto using traverse_state.
Qed.

(** X6. The dependency list the statistics pass builds: when the pass
    returns, the list has no duplicates and holds only names without a dot
    other than [os], [sys], [json] and [re], provided the list it started
    from was so; it keeps the names it started from, and it holds every
    such import of every file of the root record. *)
Theorem external_dependencies_are_distinct repo_index root_index st r st' :
  _calculate_statistics repo_index root_index st = (Return r, st') ->
  List.NoDup (repo_external_dependencies repo_index) ->
  (forall imp, In imp (repo_external_dependencies repo_index) -> is_external imp = true) ->
  List.NoDup (repo_external_dependencies r)
  /\ (forall imp, In imp (repo_external_dependencies r) -> is_external imp = true)
  /\ (forall imp, In imp (repo_external_dependencies repo_index) ->
                  In imp (repo_external_dependencies r))
  /\ (forall f imp, In f (dir_files root_index) -> In imp (file_imports f) ->
                    is_external imp = true -> In imp (repo_external_dependencies r)).
Proof.
  unfold _calculate_statistics. intros Hrun Hnd Hext.
  assert (Hgrow : forall imp depth d r0 st0 r1 st1,
            traverse depth d r0 st0 = (Return r1, st1) ->
            In imp (repo_external_dependencies r0) ->
            In imp (repo_external_dependencies r1)).
  { intros imp. apply (traverse_invariant (fun x => In imp (repo_external_dependencies x))).
    intros r0 d H0. apply (count_directory_counts r0 d). now left. }
  split; [|split; [|split]].
  - revert Hnd. eapply (traverse_invariant (fun x => List.NoDup (repo_external_dependencies x)));
      [|exact Hrun].
    intros r0 d. apply (count_directory_counts r0 d).
  - revert Hext.
    eapply (traverse_invariant
              (fun x => forall imp, In imp (repo_external_dependencies x) ->
                                    is_external imp = true)); [|exact Hrun].
    intros r0 d H0 imp Himp. apply (count_directory_counts r0 d) in Himp.
    destruct Himp as [Himp|[_ Himp]]; auto.
  - intros imp. eapply Hgrow. exact Hrun.
  - intros f imp Hf Himp Hx.
    destruct recursion_limit as [|depth]; [discriminate|].
    rewrite traverse_step in Hrun.
    eapply (visit_subdirectories_invariant
              (fun x => In imp (repo_external_dependencies x))); [|exact Hrun|].
    + intros d0 r0 st0 r1 st1. apply Hgrow.
    + apply (count_directory_counts repo_index root_index). right.
      split; [|exact Hx]. apply in_flat_map. eauto.
Qed.

Lemma counts_of_body file_path body :
  Py.len (classes_of (flat_map (element_of file_path) body))
  = Py.len (List.filter is_class_def body)
  /\ Py.len (functions_of (flat_map (element_of file_path) body))
     = Py.len (List.filter is_function_def body)
  /\ Py.len (methods_of (flat_map (element_of file_path) body))
     = Py.len (flat_map (fun c => List.filter is_function_def (node_body c))
                 (List.filter is_class_def body)).
Proof.
  induction body as [|n body (IH1 & IH2 & IH3)]; [repeat split|].
  cbn [flat_map List.filter].
  rewrite classes_of_app, functions_of_app, methods_of_app, !len_app, IH1, IH2, IH3.
  unfold element_of.
  destruct n; cbn [is_class_def is_function_def]; unfold Py.len; cbn;
    rewrite ?List.length_app, ?List.length_map; repeat split;
    cbn [length]; rewrite ?Nat.add_0_r, ?Nat2Z.inj_add; first [reflexivity|lia].
Qed.

(** X7. What the statistics pass counts for a file that parses: one
    class for every class statement at the top level of the module, one
    function for every function definition at the top level, and one method
    for every function definition that stands directly in the body of a
    top-level class.  Definitions nested deeper are not counted, and the
    other counters stay. *)
Theorem counts_of_a_parsed_file file_path rel text tree generate_summaries cache r :
  ast_parse text = Some tree ->
  exists fm,
    _index_python_file file_path rel (Some text) generate_summaries cache = Some fm
    /\ repo_total_classes (count_file r fm) = repo_total_classes r + Py.len (class_defs tree)
    /\ repo_total_functions (count_file r fm)
       = repo_total_functions r + Py.len (function_defs tree)
    /\ repo_total_methods (count_file r fm) = repo_total_methods r + Py.len (method_defs tree)
    /\ repo_total_files (count_file r fm) = repo_total_files r
    /\ repo_total_lines (count_file r fm) = repo_total_lines r
    /\ repo_total_directories (count_file r fm) = repo_total_directories r.
Proof.
  intros Hparse.
  assert (Hfm : exists fm,
            _index_python_file file_path rel (Some text) generate_summaries cache = Some fm
            /\ file_elements fm = flat_map (element_of file_path) (node_body tree)).
  { unfold _index_python_file. rewrite Hparse.
    destruct generate_summaries;
      [destruct (cache !! Some (_hash_file file_path (Some text)))|];
      eexists; split; reflexivity. }
  destruct Hfm as (fm & Hfm & Hel). exists fm. split; [exact Hfm|].
  destruct (count_file_counts r fm) as (Hc & Hf & Hm & H1 & H2 & H3 & _).
  cbv zeta in *. rewrite Hc, Hf, Hm, H1, H2, H3, Hel.
  destruct (counts_of_body file_path (node_body tree)) as (C1 & C2 & C3).
  unfold class_defs, function_defs, method_defs, class_defs.
  rewrite C1, C2, C3. repeat split.
Qed.

End StatisticsFacts.

Lemma missing_artifact_stops_statistics_witness :
  exists e,
    _calculate_statistics (B:=Example.backend) Example.blank_repository Example.locked_root
      Example.locked_final
    = (Raise e, Example.locked_final).
Proof.
  eapply (missing_artifact_stops_statistics (B:=Example.backend));
    [vm_compute; left; reflexivity|vm_compute; reflexivity].
Defined.

Lemma external_dependencies_are_distinct_witness :
  repo_external_dependencies Example.sample_statistics = ["requests"]
  /\ List.NoDup (repo_external_dependencies Example.sample_statistics)
  /\ (forall imp, In imp (repo_external_dependencies Example.sample_statistics) ->
                  is_external imp = true)
  /\ (forall imp, In imp (repo_external_dependencies Example.blank_repository) ->
                  In imp (repo_external_dependencies Example.sample_statistics))
  /\ (forall f imp, In f (dir_files Example.sample_root) -> In imp (file_imports f) ->
                    is_external imp = true ->
                    In imp (repo_external_dependencies Example.sample_statistics)).
Proof.
  split; [reflexivity|].
  apply (external_dependencies_are_distinct (B:=Example.sample_backend)
           Example.blank_repository Example.sample_root Example.sample_final
           Example.sample_statistics Example.sample_final).
  - vm_compute. reflexivity.
  - cbn. constructor.
  - cbn. intros imp [].
Defined.

Lemma counts_of_a_parsed_file_witness :
  Py.len (class_defs Example.sample_module) = 1
  /\ Py.len (function_defs Example.sample_module) = 1
  /\ Py.len (method_defs Example.sample_module) = 2
  /\ exists fm,
       _index_python_file (B:=Example.sample_backend) "/repo/a.py" ["a.py"]
         (Some Example.sample_text) false ∅ = Some fm
       /\ repo_total_classes (count_file Example.blank_repository fm)
          = repo_total_classes Example.blank_repository
            + Py.len (class_defs Example.sample_module)
       /\ repo_total_functions (count_file Example.blank_repository fm)
          = repo_total_functions Example.blank_repository
            + Py.len (function_defs Example.sample_module)
       /\ repo_total_methods (count_file Example.blank_repository fm)
          = repo_total_methods Example.blank_repository
            + Py.len (method_defs Example.sample_module)
       /\ repo_total_files (count_file Example.blank_repository fm)
          = repo_total_files Example.blank_repository
       /\ repo_total_lines (count_file Example.blank_repository fm)
          = repo_total_lines Example.blank_repository
       /\ repo_total_directories (count_file Example.blank_repository fm)
          = repo_total_directories Example.blank_repository.
Proof.
  repeat (split; [reflexivity|]).
  apply (counts_of_a_parsed_file (B:=Example.sample_backend)).
  vm_compute. reflexivity.
Defined.

(** ** More on the runs of [_index_directory] *)

Section EntryFacts.
Context {B : Backend}.

Lemma index_files_app dir_path rel generate_summaries cache l1 l2 : forall d0,
  index_files dir_path rel generate_summaries cache (l1 ++ l2) d0
  = index_files dir_path rel generate_summaries cache l2
      (index_files dir_path rel generate_summaries cache l1 d0).
Proof.
  induction l1 as [|[item child] l1 IH]; intros d0; [reflexivity|].
  cbn [app index_files].
  destruct (is_ignored item); [apply IH|].
  destruct (isfile child && Py.endswith item ".py"); [|apply IH].
  destruct (_index_python_file _ _ _ _ _); apply IH.
Qed.

Lemma index_subdirectories_app
    (index_child : fs_node -> string -> list string -> M DirectoryIndex)
    dir_path rel l1 l2 : forall d0 st,
  index_subdirectories index_child dir_path rel (l1 ++ l2) d0 st
  = (let* d := index_subdirectories index_child dir_path rel l1 d0 in
     index_subdirectories index_child dir_path rel l2 d) st.
Proof.
  induction l1 as [|[item child] l1 IH]; intros d0 st; [reflexivity|].
  cbn [app index_subdirectories].
  destruct (is_ignored item); [apply IH|].
  destruct (isdir child); [|apply IH].
  unfold bind.
  destruct (index_child child _ _ st) as [[sub|e] st1]; [|reflexivity].
  rewrite IH. reflexivity.
Qed.

(** An entry on which both loops do nothing can be left out of the
    listing. *)
Lemma index_directory_skips item child :
  (forall dir_path rel generate_summaries cache d0,
     index_files dir_path rel generate_summaries cache [(item, child)] d0 = d0) ->
  (forall index_child dir_path rel d0 st,
     index_subdirectories index_child dir_path rel [(item, child)] d0 st = (Return d0, st)) ->
  forall output_root generate_summaries parent before after dir_path rel st,
    _index_directory output_root generate_summaries parent
      (Directory (Some (before ++ (item, child) :: after))) dir_path rel st
    = _index_directory output_root generate_summaries parent
        (Directory (Some (before ++ after))) dir_path rel st.
Proof.
  intros Hfiles Hdirs output_root generate_summaries parent before after dir_path rel st.
  rewrite !index_directory_listed. destruct (writable _); [|reflexivity].
  change ((item, child) :: after) with ([(item, child)] ++ after).
  rewrite !index_files_app, Hfiles.
  assert (E : forall index_child d0,
            index_subdirectories index_child dir_path rel
              (before ++ [(item, child)] ++ after) d0 st
            = index_subdirectories index_child dir_path rel (before ++ after) d0 st).
  { intros index_child d0. rewrite !index_subdirectories_app. unfold bind.
    destruct (index_subdirectories index_child dir_path rel before d0 st)
      as [[d1|e] st1]; [|reflexivity].
    rewrite index_subdirectories_app. unfold bind. now rewrite Hdirs. }
  unfold bind. now rewrite E.
Qed.

(** X8. An entry whose name starts with a dot, or is one of
    [node_modules], [__pycache__], [venv], [.venv], [dist] and [build],
    leaves no trace: whatever the entry is, a Python file or a directory
    with sources below it, the run is the run on the listing without it.
    Such a directory is not even listed. *)
Theorem ignored_entries_are_skipped output_root generate_summaries parent before item child
    after dir_path rel st :
  is_ignored item = true ->
  _index_directory output_root generate_summaries parent
    (Directory (Some (before ++ (item, child) :: after))) dir_path rel st
  = _index_directory output_root generate_summaries parent
      (Directory (Some (before ++ after))) dir_path rel st.
Proof.
  intros Hignored. apply index_directory_skips.
  - intros. cbn [index_files]. now rewrite Hignored.
  - intros. cbn [index_subdirectories]. now rewrite Hignored.
Qed.

(** X9. A Python file that cannot be read is skipped: the run is the run
    on the listing without the file, so the file adds no record, no count
    and no request, and the run goes on with the entries after it. *)
Theorem unreadable_file_is_skipped output_root generate_summaries parent before item after
    dir_path rel st :
  _index_directory output_root generate_summaries parent
    (Directory (Some (before ++ (item, RegularFile None) :: after))) dir_path rel st
  = _index_directory output_root generate_summaries parent
      (Directory (Some (before ++ after))) dir_path rel st.
Proof.
  apply index_directory_skips.
  - intros. cbn [index_files].
    destruct (is_ignored item); [reflexivity|].
    destruct (isfile (RegularFile None) && Py.endswith item ".py"); reflexivity.
  - intros. cbn [index_subdirectories].
    destruct (is_ignored item); reflexivity.
Qed.

End EntryFacts.

Lemma ignored_entries_are_skipped_witness :
  _index_directory (B:=Example.backend) "/out" true None
    (Directory
       (Some ([("a.py", RegularFile (Some Example.one_function))]
              ++ ("node_modules",
                  Directory (Some [("dep.py", RegularFile (Some Example.one_function))]))
              :: [(".git", Directory None)])))
    "/repo" [] Example.fresh
  = _index_directory (B:=Example.backend) "/out" true None
      (Directory
         (Some ([("a.py", RegularFile (Some Example.one_function))]
                ++ [(".git", Directory None)])))
      "/repo" [] Example.fresh.
Proof. apply ignored_entries_are_skipped. reflexivity. Defined.

Section DirectoryFacts.
Context {B : Backend}.

Lemma index_python_file_path file_path rel content generate_summaries cache fm :
  _index_python_file file_path rel content generate_summaries cache = Some fm ->
  file_file_path fm = file_path.
Proof.
  unfold _index_python_file. destruct content as [text|]; [|discriminate].
  destruct (ast_parse text) as [tree|];
    [destruct generate_summaries;
       [destruct (cache !! Some (_hash_file file_path (Some text)))|]|];
    intros [= <-]; reflexivity.
Qed.

Lemma index_python_file_readable file_path rel text generate_summaries cache :
  exists fm, _index_python_file file_path rel (Some text) generate_summaries cache = Some fm.
Proof.
  unfold _index_python_file.
  destruct (ast_parse text) as [tree|];
    [destruct generate_summaries;
       [destruct (cache !! Some (_hash_file file_path (Some text)))|]|];
    eexists; reflexivity.
Qed.

Lemma index_python_file_without_summaries file_path rel content cache fm :
  _index_python_file file_path rel content false cache = Some fm ->
  file_summary fm = None /\ file_file_hash fm = None.
Proof.
  unfold _index_python_file. destruct content as [text|]; [|discriminate].
  destruct (ast_parse text) as [tree|]; intros [= <-]; split; reflexivity.
Qed.

Lemma index_files_forall (P : FileMetadata -> Prop) dir_path rel generate_summaries cache
    items :
  (forall file_path rel' content fm,
     _index_python_file file_path rel' content generate_summaries cache = Some fm -> P fm) ->
  forall d0,
    List.Forall P (dir_files d0) ->
    List.Forall P (dir_files (index_files dir_path rel generate_summaries cache items d0)).
Proof.
  intros HP. induction items as [|[item child] items IH]; intros d0 H0; [exact H0|].
  cbn [index_files].
  destruct (is_ignored item); [now apply IH|].
  destruct (isfile child && Py.endswith item ".py"); [|now apply IH].
  destruct (_index_python_file _ _ _ _ _) as [fm|] eqn:E; [|now apply IH].
  apply IH. cbn [add_file dir_files]. apply List.Forall_app. split; [exact H0|].
  constructor; [|constructor]. eapply HP. exact E.
Qed.

Lemma dump_directory_without_digests d :
  List.Forall (fun f => file_file_hash f = None) (dir_files d) -> dump_directory d = d.
Proof.
  intros H. destruct d as [a b c s p files subs n1 n2 n3]. unfold dump_directory. cbn in *.
  f_equal. induction H as [|f files Hf _ IH]; [reflexivity|].
  cbn [map]. rewrite IH. f_equal.
  destruct f; cbn in *. now subst.
Qed.

(** Without summaries the closing steps are the aggregation and the
    write. *)
Lemma finish_directory_without_summaries d0 st :
  finish_directory false d0 st
  = if writable (dir_index_file_path d0)
    then (Return (aggregate d0),
          mkState (summary_cache st)
            ((dir_index_file_path d0, DirectoryArtifact (dump_directory (aggregate d0)))
             :: disk st)
            (llm_calls st))
    else (Raise (OSError (dir_index_file_path d0)), st).
Proof.
  unfold finish_directory, bind, ret, write_json. cbn.
  destruct (writable (dir_index_file_path d0)); destruct d0; reflexivity.
Qed.

Lemma without_summary_aggregate d : without_summary d -> without_summary (aggregate d).
Proof. intros H. exact H. Qed.

Lemma index_files_without_summary dir_path rel cache items d0 :
  without_summary d0 ->
  without_summary (index_files dir_path rel false cache items d0).
Proof.
  intros [Hs Hf]. split.
  - destruct (index_files_frame dir_path rel false cache items d0) as (_&_&_&E&_).
    cbv zeta in E. congruence.
  - apply index_files_forall; [|exact Hf].
    intros file_path rel' content fm. apply index_python_file_without_summaries.
Qed.

Lemma index_subdirectories_without_summary
    (index_child : fs_node -> string -> list string -> M DirectoryIndex)
    dir_path rel items d0 st d st' :
  without_summary d0 ->
  index_subdirectories index_child dir_path rel items d0 st = (Return d, st') ->
  without_summary d.
Proof.
  intros [Hs Hf] Hrun. apply index_subdirectories_frame in Hrun.
  destruct Hrun as (_&_&_&E1&_&E2&_). split; congruence.
Qed.

Lemma without_summary_initial output_root parent dir_path rel :
  without_summary (initial_index output_root parent dir_path rel).
Proof. split; [reflexivity|constructor]. Qed.

Lemma without_summary_dump d : without_summary d -> dump_directory d = d.
Proof.
  intros [_ H]. apply dump_directory_without_digests.
  eapply List.Forall_impl; [|exact H]. now intros f [_ E].
Qed.

Lemma index_directory_without_summary output_root parent nd dir_path rel st d st' :
  _index_directory output_root false parent nd dir_path rel st = (Return d, st') ->
  without_summary d.
Proof.
  intros H. destruct nd as [content|[items|]|].
  - destruct (index_directory_not_a_directory output_root false parent
                (RegularFile content) dir_path rel st eq_refl) as [e E]. congruence.
  - rewrite index_directory_listed in H. destruct (writable _); [|discriminate].
    apply bind_inv_return in H. destruct H as (d1 & st1 & Hl & Hf).
    rewrite finish_directory_without_summaries in Hf.
    destruct (writable _); [|discriminate]. injection Hf as <- _.
    apply without_summary_aggregate.
    eapply index_subdirectories_without_summary; [|exact Hl].
    apply index_files_without_summary, without_summary_initial.
  - rewrite index_directory_unlisted in H. destruct (writable _); [|discriminate].
    injection H as <- _. apply without_summary_initial.
  - destruct (index_directory_not_a_directory output_root false parent
                Special dir_path rel st eq_refl) as [e E]. congruence.
Qed.

(** X10. Indexing without summaries sends no request to the completion
    backend and leaves the summary cache as it was, whether the run returns
    or raises; every record it writes and the record it returns carry no
    summary and no stored digest, so the record returned is the very
    document written. *)
Theorem indexing_without_summaries_sends_nothing output_root parent nd dir_path rel st :
  llm_calls (snd (_index_directory output_root false parent nd dir_path rel st))
  = llm_calls st
  /\ summary_cache (snd (_index_directory output_root false parent nd dir_path rel st))
     = summary_cache st
  /\ new_records_satisfy without_summary (disk st)
       (snd (_index_directory output_root false parent nd dir_path rel st))
  /\ (forall d,
        fst (_index_directory output_root false parent nd dir_path rel st) = Return d ->
        without_summary d /\ dump_directory d = d).
Proof.
  assert (Hinv : llm_calls (snd (_index_directory output_root false parent nd dir_path rel st))
                 = llm_calls st
                 /\ summary_cache
                      (snd (_index_directory output_root false parent nd dir_path rel st))
                    = summary_cache st
                 /\ new_records_satisfy without_summary (disk st)
                      (snd (_index_directory output_root false parent nd dir_path rel st))).
  { apply (index_directory_invariant
             (fun st' => llm_calls st' = llm_calls st
                         /\ summary_cache st' = summary_cache st
                         /\ new_records_satisfy without_summary (disk st) st')
             without_summary).
    - intros. apply without_summary_initial.
    - intros. now apply index_files_without_summary.
    - intros. eapply index_subdirectories_without_summary; eauto.
    - intros d0 st0 (Hl & Hc & new & Hn & Hnew) Hd0.
      rewrite finish_directory_without_summaries.
      destruct (writable _); cbn [snd llm_calls summary_cache];
        (split; [exact Hl|split; [exact Hc|]]).
      + exists ((dir_index_file_path d0, DirectoryArtifact (dump_directory (aggregate d0)))
                :: new).
        cbn [disk]. rewrite Hn. split; [reflexivity|]. constructor; [|exact Hnew].
        exists (dump_directory (aggregate d0)). split; [reflexivity|].
        rewrite (without_summary_dump (aggregate d0)); now apply without_summary_aggregate.
      + exists new. split; assumption.
    - split; [reflexivity|split; [reflexivity|apply new_records_refl]]. }
  destruct Hinv as (Hl & Hc & Hn). repeat (split; [assumption|]).
  intros d Hd.
  destruct (_index_directory output_root false parent nd dir_path rel st) as [o st'] eqn:E.
  cbn in Hd. subst o. apply index_directory_without_summary in E.
  split; [exact E|now apply without_summary_dump].
Qed.

(** X11. What a listed directory returns can be read back: right after
    the run, loading the index file the record names gives the record with
    the stored digests of its files left out ([file_hash] is declared
    with [exclude=True], so [model_dump] drops it), and gives the record itself when the run
    was made without summaries. *)
Theorem written_record_reads_back output_root generate_summaries parent items dir_path rel
    st d st' :
  _index_directory output_root generate_summaries parent (Directory (Some items))
    dir_path rel st = (Return d, st') ->
  load_directory_index (dir_index_file_path d) st' = (Return (dump_directory d), st')
  /\ List.Forall (fun f => file_file_hash f = None) (dir_files (dump_directory d))
  /\ map erase_summary (dir_files (dump_directory d)) = map erase_summary (dir_files d)
  /\ map file_summary (dir_files (dump_directory d)) = map file_summary (dir_files d)
  /\ (generate_summaries = false -> dump_directory d = d).
Proof.
  intros Hrun.
  destruct (index_directory_persists _ _ _ _ _ _ _ _ _ Hrun) as (earlier & Hdisk).
  destruct (index_directory_returns _ _ _ _ _ _ _ _ _ Hrun) as (Hpath & _).
  split; [|split; [|split; [|split]]].
  - unfold load_directory_index. rewrite Hdisk, Hpath. cbn [assoc].
    now rewrite String.eqb_refl.
  - cbn. apply List.Forall_forall. intros f Hf.
    apply in_map_iff in Hf as (g & <- & _). reflexivity.
  - cbn. rewrite map_map. apply map_ext. now intros [].
  - cbn. rewrite map_map. apply map_ext. now intros [].
  - intros ->. apply without_summary_dump.
    eapply index_directory_without_summary. exact Hrun.
Qed.

End DirectoryFacts.

Lemma written_record_reads_back_witness :
  load_directory_index (dir_index_file_path Example.sample_root) Example.sample_final
  = (Return (dump_directory Example.sample_root), Example.sample_final)
  /\ List.Forall (fun f => file_file_hash f = None)
       (dir_files (dump_directory Example.sample_root))
  /\ map erase_summary (dir_files (dump_directory Example.sample_root))
     = map erase_summary (dir_files Example.sample_root)
  /\ map file_summary (dir_files (dump_directory Example.sample_root))
     = map file_summary (dir_files Example.sample_root)
  /\ (false = false -> dump_directory Example.sample_root = Example.sample_root).
Proof.
  apply (written_record_reads_back (B:=Example.sample_backend) "/out" false None
           (listing_of Example.sample_tree) "/repo" [] Example.fresh).
  vm_compute. reflexivity.
Defined.

Section AddressingFacts.
Context {B : Backend}.

Lemma erased_paths (files files' : list FileMetadata) :
  map erase_summary files' = map erase_summary files ->
  map file_file_path files' = map file_file_path files.
Proof.
  intros H.
  assert (E : forall l, map file_file_path l = map file_file_path (map erase_summary l)).
  { intros l. rewrite map_map. apply map_ext. now intros []. }
  now rewrite (E files'), (E files), H.
Qed.

(** The first loop appends one record for every readable Python file, in
    listing order, under the joined path. *)
Lemma index_files_paths dir_path rel generate_summaries cache items : forall d0,
  map file_file_path (dir_files (index_files dir_path rel generate_summaries cache items d0))
  = map file_file_path (dir_files d0)
    ++ map (Py.path_join dir_path) (readable_sources items).
Proof.
  unfold readable_sources, is_python_source.
  induction items as [|[item child] items IH]; intros d0.
  - cbn. now rewrite app_nil_r.
  - cbn [index_files List.filter fst snd].
    destruct (is_ignored item); cbn [negb andb]; [apply IH|].
    destruct (isfile child && Py.endswith item ".py"); cbn [andb]; [|apply IH].
    destruct (file_content child) as [text|].
    + destruct (index_python_file_readable (Py.path_join dir_path item) (rel ++ [item])
                  text generate_summaries cache) as [fm Hfm].
      rewrite Hfm, IH. cbn [add_file dir_files map fst].
      rewrite map_app, <- app_assoc. cbn [map app].
      now rewrite (index_python_file_path _ _ _ _ _ _ Hfm).
    + cbn [_index_python_file]. apply IH.
Qed.

(** The second loop appends one reference for every directory it
    descends into, in listing order, to the index file under the mirrored
    path. *)
Lemma index_subdirectories_paths output_root generate_summaries parent dir_path rel items :
  forall d0 st d st',
    index_subdirectories (_index_directory output_root generate_summaries parent)
      dir_path rel items d0 st = (Return d, st') ->
    map ref_dir_name (dir_subdirectories d)
    = map ref_dir_name (dir_subdirectories d0) ++ child_directories items
    /\ map ref_index_file_path (dir_subdirectories d)
       = map ref_index_file_path (dir_subdirectories d0)
         ++ map (fun item => index_file_path_of output_root (rel ++ [item]))
              (child_directories items).
Proof.
  unfold child_directories.
  induction items as [|[item child] items IH]; intros d0 st d st' Hrun.
  - injection Hrun as <- _. cbn. now rewrite !app_nil_r.
  - cbn [index_subdirectories] in Hrun. cbn [List.filter fst snd].
    destruct (is_ignored item); cbn [negb andb]; [now apply IH in Hrun|].
    destruct (isdir child); [|now apply IH in Hrun].
    apply bind_inv_return in Hrun as (sub & st1 & Hsub & Hrun).
    apply IH in Hrun as [Hnames Hpaths].
    apply index_directory_returns in Hsub as (Hpath & _).
    cbn [add_subdirectory dir_subdirectories] in Hnames, Hpaths.
    rewrite Hnames, Hpaths, !map_app, <- !app_assoc. cbn [map app make_reference
      ref_dir_name ref_index_file_path fst]. now rewrite Hpath.
Qed.

(** X12. What the record of a listed directory says about its entries:
    [get_file_paths] gives, in listing order, the joined paths of exactly
    the entries that are not ignored, are regular files named [*.py] and
    could be read; the references name, in listing order, exactly the
    entries that are not ignored and are directories, and
    [get_subdirectory_index_paths] gives for each the index file at the
    mirrored path under the output root.  The record keeps the directory
    path and the parent's index path it was called with. *)
Theorem record_lists_sources_and_children output_root generate_summaries parent items
    dir_path rel st d st' :
  _index_directory output_root generate_summaries parent (Directory (Some items))
    dir_path rel st = (Return d, st') ->
  dir_dir_path d = dir_path
  /\ dir_parent_index_path d = parent
  /\ get_file_paths d = map (Py.path_join dir_path) (readable_sources items)
  /\ map ref_dir_name (dir_subdirectories d) = child_directories items
  /\ get_subdirectory_index_paths d
     = map (fun item => index_file_path_of output_root (rel ++ [item]))
         (child_directories items).
Proof.
  intros H. rewrite index_directory_listed in H. destruct (writable _); [|discriminate].
  apply bind_inv_return in H. destruct H as (d1 & st1 & Hl & Hf).
  pose proof (index_subdirectories_paths _ _ _ _ _ _ _ _ _ _ Hl) as [Hnames Hpaths].
  apply index_subdirectories_frame in Hl.
  destruct Hl as (Hdp&_&_&_&Hpp&Hfiles&_).
  destruct (index_files_frame dir_path rel generate_summaries (summary_cache st) items
              (initial_index output_root parent dir_path rel))
    as (Hdp0&_&_&_&Hpp0&Hs0&_).
  pose proof (index_files_paths dir_path rel generate_summaries (summary_cache st) items
                (initial_index output_root parent dir_path rel)) as Hfp.
  cbv zeta in *. rewrite Hs0 in Hnames, Hpaths.
  cbn [initial_index new_directory_index dir_files dir_subdirectories dir_dir_path
       dir_parent_index_path map app] in *.
  destruct (finish_directory_spec generate_summaries d1 st1) as (d' & st2 & Hfin & _ & E).
  rewrite E in Hf. destruct (writable _); [|discriminate].
  injection Hf as <- _.
  destruct Hfin as (Hdp'&_&_&Hpp'&Hs'&_&_&_&He').
  unfold get_file_paths, get_subdirectory_index_paths.
  rewrite (erased_paths _ _ He'), Hs', Hfiles.
  repeat split; congruence.
Qed.

End AddressingFacts.

Lemma record_lists_sources_and_children_witness :
  dir_dir_path Example.sample_root = "/repo"
  /\ dir_parent_index_path Example.sample_root = None
  /\ get_file_paths Example.sample_root
     = map (Py.path_join "/repo") (readable_sources (listing_of Example.sample_tree))
  /\ map ref_dir_name (dir_subdirectories Example.sample_root)
     = child_directories (listing_of Example.sample_tree)
  /\ get_subdirectory_index_paths Example.sample_root
     = map (fun item => index_file_path_of "/out" ([] ++ [item]))
         (child_directories (listing_of Example.sample_tree)).
Proof.
  apply (record_lists_sources_and_children (B:=Example.sample_backend) "/out" false None
           (listing_of Example.sample_tree) "/repo" [] Example.fresh Example.sample_root
           Example.sample_final).
  vm_compute. reflexivity.
Defined.

Section OutcomeFacts.
Context {B : Backend}.

(** What the closing steps do to the cache: they store the results of
    the batch, if any. *)
Lemma finish_directory_cache generate_summaries d0 st :
  exists results,
    summary_cache (snd (finish_directory generate_summaries d0 st))
    = fold_left store_result results (summary_cache st).
Proof.
  unfold finish_directory.
  set (d1 := aggregate d0).
  assert (Hb : exists files' st2 results,
    match generate_summaries, dir_files d1 with
    | true, _ :: _ => _batch_generate_file_summaries (dir_files d1)
    | _, _ => ret (dir_files d1)
    end st = (Return files', st2)
    /\ summary_cache st2 = fold_left store_result results (summary_cache st)).
  { destruct generate_summaries; [destruct (dir_files d1) eqn:E|].
    - exists [], st, []. split; reflexivity.
    - rewrite <- E. rewrite batch_eq. eexists _, _, _. split; reflexivity.
    - exists (dir_files d1), st, []. split; reflexivity. }
  destruct Hb as (files' & st2 & results & Eb & Hc).
  exists results. unfold bind at 1. rewrite Eb.
  set (d2 := set_dir_files d1 files').
  assert (Hs : exists d3 st3,
    match generate_summaries, dir_files d2, dir_subdirectories d2 with
    | true, [], [] => ret d2
    | true, _, _ =>
        let* summary := _generate_directory_summary d2 in
        ret (set_dir_summary d2 (Some summary))
    | false, _, _ => ret d2
    end st2 = (Return d3, st3)
    /\ summary_cache st3 = summary_cache st2).
  { assert (G : exists d3 st3,
      (let* summary := _generate_directory_summary d2 in
       ret (set_dir_summary d2 (Some summary))) st2 = (Return d3, st3)
      /\ summary_cache st3 = summary_cache st2).
    { destruct (generate_directory_summary_frame d2 st2) as (text & st3 & E & Hc3 & _).
      unfold bind. rewrite E. eexists _, _. split; [reflexivity|exact Hc3]. }
    destruct generate_summaries.
    - destruct (dir_files d2); [destruct (dir_subdirectories d2)|]; try exact G.
      eexists _, _. split; reflexivity.
    - eexists _, _. split; reflexivity. }
  destruct Hs as (d3 & st3 & Es & Hc3).
  unfold bind at 1. rewrite Es. unfold bind, write_json, ret.
  destruct (writable _); cbn [snd summary_cache]; congruence.
Qed.

Lemma fold_store_grows results : forall cache key,
  is_Some (cache !! key) -> is_Some (fold_left store_result results cache !! key).
Proof.
  induction results as [|result results IH]; intros cache key Hk; [exact Hk|].
  cbn [fold_left]. apply IH. unfold store_result.
  destruct (decide (fst (fst result) = key)) as [->|Hne].
  - rewrite lookup_insert_eq. now eexists.
  - now rewrite lookup_insert_ne.
Qed.

(** X14. The summary cache only grows during a run of
    [_index_directory], whether the run returns or raises: a key that has
    an entry when the run starts has one when it ends, and an entry under a
    digest is still the same text, so a summary that was cached before the
    run is never replaced by it. *)
Theorem cache_only_grows output_root generate_summaries parent nd dir_path rel st :
  (forall key,
     is_Some (summary_cache st !! key) ->
     is_Some (summary_cache
                (snd (_index_directory output_root generate_summaries parent nd dir_path
                        rel st)) !! key))
  /\ (forall h cached,
        summary_cache st !! Some h = Some cached ->
        summary_cache
          (snd (_index_directory output_root generate_summaries parent nd dir_path rel st))
          !! Some h = Some cached).
Proof.
  split.
  - intros key.
    apply (index_directory_invariant
             (fun st' => is_Some (summary_cache st' !! key)) (fun _ => True));
      try (intros; exact Logic.I).
    intros d0 st0 Hk _.
    destruct (finish_directory_cache generate_summaries d0 st0) as (results & ->).
    now apply fold_store_grows.
  - intros h cached. apply cached_entry_stays.
Qed.

(** Every document a run writes is stored under the path it names. *)
Lemma written_documents_at_own_path output_root generate_summaries parent nd dir_path rel
    base st :
  (exists new, disk st = new ++ base /\ List.Forall stored_at_own_path new) ->
  exists new,
    disk (snd (_index_directory output_root generate_summaries parent nd dir_path rel st))
    = new ++ base
    /\ List.Forall stored_at_own_path new.
Proof.
  apply (index_directory_invariant
           (fun st' => exists new, disk st' = new ++ base
                                   /\ List.Forall stored_at_own_path new)
           (fun _ => True));
    try (intros; exact Logic.I).
  intros d0 st0 (new & Hn & Hf) _.
  destruct (finish_directory_spec generate_summaries d0 st0) as (d & st1 & Hfin & Hd & ->).
  destruct (writable _); cbn [snd].
  - exists ((dir_index_file_path d0, DirectoryArtifact (dump_directory d)) :: new).
    cbn [disk]. rewrite Hd, Hn. split; [reflexivity|]. constructor; [|exact Hf].
    exists (dump_directory d). split; [reflexivity|].
    destruct Hfin as (_&_&Hp&_). exact Hp.
  - exists new. split; [congruence|exact Hf].
Qed.

(** X15. The documents of a run are written bottom-up, one for each
    directory that could be listed: when [_index_directory] returns, the
    output disk is the earlier disk with one new document for every listed
    directory in and below the one indexed, in post-order (every
    subdirectory before its parent, the indexed directory last), each at
    the mirrored path under the output root and each a directory record
    that names that very path as its [index_file_path]. *)
Theorem documents_are_written_bottom_up output_root generate_summaries parent nd dir_path
    rel st d st' :
  _index_directory output_root generate_summaries parent nd dir_path rel st
  = (Return d, st') ->
  exists new,
    disk st' = new ++ disk st
    /\ map fst new = rev (map (index_file_path_of output_root) (listed_directories nd rel))
    /\ List.Forall stored_at_own_path new.
Proof.
  intros Hrun.
  destruct (index_directory_writes_listed output_root generate_summaries nd
              parent dir_path rel st d st' Hrun) as (new & Hdisk & Hpaths).
  destruct (written_documents_at_own_path output_root generate_summaries parent nd
              dir_path rel (disk st) st) as (new' & Hdisk' & Hown).
  { exists []. split; [reflexivity|constructor]. }
  rewrite Hrun in Hdisk'. cbn [snd] in Hdisk'.
  rewrite Hdisk in Hdisk'. apply app_inv_tail in Hdisk'. subst new'.
  exists new. repeat split; assumption.
Qed.

End OutcomeFacts.

Lemma documents_are_written_bottom_up_witness :
  map (index_file_path_of "/out") (listed_directories Example.sample_tree [])
  = ["/out/pkg/index.json"; "/out/index.json"]
  /\ exists new,
       disk Example.sample_final = new ++ disk Example.fresh
       /\ map fst new
          = rev (map (index_file_path_of "/out")
                   (listed_directories Example.sample_tree []))
       /\ List.Forall stored_at_own_path new.
Proof.
  split; [vm_compute; reflexivity|].
  apply (documents_are_written_bottom_up (B:=Example.sample_backend) "/out" false None
           Example.sample_tree "/repo" [] Example.fresh Example.sample_root
           Example.sample_final).
  vm_compute. reflexivity.
Defined.

(** ** More on the summaries *)

Section SummaryFacts.
Context {B : Backend}.

Lemma lookup_combine_seq (files : list FileMetadata) : forall a i f,
  files !! i = Some f -> In ((a + i)%nat, f) (combine (seq a (length files)) files).
Proof.
  induction files as [|g files IH]; intros a i f H; [discriminate|].
  destruct i as [|i]; cbn in H |- *.
  - injection H as ->. left. f_equal. lia.
  - right. replace (a + S i)%nat with (S a + i)%nat by lia. now apply IH.
Qed.

Lemma lookup_job files i f :
  files !! i = Some f -> Py.truthy (file_summary f) = false ->
  In (i, f) (files_to_summarize files).
Proof.
  intros Hl Ht. unfold files_to_summarize. apply filter_In. split.
  - apply (lookup_combine_seq files 0 i f Hl).
  - now rewrite Ht.
Qed.

(** What the batch makes of a record it has a job for: the record gets
    the text of its own future, and the cache holds under its key the
    text of one of the jobs with that key. *)
Lemma batch_assigns_job files st i f :
  In (i, f) (files_to_summarize files) ->
  exists files' st' calls,
    _batch_generate_file_summaries files st = (Return files', st')
    /\ files' !! i = Some (set_file_summary f (Some (summary_text calls f)))
    /\ exists j g calls',
         In (j, g) (files_to_summarize files)
         /\ file_file_hash g = file_file_hash f
         /\ summary_cache st' !! file_file_hash f = Some (summary_text calls' g)
         /\ files' !! j = Some (set_file_summary g (Some (summary_text calls' g))).
Proof.
  intros Hjob. rewrite batch_eq. cbv zeta.
  destruct (batch_results_of_job _ (length (llm_calls st)) _ _ Hjob) as [calls Hres].
  apply (Permutation_in _ (Permutation_sym (as_completed_perm _))) in Hres.
  eexists _, _, calls. split; [reflexivity|]. split.
  - rewrite (fold_apply_own _ _ _ _ _ (completed_once _ files) Hres).
    now rewrite (jobs_lookup _ _ _ Hjob).
  - cbn [summary_cache].
    destruct (fold_store_own
                (as_completed (batch_results (length (llm_calls st))
                                 (files_to_summarize files)))
                (summary_cache st) (file_file_hash f)) as (s0 & j & Hin & E).
    { apply in_map_iff. eexists. split; [|exact Hres]. reflexivity. }
    pose proof (Permutation_in _ (as_completed_perm _) Hin) as Hin'.
    destruct (job_of_batch_result _ _ _ _ _ Hin') as (g & calls' & Hj & Hh & ->).
    exists j, g, calls'. split; [exact Hj|]. split; [now symmetry|]. split; [exact E|].
    rewrite (fold_apply_own _ _ _ _ _ (completed_once _ files) Hin).
    now rewrite (jobs_lookup _ _ _ Hj).
Qed.

(** X16. A file that does not parse keeps a record without elements and
    imports, with its line count; with summaries requested the record
    carries neither a summary nor a digest into the batch, and the batch
    gives it the text "Python file with N lines" without asking the
    backend.  The batch stores the text under the key [None] of the
    cache, where the records without digest share one entry: afterwards
    the entry holds the text given to one of the records of the batch
    without digest, and the text of this record when it is the only
    one. *)
Theorem unparsable_file_keeps_empty_record file_path rel text generate_summaries cache :
  ast_parse text = None ->
  exists fm,
    _index_python_file file_path rel (Some text) generate_summaries cache = Some fm
    /\ file_elements fm = []
    /\ file_imports fm = []
    /\ file_total_lines fm = Py.len (splitlines text)
    /\ file_summary fm = None
    /\ file_file_hash fm = None
    /\ uses_backend fm = false
    /\ forall files i st,
         files !! i = Some fm ->
         exists files' st',
           _batch_generate_file_summaries files st = (Return files', st')
           /\ files' !! i
              = Some (set_file_summary fm
                        (Some ("Python file with "
                               +:+ Py.str_of_int (Py.len (splitlines text)) +:+ " lines")))
           /\ (exists j g calls,
                 In (j, g) (files_to_summarize files)
                 /\ file_file_hash g = None
                 /\ summary_cache st' !! None = Some (summary_text calls g)
                 /\ files' !! j = Some (set_file_summary g (Some (summary_text calls g))))
           /\ ((forall j g, In (j, g) (files_to_summarize files) ->
                            file_file_hash g = None -> j = i) ->
               summary_cache st' !! None
               = Some ("Python file with "
                       +:+ Py.str_of_int (Py.len (splitlines text)) +:+ " lines")).
Proof.
  intros Hparse. unfold _index_python_file. rewrite Hparse.
  eexists. split; [reflexivity|]. cbn. repeat (split; [reflexivity|]).
  intros files i st Hl.
  match type of Hl with _ = Some ?fm =>
    assert (Hjob : In (i, fm) (files_to_summarize files))
      by (apply lookup_job; [exact Hl|reflexivity]);
    destruct (batch_assigns_job files st i fm Hjob)
      as (files' & st' & calls & Hb & Hi & j & g & calls' & Hj & Hh & Hc & Hg')
  end.
  cbn [file_file_hash] in Hh, Hc.
  exists files', st'. split; [exact Hb|]. split; [exact Hi|]. split.
  - exists j, g, calls'. split; [exact Hj|]. split; [exact Hh|]. split; assumption.
  - intros Honly. rewrite Hc. specialize (Honly j g Hj Hh). subst j.
    pose proof (jobs_lookup _ _ _ Hj) as Hg. rewrite Hl in Hg. injection Hg as <-.
    reflexivity.
Qed.

(** X17. The generator [_generate_file_summary], with its own handler,
    and the batch worker around [_generate_file_summary_sync] do the same:
    the same request or none, the same text, and never an exception; a
    record without elements costs no request, and a failed request gives
    the text "Contains N code elements". *)
Theorem file_summary_variants_agree position f st :
  generate_one_summary (position, f) st
  = (let* summary := _generate_file_summary f in
     ret (file_file_hash f, summary, position)) st
  /\ _generate_file_summary f st
     = (Return (summary_text (length (llm_calls st)) f),
        mkState (summary_cache st) (disk st)
          (if uses_backend f then file_prompt f :: llm_calls st else llm_calls st)).
Proof.
  unfold generate_one_summary, _generate_file_summary, _generate_file_summary_sync,
    summary_text, uses_backend, try_except, bind, ret, create_completion.
  destruct (file_elements f) as [|e elements].
  - destruct st. split; reflexivity.
  - destruct (chat_completion _ _ _); split; reflexivity.
Qed.

End SummaryFacts.

Lemma unparsable_file_keeps_empty_record_witness :
  ast_parse (Backend:=Example.backend) "(" = None
  /\ exists fm,
       _index_python_file (B:=Example.backend) "/repo/a.py" ["a.py"] (Some "(") true ∅
       = Some fm
       /\ file_file_hash fm = None
       /\ exists files' st',
            _batch_generate_file_summaries (B:=Example.backend) [fm] Example.fresh
            = (Return files', st')
            /\ files' !! O = Some (set_file_summary fm (Some "Python file with 1 lines"))
            /\ summary_cache st' !! None = Some "Python file with 1 lines".
Proof.
  split; [reflexivity|].
  destruct (unparsable_file_keeps_empty_record (B:=Example.backend) "/repo/a.py" ["a.py"]
              "(" true ∅ eq_refl)
    as (fm & E & _ & _ & _ & _ & Hh & _ & Hbatch).
  exists fm. split; [exact E|]. split; [exact Hh|].
  destruct (Hbatch [fm] O Example.fresh eq_refl) as (files' & st' & Hb & Hi & _ & Hc).
  exists files', st'. split; [exact Hb|]. split; [exact Hi|].
  apply Hc. intros j g Hj _.
  unfold files_to_summarize in Hj. apply filter_In in Hj. destruct Hj as [Hj _].
  cbn in Hj. destruct Hj as [Hj|[]]. now injection Hj as <- _.
Defined.

(** ** The completion order *)

Lemma batch_results_backend (B1 B2 : Backend) jobs :
  (forall n prompt max_tokens,
     chat_completion (Backend:=B1) n prompt max_tokens
     = chat_completion (Backend:=B2) n prompt max_tokens) ->
  forall calls, batch_results (B:=B1) calls jobs = batch_results (B:=B2) calls jobs.
Proof.
  intros Hsame. induction jobs as [|[position f] jobs IH]; intros calls; [reflexivity|].
  cbn [batch_results]. rewrite IH. f_equal. unfold summary_text.
  destruct (file_elements f); [reflexivity|]. now rewrite Hsame.
Qed.

Lemma fold_apply_permutation results1 results2 files :
  Permutation results1 results2 ->
  List.NoDup (map snd results1) ->
  fold_left apply_result results1 files = fold_left apply_result results2 files.
Proof.
  intros Hperm Hnd.
  assert (Hnd2 : List.NoDup (map snd results2)).
  { eapply Permutation_NoDup; [apply Permutation_map; exact Hperm|exact Hnd]. }
  apply list_eq. intros i.
  destruct (in_dec Nat.eq_dec i (map snd results1)) as [Hin|Hout].
  - apply in_map_iff in Hin as ([[h text] j] & Hj & Hin). cbn in Hj. subst j.
    rewrite (fold_apply_own _ _ _ _ _ Hnd Hin).
    apply (Permutation_in _ Hperm) in Hin.
    now rewrite (fold_apply_own _ _ _ _ _ Hnd2 Hin).
  - rewrite (fold_apply_other _ _ _ Hout). symmetry. apply fold_apply_other.
    intros Hin. apply Hout.
    eapply Permutation_in; [apply Permutation_map, Permutation_sym; exact Hperm|exact Hin].
Qed.

(** X18. The records a batch leaves do not depend on the order in which
    the thread pool completes its futures: two worlds that differ in that
    order only (and answer every request alike) give the same records, send
    the same requests and leave the same disk; each record is assigned the
    text of its own future. *)
Theorem batch_records_ignore_completion_order (B1 B2 : Backend) files st :
  (forall n prompt max_tokens,
     chat_completion (Backend:=B1) n prompt max_tokens
     = chat_completion (Backend:=B2) n prompt max_tokens) ->
  fst (_batch_generate_file_summaries (B:=B1) files st)
  = fst (_batch_generate_file_summaries (B:=B2) files st)
  /\ llm_calls (snd (_batch_generate_file_summaries (B:=B1) files st))
     = llm_calls (snd (_batch_generate_file_summaries (B:=B2) files st))
  /\ disk (snd (_batch_generate_file_summaries (B:=B1) files st))
     = disk (snd (_batch_generate_file_summaries (B:=B2) files st)).
Proof.
  intros Hsame. rewrite (batch_eq (B:=B1)), (batch_eq (B:=B2)). cbv zeta. cbn [fst snd].
  rewrite (batch_results_backend B1 B2 _ Hsame).
  split; [|split; reflexivity]. f_equal.
  apply fold_apply_permutation.
  - eapply Permutation_trans; [apply (as_completed_perm (B:=B1))|].
    apply Permutation_sym, (as_completed_perm (B:=B2)).
  - rewrite <- (batch_results_backend B1 B2 _ Hsame). apply (completed_once (B:=B1)).
Qed.

Lemma batch_records_ignore_completion_order_witness :
  fst (_batch_generate_file_summaries (B:=Example.backend) Example.twin_files Example.fresh)
  = fst (_batch_generate_file_summaries (B:=Example.last_first_backend) Example.twin_files
           Example.fresh)
  /\ llm_calls (snd (_batch_generate_file_summaries (B:=Example.backend) Example.twin_files
                       Example.fresh))
     = llm_calls (snd (_batch_generate_file_summaries (B:=Example.last_first_backend)
                         Example.twin_files Example.fresh))
  /\ disk (snd (_batch_generate_file_summaries (B:=Example.backend) Example.twin_files
                  Example.fresh))
     = disk (snd (_batch_generate_file_summaries (B:=Example.last_first_backend)
                    Example.twin_files Example.fresh)).
Proof.
  apply (batch_records_ignore_completion_order Example.backend Example.last_first_backend).
  intros n prompt max_tokens. reflexivity.
Defined.

(** ** The statistics pass after a run *)

Section ListedFacts.
Context {B : Backend}.

Lemma nodup_app_intro {X} (l1 l2 : list X) :
  List.NoDup l1 -> List.NoDup l2 -> (forall x, In x l1 -> ~ In x l2) ->
  List.NoDup (l1 ++ l2).
Proof.
  induction 1 as [|y l1 Hy Hl IH]; intros H2 Hd; [exact H2|].
  cbn. constructor.
  - rewrite in_app_iff. intros [H|H]; [now apply Hy|]. apply (Hd y); [now left|exact H].
  - apply IH; [exact H2|]. intros x Hx. apply Hd. now right.
Qed.

Lemma nodup_app_inv {X} (l1 l2 : list X) :
  List.NoDup (l1 ++ l2) ->
  List.NoDup l1 /\ List.NoDup l2 /\ (forall x, In x l1 -> ~ In x l2).
Proof.
  induction l1 as [|y l1 IH]; cbn; intros H.
  - split; [constructor|]. split; [exact H|]. intros x [].
  - inversion H as [|? ? Hy Hrest]; subst.
    destruct (IH Hrest) as (H1 & H2 & Hd). split; [|split; [exact H2|]].
    + constructor; [|exact H1]. intros Hin. apply Hy. apply in_or_app. now left.
    + intros x [<-|Hx] Hin; [|now apply (Hd x)].
      apply Hy. apply in_or_app. now right.
Qed.

Lemma nodup_map_injective {X Y} (f : X -> Y) (l : list X) :
  (forall x y, In x l -> In y l -> f x = f y -> x = y) ->
  List.NoDup l -> List.NoDup (map f l).
Proof.
  intros Hinj. induction 1 as [|x l Hx Hl IH]; cbn; constructor.
  - intros Hin. apply in_map_iff in Hin as (y & Hy & Hin).
    apply Hx. rewrite (Hinj x y); auto; [now left|now right].
  - apply IH. intros a b Ha Hb. apply Hinj; now right.
Qed.

Lemma distinct_nodup names : distinct names = true -> List.NoDup names.
Proof.
  induction names as [|name names IH]; cbn; intros H; constructor.
  - apply andb_prop in H as [H _]. intros Hin. apply str_in_In in Hin.
    now rewrite Hin in H.
  - apply IH. now apply andb_prop in H as [_ H].
Qed.

Lemma entry_nameb_spec name : entry_nameb name = true -> entry_name name.
Proof.
  unfold entry_nameb, entry_name. intros H.
  apply andb_prop in H as [H H3]. apply andb_prop in H as [H1 H2].
  repeat split.
  - intros ->. discriminate.
  - now destruct (Py.contains_char "/" name).
  - now destruct (is_ignored name).
Qed.

Lemma listed_directories_listed rel items :
  listed_directories (Directory (Some items)) rel = listed_below rel items ++ [rel].
Proof. reflexivity. Qed.

Lemma listed_below_cons rel item child items :
  listed_below rel ((item, child) :: items)
  = (if is_ignored item then []
     else match child with
          | Directory _ => listed_directories child (rel ++ [item])
          | _ => []
          end)
    ++ listed_below rel items.
Proof. reflexivity. Qed.

(** Every listed directory lies at or below the directory indexed. *)
Lemma listed_prefix nd : forall rel r,
  In r (listed_directories nd rel) -> exists suffix, r = rel ++ suffix.
Proof.
  induction nd as [content| | |items IH] using fs_node_induction; intros rel r Hr;
    try destruct Hr.
  rewrite listed_directories_listed in Hr. apply in_app_or in Hr as [Hr|[<-|[]]];
    [|exists []; now rewrite app_nil_r].
  unfold listed_below in Hr. apply in_flat_map in Hr as ([item child] & Hin & Hr).
  cbn [fst snd] in Hr. destruct (is_ignored item); [destruct Hr|].
  rewrite List.Forall_forall in IH. specialize (IH _ Hin). cbn [snd] in IH.
  destruct child as [c|l|]; try destruct Hr.
  apply IH in Hr as [suffix ->]. exists ([item] ++ suffix). now rewrite app_assoc.
Qed.

Lemma listed_below_prefix rel items r :
  In r (listed_below rel items) ->
  exists item suffix, In item (child_directories items) /\ r = rel ++ item :: suffix.
Proof.
  unfold listed_below, child_directories. intros Hr.
  apply in_flat_map in Hr as ([item child] & Hin & Hr). cbn [fst snd] in Hr.
  destruct (is_ignored item) eqn:Ei; [destruct Hr|].
  destruct child as [c|l|]; try destruct Hr.
  apply listed_prefix in Hr as [suffix ->].
  exists item, suffix. split; [|now rewrite <- app_assoc].
  apply in_map_iff. exists (item, Directory l). split; [reflexivity|].
  apply filter_In. split; [exact Hin|]. cbn. now rewrite Ei.
Qed.

Lemma well_named_entries items :
  well_named (Directory (Some items)) = true ->
  List.NoDup (child_directories items)
  /\ List.Forall entry_name (child_directories items)
  /\ List.Forall
       (fun entry =>
          is_ignored (fst entry) = false -> isdir (snd entry) = true ->
          well_named (snd entry) = true)
       items.
Proof.
  cbn [well_named]. intros H.
  apply andb_prop in H as [H H3]. apply andb_prop in H as [H1 H2].
  split; [now apply distinct_nodup|]. split.
  - apply List.Forall_forall. intros name Hn. apply entry_nameb_spec.
    rewrite forallb_forall in H2. now apply H2.
  - apply List.Forall_forall. intros [item child] Hin Hi Hd.
    rewrite forallb_forall in H3. specialize (H3 _ Hin). cbn [fst snd] in *.
    rewrite Hi in H3. now destruct child.
Qed.

(** The listed directories are reached through entry names, *)
Lemma listed_names nd : forall rel r,
  well_named nd = true -> List.Forall entry_name rel ->
  In r (listed_directories nd rel) -> List.Forall entry_name r.
Proof.
  induction nd as [content| | |items IH] using fs_node_induction; intros rel r Hw Hrel Hr;
    try destruct Hr.
  destruct (well_named_entries items Hw) as (_ & Hnames & Hsub).
  rewrite listed_directories_listed in Hr. apply in_app_or in Hr as [Hr|[<-|[]]];
    [|exact Hrel].
  unfold listed_below in Hr. apply in_flat_map in Hr as ([item child] & Hin & Hr).
  cbn [fst snd] in Hr. destruct (is_ignored item) eqn:Ei; [destruct Hr|].
  rewrite List.Forall_forall in IH, Hsub, Hnames.
  specialize (IH _ Hin). specialize (Hsub _ Hin Ei). cbn [snd fst] in IH, Hsub.
  destruct child as [c|l|]; try destruct Hr.
  apply (IH (rel ++ [item])); [now apply Hsub| |exact Hr].
  apply List.Forall_app. split; [exact Hrel|]. constructor; [|constructor].
  apply Hnames. unfold child_directories. apply in_map_iff.
  exists (item, Directory l). split; [reflexivity|].
  apply filter_In. split; [exact Hin|]. cbn. now rewrite Ei.
Qed.

(** and no directory is listed twice. *)
Lemma listed_nodup nd : forall rel,
  well_named nd = true -> List.NoDup (listed_directories nd rel).
Proof.
  induction nd as [content| | |items IH] using fs_node_induction; intros rel Hw;
    try constructor.
  destruct (well_named_entries items Hw) as (Hnd & _ & Hsub).
  rewrite listed_directories_listed. apply nodup_snoc.
  - (* the directories below *)
    assert (Hbelow : forall items0,
              List.Forall
                (fun entry => forall rel0,
                   well_named (snd entry) = true ->
                   List.NoDup (listed_directories (snd entry) rel0)) items0 ->
              List.Forall
                (fun entry =>
                   is_ignored (fst entry) = false -> isdir (snd entry) = true ->
                   well_named (snd entry) = true) items0 ->
              List.NoDup (child_directories items0) ->
              List.NoDup (listed_below rel items0)).
    { induction items0 as [|[item child] items0 IH0]; intros H1 H2 H3; [constructor|].
      inversion H1 as [|? ? Hc1 Hr1]; inversion H2 as [|? ? Hc2 Hr2]; subst.
      rewrite listed_below_cons.
      unfold child_directories in H3. cbn [List.filter fst snd] in H3, Hc1, Hc2.
      destruct (is_ignored item) eqn:Ei; cbn [negb andb] in H3; [now apply IH0|].
      destruct child as [c|l|]; cbn [isdir] in H3; try now apply IH0.
      cbn [map fst] in H3. inversion H3 as [|? ? Hitem Hrest]; subst.
      apply nodup_app_intro; [apply Hc1; now apply Hc2|now apply IH0|].
      intros r Hr Hr'. apply listed_prefix in Hr as [suffix ->].
      apply listed_below_prefix in Hr' as (item' & suffix' & Hin & E).
      rewrite <- app_assoc in E. apply app_inv_head in E. injection E as -> _.
      now apply Hitem. }
    apply Hbelow; assumption.
  - intros Hr. apply listed_below_prefix in Hr as (item & suffix & _ & E).
    apply (f_equal (@length _)) in E. rewrite List.length_app in E. cbn in E. lia.
Qed.

(** The index files of the listed directories are distinct. *)
Lemma listed_paths_distinct output_root nd rel :
  well_named nd = true -> List.Forall entry_name rel ->
  List.NoDup (map (index_file_path_of output_root) (listed_directories nd rel)).
Proof.
  intros Hw Hrel. apply nodup_map_injective; [|now apply listed_nodup].
  intros r1 r2 H1 H2. apply PathFacts.index_file_path_mirror;
    eapply listed_names; eauto.
Qed.

End ListedFacts.

(** ** Directories created and files written under the output root *)

Section ClashFacts.
Context {B : Backend}.








End ClashFacts.

Section ConsistencyFacts.
Context {B : Backend}.

Lemma assoc_app_skip {X} key (l1 l2 : list (string * X)) :
  ~ In key (map fst l1) -> assoc key (l1 ++ l2) = assoc key l2.
Proof.
  induction l1 as [|[k v] l1 IH]; intros H; [reflexivity|].
  cbn [app assoc]. destruct (String.eqb_spec k key) as [->|_].
  - exfalso. apply H. now left.
  - apply IH. intros Hin. apply H. now right.
Qed.

Lemma dumped_lines files :
  map file_total_lines (map dump_file files) = map file_total_lines files.
Proof. rewrite map_map. apply map_ext. now intros []. Qed.

Lemma dumped_elements files :
  flat_map file_elements (map dump_file files) = flat_map file_elements files.
Proof. induction files as [|f files IH]; [reflexivity|]. cbn. now rewrite IH. Qed.

Lemma fold_count_file_dumped files : forall r,
  fold_left count_file (map dump_file files) r = fold_left count_file files r.
Proof. induction files as [|f files IH]; intros r; [reflexivity|]. cbn. apply IH. Qed.

Lemma count_directory_dumped r d : count_directory r (dump_directory d) = count_directory r d.
Proof.
  unfold count_directory. cbn [dump_directory dir_files dir_direct_file_count].
  now rewrite dumped_lines, fold_count_file_dumped.
Qed.

(** The pass does not tell a record from the document written for it. *)
Lemma traverse_dumped depth d r st :
  traverse depth (dump_directory d) r st = traverse depth d r st.
Proof.
  destruct depth as [|depth]; [reflexivity|].
  rewrite !traverse_step, count_directory_dumped. reflexivity.
Qed.

Lemma counts_documents_refl r : counts_documents r r [].
Proof. unfold counts_documents, Py.len. cbn. repeat split; lia. Qed.

Lemma counts_documents_app r0 r1 r2 documents1 documents2 :
  counts_documents r0 r1 documents1 -> counts_documents r1 r2 documents2 ->
  counts_documents r0 r2 (documents1 ++ documents2)
  /\ counts_documents r0 r2 (documents2 ++ documents1).
Proof.
  unfold counts_documents. cbv zeta.
  intros (A1 & A2 & A3 & A4 & A5 & A6) (C1 & C2 & C3 & C4 & C5 & C6).
  rewrite !written_file_records_app, !flat_map_app, !map_app, !classes_of_app,
    !functions_of_app, !methods_of_app, !len_app, !ComplexityFacts.sum_app.
  repeat split; lia.
Qed.

(** What the head of [traverse] counts is what the document of the
    record holds. *)
Lemma count_directory_document r d path :
  dir_direct_file_count d = Py.len (dir_files d) ->
  counts_documents r (count_directory r d) [(path, DirectoryArtifact (dump_directory d))].
Proof.
  intros Hcount.
  destruct (count_directory_counts r d) as (H1 & H2 & H3 & H4 & H5 & H6 & _).
  cbv zeta in *. unfold counts_documents, written_file_records. cbv zeta.
  cbn [flat_map snd dump_directory dir_files]. rewrite !app_nil_r.
  rewrite dumped_lines, dumped_elements, H1, H2, H3, H4, H5, H6, Hcount.
  unfold Py.len at 1 3. cbn [length]. unfold Py.len. rewrite List.length_map.
  repeat split; lia.
Qed.

Lemma height_cons item child items depth :
  (height (Directory (Some ((item, child) :: items))) <= S depth)%nat ->
  (is_ignored item = false -> isdir child = true -> (height child <= depth)%nat)
  /\ (height (Directory (Some items)) <= S depth)%nat.
Proof.
  cbn [height map list_max fold_right fst snd].
  change (fold_right Nat.max 0%nat) with list_max.
  intros H. split.
  - intros Hi Hd. rewrite Hi in H. destruct child; try discriminate. lia.
  - lia.
Qed.

(** The second loop, followed by the loop of [traverse] over the
    references it made. *)
Lemma index_subdirectories_statistics output_root generate_summaries parent dir_path rel
    items :
  List.Forall (fun entry => statistics_follow output_root generate_summaries (snd entry))
    items ->
  forall d0 st d1 st1,
    fully_listed (Directory (Some items)) = true ->
    List.NoDup (map (index_file_path_of output_root) (listed_below rel items)) ->
    index_subdirectories (_index_directory output_root generate_summaries parent)
      dir_path rel items d0 st = (Return d1, st1) ->
    exists new added,
      disk st1 = new ++ disk st
      /\ map fst new = rev (map (index_file_path_of output_root) (listed_below rel items))
      /\ dir_subdirectories d1 = dir_subdirectories d0 ++ added
      /\ forall depth r0 st2 later,
           (height (Directory (Some items)) <= S depth)%nat ->
           disk st2 = later ++ disk st1 ->
           (forall p, In p (map fst later) ->
                      ~ In p (map (index_file_path_of output_root)
                                (listed_below rel items))) ->
           exists r,
             visit_subdirectories (traverse depth) added r0 st2 = (Return r, st2)
             /\ counts_documents r0 r new
             /\ repo_total_files r
                = repo_total_files r0 + Py.sum (map ref_file_count added).
Proof.
  induction 1 as [|[item child] items Hc _ IH]; intros d0 st d1 st1 Hfull Hnd Hrun.
  - injection Hrun as <- <-. exists [], []. cbn [app map rev listed_below flat_map].
    rewrite app_nil_r. repeat split.
    intros depth r0 st2 later _ _ _. exists r0. cbn.
    split; [reflexivity|]. split; [apply counts_documents_refl|lia].
  - cbn [index_subdirectories] in Hrun. rewrite listed_below_cons in Hnd |- *.
    cbn [fully_listed forallb fst snd] in Hfull.
    apply andb_prop in Hfull as [Hfull_c Hfull_r].
    change (forallb _ items = true) with (fully_listed (Directory (Some items)) = true)
      in Hfull_r.
    assert (Skip : index_subdirectories
                     (_index_directory output_root generate_summaries parent)
                     dir_path rel items d0 st = (Return d1, st1) ->
                   List.NoDup (map (index_file_path_of output_root)
                                 (listed_below rel items)) ->
                   (is_ignored item = true \/ isdir child = false) ->
                   exists new added,
                     disk st1 = new ++ disk st
                     /\ map fst new
                        = rev (map (index_file_path_of output_root)
                                 (listed_below rel items))
                     /\ dir_subdirectories d1 = dir_subdirectories d0 ++ added
                     /\ forall depth r0 st2 later,
                          (height (Directory (Some ((item, child) :: items))) <= S depth)%nat ->
                          disk st2 = later ++ disk st1 ->
                          (forall p, In p (map fst later) ->
                                     ~ In p (map (index_file_path_of output_root)
                                               (listed_below rel items))) ->
                          exists r,
                            visit_subdirectories (traverse depth) added r0 st2
                            = (Return r, st2)
                            /\ counts_documents r0 r new
                            /\ repo_total_files r
                               = repo_total_files r0 + Py.sum (map ref_file_count added)).
    { intros Hrun' Hnd' _.
      destruct (IH _ _ _ _ Hfull_r Hnd' Hrun') as (new & added & H1 & H2 & H3 & T).
      exists new, added. repeat (split; [assumption|]).
      intros depth r0 st2 later Hh. apply height_cons in Hh as [_ Hh]. now apply T. }
    destruct (is_ignored item) eqn:Ei; [apply Skip; auto|].
    destruct child as [content|listing|];
      try (cbn [isdir] in Hrun; apply Skip; auto).
    cbn [isdir] in Hrun.
    destruct listing as [items_c|]; [|discriminate].
    apply bind_inv_return in Hrun as (sub & st_a & Hsub & Hrest).
    rewrite map_app in Hnd. apply nodup_app_inv in Hnd as (Hnd_c & Hnd_r & Hdisj).
    destruct (Hc parent (Py.path_join dir_path item) (rel ++ [item]) st sub st_a
                Hfull_c Hnd_c Hsub) as (new_c & Hdisk_c & T_c).
    destruct (index_directory_writes_listed output_root generate_summaries _ _ _ _ _ _ _ Hsub)
      as (new_c' & Hdisk_c' & Hpaths_c).
    rewrite Hdisk_c in Hdisk_c'. apply app_inv_tail in Hdisk_c'. subst new_c'.
    destruct (index_directory_persists _ _ _ _ _ _ _ _ _ Hsub) as (earlier & Hhead).
    destruct (index_directory_returns _ _ _ _ _ _ _ _ _ Hsub) as (Hpath_c & _).
    destruct (IH _ _ _ _ Hfull_r Hnd_r Hrest) as (new_r & added_r & Hdisk_r & Hpaths_r & Hsubs_r & T_r).
    exists (new_r ++ new_c),
      (make_reference item (Py.path_join dir_path item) sub :: added_r).
    split; [rewrite Hdisk_r, Hdisk_c; apply app_assoc|].
    split; [rewrite !map_app, rev_app_distr, Hpaths_r, Hpaths_c; reflexivity|].
    split; [rewrite Hsubs_r; cbn [add_subdirectory dir_subdirectories];
            now rewrite <- app_assoc|].
    intros depth r0 st2 later Hh Hdisk2 Hlater.
    apply height_cons in Hh as [Hh_c Hh_r]. specialize (Hh_c Ei eq_refl).
    assert (Hin_c : In (index_file_path_of output_root (rel ++ [item]))
                      (map (index_file_path_of output_root)
                         (listed_directories (Directory (Some items_c)) (rel ++ [item])))).
    { apply in_map. rewrite listed_directories_listed. apply in_or_app. right. now left. }
    assert (Hnew_c : exists tail,
              new_c = (index_file_path_of output_root (rel ++ [item]),
                       DirectoryArtifact (dump_directory sub)) :: tail).
    { rewrite Hdisk_c in Hhead. destruct new_c as [|doc tail].
      - rewrite listed_directories_listed, map_app, rev_app_distr in Hpaths_c. discriminate.
      - cbn in Hhead. injection Hhead as -> _. now exists tail. }
    destruct Hnew_c as (tail & Hnew_c).
    cbn [visit_subdirectories]. unfold bind at 1, load_directory_index at 1.
    cbn [make_reference ref_index_file_path]. rewrite Hpath_c, Hdisk2, Hdisk_r, Hdisk_c.
    rewrite assoc_app_skip, assoc_app_skip, Hnew_c.
    + cbn [app assoc]. rewrite String.eqb_refl. unfold bind at 1.
      rewrite traverse_dumped.
      destruct (T_c depth r0 st2 (later ++ new_r) Hh_c) as (r1 & Htr & Hcounts_c & Hfiles_c).
      { rewrite Hdisk2, Hdisk_r. apply app_assoc. }
      { intros p Hp Hp'. rewrite map_app in Hp. apply in_app_or in Hp as [Hp|Hp].
        - apply (Hlater p Hp). rewrite map_app. apply in_or_app. now left.
        - rewrite Hpaths_r in Hp. apply in_rev in Hp. now apply (Hdisj p). }
      rewrite Htr.
      destruct (T_r depth r1 st2 later Hh_r Hdisk2) as (r & Hvisit & Hcounts_r & Hfiles_r).
      { intros p Hp Hp'. apply (Hlater p Hp). rewrite map_app. apply in_or_app. now right. }
      exists r. split; [exact Hvisit|]. split.
      * rewrite <- Hnew_c.
        apply (proj2 (counts_documents_app r0 r1 r new_c new_r Hcounts_c Hcounts_r)).
      * rewrite Hfiles_r, Hfiles_c. cbn [map make_reference ref_file_count].
        rewrite ComplexityFacts.sum_cons. lia.
    + rewrite Hpaths_r. intros Hp. apply in_rev in Hp. now apply (Hdisj _ Hin_c).
    + intros Hp. apply (Hlater _ Hp). rewrite map_app. apply in_or_app. now left.
Qed.

(** On a source tree whose directories can all be listed, the record and
    the documents of a run let the statistics pass through. *)
Lemma run_statistics_follow output_root generate_summaries nd :
  statistics_follow output_root generate_summaries nd.
Proof.
  induction nd as [content| | |items IH] using fs_node_induction;
    intros parent dir_path rel st d st1 Hfull Hnd Hrun; try discriminate.
  - destruct (index_directory_not_a_directory output_root generate_summaries parent
                (RegularFile content) dir_path rel st eq_refl) as [e E]. congruence.
  - destruct (index_directory_not_a_directory output_root generate_summaries parent
                Special dir_path rel st eq_refl) as [e E]. congruence.
  - destruct (index_directory_returns _ _ _ _ _ _ _ _ _ Hrun)
      as (Hpath & _ & Hdirect & Htotal & _).
    rewrite index_directory_listed in Hrun. destruct (writable _); [|discriminate].
    apply bind_inv_return in Hrun as (d1 & st_l & Hl & Hf).
    destruct (finish_directory_spec generate_summaries d1 st_l)
      as (d' & st_f & Hfin & Hd_f & E).
    rewrite E in Hf. destruct (writable _); [|discriminate].
    injection Hf as <- <-.
    rewrite listed_directories_listed, map_app in Hnd.
    apply nodup_app_inv in Hnd as (Hnd_l & _ & Hdisj).
    destruct (index_subdirectories_statistics output_root generate_summaries _ dir_path rel
                items IH _ _ _ _ Hfull Hnd_l Hl)
      as (new_l & added & Hdisk_l & Hpaths_l & Hsubs & T_l).
    destruct (index_files_frame dir_path rel generate_summaries (summary_cache st) items
                (initial_index output_root parent dir_path rel)) as (_&_&_&_&_&Hs0&_).
    cbv zeta in Hs0. rewrite Hs0 in Hsubs. cbn [initial_index new_directory_index
      dir_subdirectories app] in Hsubs.
    destruct Hfin as (_&_&Hp'&_&Hs'&_).
    exists ((dir_index_file_path d1, DirectoryArtifact (dump_directory d')) :: new_l).
    split; [cbn [disk]; now rewrite Hd_f, Hdisk_l|].
    intros depth r0 st2 later Hh Hdisk2 Hlater.
    destruct depth as [|depth]; [cbn in Hh; lia|].
    rewrite traverse_step, Hs', Hsubs.
    destruct (T_l depth (count_directory r0 d') st2
                (later ++ [(dir_index_file_path d1, DirectoryArtifact (dump_directory d'))])
                Hh) as (r & Hvisit & Hcounts & Hfiles).
    { rewrite Hdisk2. cbn [disk]. rewrite Hd_f, <- app_assoc. reflexivity. }
    { intros p Hp Hin. rewrite map_app in Hp. apply in_app_or in Hp as [Hp|[<-|[]]].
      - apply (Hlater p Hp). rewrite listed_directories_listed, map_app.
        apply in_or_app. now left.
      - apply (Hdisj _ Hin). cbn [fst map]. left. congruence. }
    exists r. split; [exact Hvisit|]. split.
    + apply (proj1 (counts_documents_app r0 (count_directory r0 d') r
                      [(dir_index_file_path d1, DirectoryArtifact (dump_directory d'))]
                      new_l (count_directory_document r0 d' _ Hdirect) Hcounts)).
    + rewrite Hfiles. destruct (count_directory_counts r0 d') as (_ & -> & _).
      rewrite Htotal, Hs', Hsubs. lia.
Qed.


(** X19. On a source tree whose directories can all be listed (with
    distinct, well-formed names, as [os.listdir] gives them, and nested
    less deep than the recursion limit), the statistics pass that follows a
    run of [_index_directory] returns, and what it adds to the counters is
    exactly what the documents written by the run hold: one directory per
    document, one file per file record, and the lines, classes, functions
    and methods of these records.  The files it counts are also the
    [total_file_count] of the record the run returned. *)
Theorem statistics_agree_with_documents output_root generate_summaries parent nd dir_path
    rel st d st' repo_index :
  fully_listed nd = true ->
  well_named nd = true ->
  forallb entry_nameb rel = true ->
  (height nd <= recursion_limit)%nat ->
  _index_directory output_root generate_summaries parent nd dir_path rel st
  = (Return d, st') ->
  exists new r,
    disk st' = new ++ disk st
    /\ _calculate_statistics repo_index d st' = (Return r, st')
    /\ counts_documents repo_index r new
    /\ repo_total_files r = repo_total_files repo_index + dir_total_file_count d.
Proof.
  intros Hfull Hnamed Hrel Hheight Hrun.
  assert (Hnd : List.NoDup (map (index_file_path_of output_root)
                              (listed_directories nd rel))).
  { apply listed_paths_distinct; [exact Hnamed|].
    apply List.Forall_forall. intros name Hname. apply entry_nameb_spec.
    rewrite forallb_forall in Hrel. now apply Hrel. }
  destruct (run_statistics_follow output_root generate_summaries nd parent dir_path rel
              st d st' Hfull Hnd Hrun) as (new & Hdisk & T).
  destruct (T recursion_limit repo_index st' [] Hheight eq_refl) as (r & Htr & Hcounts & Hfiles).
  { intros p []. }
  exists new, r. unfold _calculate_statistics.
  split; [exact Hdisk|]. split; [exact Htr|]. split; assumption.
Qed.


End ConsistencyFacts.

Lemma statistics_agree_with_documents_witness :
  exists new r,
    disk Example.sample_final = new ++ disk Example.fresh
    /\ _calculate_statistics (B:=Example.sample_backend) Example.blank_repository
         Example.sample_root Example.sample_final
       = (Return r, Example.sample_final)
    /\ counts_documents Example.blank_repository r new
    /\ repo_total_files r
       = repo_total_files Example.blank_repository
         + dir_total_file_count Example.sample_root.
Proof.
  apply (statistics_agree_with_documents (B:=Example.sample_backend) "/out" false None
           Example.sample_tree "/repo" [] Example.fresh Example.sample_root
           Example.sample_final);
    [reflexivity|reflexivity|reflexivity|vm_compute; lia|vm_compute; reflexivity].
Defined.


(** ** The name of the index files *)

Section NameFacts.
Context {B : Backend}.
Import PathFacts.

Lemma basename_plain b : Py.contains_char "/" b = false -> Py.basename b = b.
Proof.
  destruct b as [|c rest]; [reflexivity|]. rewrite contains_char_cons.
  intros H. apply orb_false_elim in H as [Hc Hrest].
  cbn [Py.basename]. rewrite Hrest.
  rewrite Ascii.eqb_sym in Hc. now rewrite Hc.
Qed.

Lemma basename_after_separator b : forall prefix,
  Py.contains_char "/" b = false ->
  Py.last_char prefix = Some "/"%char ->
  Py.basename (prefix +:+ b) = b.
Proof.
  intros prefix Hb. induction prefix as [|c prefix IH]; intros Hlast; [discriminate|].
  rewrite append_cons. cbn [Py.basename].
  destruct prefix as [|c' prefix'].
  - cbn in Hlast. injection Hlast as ->. change (EmptyString +:+ b) with b.
    now rewrite Hb.
  - assert (Hlast' : Py.last_char (String c' prefix') = Some "/"%char) by exact Hlast.
    rewrite contains_char_append, (last_char_contains _ _ Hlast'). cbn [orb].
    now apply IH.
Qed.

Lemma index_file_basename output_root rel :
  Py.basename (index_file_path_of output_root rel) = "index.json".
Proof.
  unfold index_file_path_of. rewrite path_join_relative by reflexivity.
  unfold join_prefix.
  destruct ((index_dir_path_of output_root rel =? EmptyString)%string) eqn:Eempty.
  - apply String.eqb_eq in Eempty. rewrite Eempty. reflexivity.
  - cbn [orb].
    destruct (Py.endswith (index_dir_path_of output_root rel) "/") eqn:Eend.
    + apply basename_after_separator; [reflexivity|]. now apply endswith_last.
    + apply (basename_after_separator "index.json"); [reflexivity|].
      now rewrite last_char_append.
Qed.

(** X21. Every index file has the name [_get_index_filename] gives,
    whatever the directory: the [index_file_path] of a record a run
    returns, and of every reference in it, ends in the path component
    [index.json], so that directories are told apart by the position of the
    file under the output root alone. *)
Theorem index_files_share_one_name output_root generate_summaries parent nd dir_path rel
    st d st' :
  _index_directory output_root generate_summaries parent nd dir_path rel st
  = (Return d, st') ->
  Py.basename (dir_index_file_path d) = _get_index_filename (dir_relative_path d)
  /\ List.Forall
       (fun subdir_ref =>
          Py.basename (ref_index_file_path subdir_ref)
          = _get_index_filename (ref_relative_path subdir_ref))
       (dir_subdirectories d).
Proof.
  intros Hrun.
  destruct (index_directory_returns _ _ _ _ _ _ _ _ _ Hrun) as (Hpath & _ & _ & _ & _ & Hrefs).
  split; [rewrite Hpath; apply index_file_basename|].
  eapply List.Forall_impl; [|exact Hrefs].
  intros subdir_ref (item & child & sub & st1 & st2 & _ & _ & Hsub & ->).
  apply index_directory_returns in Hsub as (Hp & _).
  cbn [make_reference ref_index_file_path]. rewrite Hp. apply index_file_basename.
Qed.

End NameFacts.

Lemma index_files_share_one_name_witness :
  Py.basename (dir_index_file_path Example.sample_root)
  = _get_index_filename (dir_relative_path Example.sample_root)
  /\ List.Forall
       (fun subdir_ref =>
          Py.basename (ref_index_file_path subdir_ref)
          = _get_index_filename (ref_relative_path subdir_ref))
       (dir_subdirectories Example.sample_root).
Proof.
  apply (index_files_share_one_name (B:=Example.sample_backend) "/out" false None
           Example.sample_tree "/repo" [] Example.fresh Example.sample_root
           Example.sample_final).
  vm_compute. reflexivity.
Defined.

(** ** Runs do not overwrite their documents *)

Section OverwriteFacts.
Context {B : Backend}.

(** X23. A run does not overwrite its own documents: on a tree whose
    directories have distinct, well-formed names (as [os.listdir] gives
    them), the documents a returning run has written lie at pairwise
    distinct paths, one for each listed directory. *)
Theorem no_document_is_overwritten output_root generate_summaries parent nd dir_path rel
    st d st' :
  well_named nd = true ->
  forallb entry_nameb rel = true ->
  _index_directory output_root generate_summaries parent nd dir_path rel st
  = (Return d, st') ->
  exists new,
    disk st' = new ++ disk st
    /\ List.NoDup (map fst new)
    /\ length new = length (listed_directories nd rel).
Proof.
  intros Hnamed Hrel Hrun.
  destruct (index_directory_writes_listed output_root generate_summaries nd
              parent dir_path rel st d st' Hrun) as (new & Hdisk & Hpaths).
  exists new. split; [exact Hdisk|]. split.
  - rewrite Hpaths. apply NoDup_rev, listed_paths_distinct; [exact Hnamed|].
    apply List.Forall_forall. intros name Hname. apply entry_nameb_spec.
    rewrite forallb_forall in Hrel. now apply Hrel.
  - apply (f_equal (@length _)) in Hpaths.
    now rewrite List.length_map, List.length_rev, List.length_map in Hpaths.
Qed.

End OverwriteFacts.

Lemma no_document_is_overwritten_witness :
  exists new,
    disk Example.sample_final = new ++ disk Example.fresh
    /\ List.NoDup (map fst new)
    /\ length new = length (listed_directories Example.sample_tree []).
Proof.
  apply (no_document_is_overwritten (B:=Example.sample_backend) "/out" false None
           Example.sample_tree "/repo" [] Example.fresh Example.sample_root
           Example.sample_final);
    [reflexivity|reflexivity|vm_compute; reflexivity].
Defined.

(** ** Following the references *)

Section ReferenceFacts.
Context {B : Backend}.

Lemma index_directory_keeps_arguments output_root generate_summaries parent nd dir_path rel
    st d st' :
  _index_directory output_root generate_summaries parent nd dir_path rel st
  = (Return d, st') ->
  dir_dir_path d = dir_path /\ dir_parent_index_path d = parent.
Proof.
  intros H. destruct nd as [content|[items|]|].
  - destruct (index_directory_not_a_directory output_root generate_summaries parent
                (RegularFile content) dir_path rel st eq_refl) as [e E]. congruence.
  - rewrite index_directory_listed in H. destruct (writable _); [|discriminate].
    apply bind_inv_return in H. destruct H as (d1 & st1 & Hl & Hf).
    apply index_subdirectories_frame in Hl. destruct Hl as (Hdp&_&_&_&Hpp&_).
    destruct (index_files_frame dir_path rel generate_summaries (summary_cache st) items
                (initial_index output_root parent dir_path rel)) as (Hdp0&_&_&_&Hpp0&_).
    cbv zeta in Hdp0, Hpp0. cbn in Hdp0, Hpp0.
    destruct (finish_directory_spec generate_summaries d1 st1) as (d' & st2 & Hfin & _ & E).
    rewrite E in Hf. destruct (writable _); [|discriminate].
    injection Hf as <- _. destruct Hfin as (Hdp'&_&_&Hpp'&_).
    split; congruence.
  - rewrite index_directory_unlisted in H. destruct (writable _); [|discriminate].
    injection H as <- _. split; reflexivity.
  - destruct (index_directory_not_a_directory output_root generate_summaries parent
                Special dir_path rel st eq_refl) as [e E]. congruence.
Qed.

(** Each reference the second loop makes leads, on the disk the loop
    leaves and on any later disk without other documents under the paths
    of the loop, to the document of the record it was made from. *)
Lemma index_subdirectories_resolve output_root generate_summaries parent dir_path rel
    items :
  forall d0 st d1 st1,
    fully_listed (Directory (Some items)) = true ->
    List.NoDup (map (index_file_path_of output_root) (listed_below rel items)) ->
    index_subdirectories (_index_directory output_root generate_summaries parent)
      dir_path rel items d0 st = (Return d1, st1) ->
    exists new added,
      disk st1 = new ++ disk st
      /\ map fst new = rev (map (index_file_path_of output_root) (listed_below rel items))
      /\ dir_subdirectories d1 = dir_subdirectories d0 ++ added
      /\ List.Forall
           (fun subdir_ref =>
              exists sub,
                mirrors subdir_ref (dump_directory sub)
                /\ dir_parent_index_path (dump_directory sub) = parent
                /\ forall st2 later,
                     disk st2 = later ++ disk st1 ->
                     (forall p, In p (map fst later) ->
                                ~ In p (map (index_file_path_of output_root)
                                          (listed_below rel items))) ->
                     assoc (ref_index_file_path subdir_ref) (disk st2)
                     = Some (DirectoryArtifact (dump_directory sub)))
           added.
Proof.
  induction items as [|[item child] items IH]; intros d0 st d1 st1 Hfull Hnd Hrun.
  - injection Hrun as <- <-. exists [], []. cbn [app map rev listed_below flat_map].
    rewrite app_nil_r. repeat split. constructor.
  - cbn [index_subdirectories] in Hrun. rewrite listed_below_cons in Hnd |- *.
    cbn [fully_listed forallb fst snd] in Hfull.
    apply andb_prop in Hfull as [Hfull_c Hfull_r].
    change (forallb _ items = true) with (fully_listed (Directory (Some items)) = true)
      in Hfull_r.
    destruct (is_ignored item) eqn:Ei; [now apply IH|].
    destruct child as [content|listing|]; cbn [isdir] in Hrun; try now apply IH.
    destruct listing as [items_c|]; [|discriminate].
    apply bind_inv_return in Hrun as (sub & st_a & Hsub & Hrest).
    rewrite map_app in Hnd. apply nodup_app_inv in Hnd as (Hnd_c & Hnd_r & Hdisj).
    destruct (index_directory_writes_listed output_root generate_summaries _ _ _ _ _ _ _ Hsub)
      as (new_c & Hdisk_c & Hpaths_c).
    destruct (index_directory_persists _ _ _ _ _ _ _ _ _ Hsub) as (earlier & Hhead).
    destruct (index_directory_returns _ _ _ _ _ _ _ _ _ Hsub) as (Hpath_c & _).
    destruct (index_directory_keeps_arguments _ _ _ _ _ _ _ _ _ Hsub) as (Hdp_c & Hpp_c).
    destruct (IH _ _ _ _ Hfull_r Hnd_r Hrest)
      as (new_r & added_r & Hdisk_r & Hpaths_r & Hsubs_r & Hrefs_r).
    exists (new_r ++ new_c),
      (make_reference item (Py.path_join dir_path item) sub :: added_r).
    split; [rewrite Hdisk_r, Hdisk_c; apply app_assoc|].
    split; [rewrite !map_app, rev_app_distr, Hpaths_r, Hpaths_c; reflexivity|].
    split; [rewrite Hsubs_r; cbn [add_subdirectory dir_subdirectories];
            now rewrite <- app_assoc|].
    assert (Hin_c : In (index_file_path_of output_root (rel ++ [item]))
                      (map (index_file_path_of output_root)
                         (listed_directories (Directory (Some items_c)) (rel ++ [item])))).
    { apply in_map. rewrite listed_directories_listed. apply in_or_app. right. now left. }
    assert (Hnew_c : exists tail,
              new_c = (index_file_path_of output_root (rel ++ [item]),
                       DirectoryArtifact (dump_directory sub)) :: tail).
    { rewrite Hdisk_c in Hhead. destruct new_c as [|doc tail].
      - rewrite listed_directories_listed, map_app, rev_app_distr in Hpaths_c. discriminate.
      - cbn in Hhead. injection Hhead as -> _. now exists tail. }
    destruct Hnew_c as (tail & Hnew_c).
    constructor.
    + exists sub. split; [|split; [exact Hpp_c|]].
      * unfold mirrors. cbn. repeat split. exact Hdp_c.
      * intros st2 later Hdisk2 Hlater.
        cbn [make_reference ref_index_file_path].
        rewrite Hpath_c, Hdisk2, Hdisk_r, Hdisk_c, assoc_app_skip, assoc_app_skip, Hnew_c.
        -- cbn [app assoc]. now rewrite String.eqb_refl.
        -- rewrite Hpaths_r. intros Hp. apply in_rev in Hp. now apply (Hdisj _ Hin_c).
        -- intros Hp. apply (Hlater _ Hp). rewrite map_app. apply in_or_app. now left.
    + eapply List.Forall_impl; [|exact Hrefs_r].
      intros subdir_ref (sub' & Hm & Hp & Hassoc). exists sub'.
      split; [exact Hm|]. split; [exact Hp|].
      intros st2 later Hdisk2 Hlater. apply (Hassoc st2 later Hdisk2).
      intros p Hp1 Hp2. apply (Hlater p Hp1). rewrite map_app. apply in_or_app. now right.
Qed.

(** X24. The references of a record can be followed: on a source tree
    whose directories can all be listed (with distinct, well-formed names),
    every reference in the record a run returns leads to a document on the
    output disk: loading the [index_file_path] of the reference gives a
    directory record that names that same path, the directory path, the
    relative path, the summary and the [total_file_count] that the
    reference holds; the [subdir_count] of the reference is the number of
    references of that record (its direct subdirectories), and the record
    names the index file of the returned record as its parent. *)
Theorem references_lead_to_documents output_root generate_summaries parent items dir_path
    rel st d st' :
  fully_listed (Directory (Some items)) = true ->
  well_named (Directory (Some items)) = true ->
  forallb entry_nameb rel = true ->
  _index_directory output_root generate_summaries parent (Directory (Some items))
    dir_path rel st = (Return d, st') ->
  List.Forall
    (fun subdir_ref =>
       exists document,
         load_directory_index (ref_index_file_path subdir_ref) st' = (Return document, st')
         /\ mirrors subdir_ref document
         /\ dir_parent_index_path document = Some (dir_index_file_path d))
    (dir_subdirectories d).
Proof.
  intros Hfull Hnamed Hrel Hrun.
  assert (Hnd : List.NoDup (map (index_file_path_of output_root)
                              (listed_directories (Directory (Some items)) rel))).
  { apply listed_paths_distinct; [exact Hnamed|].
    apply List.Forall_forall. intros name Hname. apply entry_nameb_spec.
    rewrite forallb_forall in Hrel. now apply Hrel. }
  destruct (index_directory_returns _ _ _ _ _ _ _ _ _ Hrun) as (Hpath & _).
  rewrite index_directory_listed in Hrun. destruct (writable _); [|discriminate].
  apply bind_inv_return in Hrun as (d1 & st_l & Hl & Hf).
  destruct (finish_directory_spec generate_summaries d1 st_l)
    as (d' & st_f & Hfin & Hd_f & E).
  rewrite E in Hf. destruct (writable _); [|discriminate].
  injection Hf as <- <-.
  rewrite listed_directories_listed, map_app in Hnd.
  apply nodup_app_inv in Hnd as (Hnd_l & _ & Hdisj).
  destruct (index_subdirectories_resolve output_root generate_summaries _ dir_path rel
              items _ _ _ _ Hfull Hnd_l Hl)
    as (new_l & added & Hdisk_l & Hpaths_l & Hsubs & Hrefs).
  destruct (index_files_frame dir_path rel generate_summaries (summary_cache st) items
              (initial_index output_root parent dir_path rel)) as (_&_&_&_&_&Hs0&_).
  cbv zeta in Hs0. rewrite Hs0 in Hsubs. cbn [initial_index new_directory_index
    dir_subdirectories app] in Hsubs.
  destruct Hfin as (_&_&Hp'&_&Hs'&_).
  rewrite Hs', Hsubs. eapply List.Forall_impl; [|exact Hrefs].
  intros subdir_ref (sub & Hm & Hp & Hassoc).
  exists (dump_directory sub). split; [|split; [exact Hm|]].
  - unfold load_directory_index.
    rewrite (Hassoc _ [(dir_index_file_path d1, DirectoryArtifact (dump_directory d'))]);
      [reflexivity|cbn [disk]; now rewrite Hd_f|].
    intros p [<-|[]] Hin. apply (Hdisj _ Hin). cbn [fst map]. left. congruence.
  - rewrite Hp, Hpath. reflexivity.
Qed.

End ReferenceFacts.

Lemma references_lead_to_documents_witness :
  List.Forall
    (fun subdir_ref =>
       exists document,
         load_directory_index (ref_index_file_path subdir_ref) Example.sample_final
         = (Return document, Example.sample_final)
         /\ mirrors subdir_ref document
         /\ dir_parent_index_path document
            = Some (dir_index_file_path Example.sample_root))
    (dir_subdirectories Example.sample_root).
Proof.
  apply (references_lead_to_documents (B:=Example.sample_backend) "/out" false None
           (listing_of Example.sample_tree) "/repo" [] Example.fresh Example.sample_root
           Example.sample_final);
    [reflexivity|reflexivity|reflexivity|vm_compute; reflexivity].
Defined.

(** ** The [bash] tool *)

Section AgentFacts.
Import Agent.
Variable subprocess_run : nat -> string -> completion.

Lemma prefix_app (a b : string) : forall s,
  String.prefix (a +:+ b) s = true -> String.prefix a s = true.
Proof.
  induction a as [|c a IH]; intros s H; [now destruct s|].
  rewrite PathFacts.append_cons in H. destruct s as [|c' s]; [discriminate|].
  cbn [String.prefix] in H |- *.
  destruct (ascii_dec c c'); [now apply IH|discriminate].
Qed.

Lemma str_contains_app (a b : string) : forall s,
  str_contains (a +:+ b) s = true -> str_contains a s = true.
Proof.
  induction s as [|c s IH]; cbn [str_contains]; intros H.
  - rewrite orb_false_r in H |- *. now apply prefix_app in H.
  - apply orb_prop in H as [H|H]; apply orb_true_intro.
    + left. now apply prefix_app in H.
    + right. now apply IH.
Qed.

Lemma find_first {A} (f : A -> bool) (l : list A) x :
  List.find f l = Some x ->
  exists before after,
    l = before ++ x :: after /\ List.Forall (fun y => f y = false) before.
Proof.
  induction l as [|y l IH]; intros H; [discriminate|]. cbn [List.find] in H.
  destruct (f y) eqn:Ey.
  - injection H as ->. exists [], l. split; [reflexivity|constructor].
  - destruct (IH H) as (before & after & -> & Hb).
    exists (y :: before), after. split; [reflexivity|]. now constructor.
Qed.

(** X25. A command in which one of the restricted words occurs, anywhere
    and even inside another word, is not run: [bash] neither hands it to
    [subprocess.run] nor notes a file, and answers with the error that
    names the first restricted word, in the order of the list, that occurs
    in the command: the word named occurs in the command and none of the
    words before it in the list does.  The word [>>] is never the one
    named, since [>] comes before it in the list. *)
Theorem restricted_command_is_not_run command st word :
  In word dangerous_commands ->
  str_contains word command = true ->
  exists reported before after,
    bash subprocess_run command st
    = ("Error: Command contains restricted operation: " +:+ reported, st)
    /\ dangerous_commands = before ++ reported :: after
    /\ str_contains reported command = true
    /\ List.Forall (fun dangerous => str_contains dangerous command = false) before
    /\ reported <> ">>".
Proof.
  intros Hword Hoccurs. unfold bash.
  destruct (List.find (fun dangerous => str_contains dangerous command) dangerous_commands)
    as [reported|] eqn:Hfind.
  - destruct (find_first _ _ _ Hfind) as (before & after & Hsplit & Hbefore).
    exists reported, before, after. split; [reflexivity|]. split; [exact Hsplit|].
    destruct (find_some _ _ Hfind) as [Hin Hrep]. split; [exact Hrep|].
    split; [exact Hbefore|].
    intros ->. unfold dangerous_commands in Hfind. cbn [List.find] in Hfind.
    repeat match type of Hfind with
           | (if ?b then _ else _) = _ => destruct b eqn:?; [discriminate|]
           end.
    match goal with
    | H : str_contains ">" command = false |- _ =>
        rewrite (str_contains_app ">" ">" command Hrep) in H; discriminate
    end.
  - exfalso. apply (find_none _ _ Hfind) in Hword. cbv beta in Hword. congruence.
Qed.

Lemma track_appends parts : forall investigated,
  List.NoDup investigated ->
  List.NoDup (track parts investigated)
  /\ exists added,
       track parts investigated = investigated ++ added
       /\ List.Forall (fun file_path => In file_path parts) added.
Proof.
  induction parts as [|part rest IH]; intros investigated Hnd.
  - split; [exact Hnd|]. exists []. now rewrite app_nil_r.
  - cbn [track]. destruct rest as [|file_path rest'].
    + split; [exact Hnd|]. exists []. now rewrite app_nil_r.
    + match goal with
      | |- context [track _ ?next] =>
          assert (Hnext : List.NoDup next
                          /\ exists added0, next = investigated ++ added0
                                /\ List.Forall (fun f => In f (part :: file_path :: rest'))
                                     added0)
      end.
      { destruct ((part =? "cat")%string && negb (Py.str_in file_path investigated))
          eqn:Hcat.
        - apply andb_prop in Hcat as [_ Hnew]. split.
          + apply nodup_snoc; [exact Hnd|]. intros Hin. apply str_in_In in Hin.
            now rewrite Hin in Hnew.
          + exists [file_path]. split; [reflexivity|].
            constructor; [right; now left|constructor].
        - split; [exact Hnd|]. exists []. split; [now rewrite app_nil_r|constructor]. }
      destruct Hnext as (Hnd' & added0 & Hnext & Hadded0).
      destruct (IH _ Hnd') as (Hnd'' & added & Htrack & Hadded).
      split; [exact Hnd''|]. exists (added0 ++ added).
      split; [rewrite Htrack, Hnext; now rewrite app_assoc|].
      apply List.Forall_app. split; [exact Hadded0|].
      eapply List.Forall_impl; [|exact Hadded]. intros f Hf. now right.
Qed.

(** X26. The list of investigated files only grows, by words of the
    command (the pieces [str.split()] cuts it into at white space, the
    no-break space and the next line control included), and stays free of
    duplicates; a restricted command, a command that mentions
    [index.json], and a command without [cat ] or without [.py] leave it
    as it is. *)
Theorem investigated_files_stay_distinct command st :
  List.NoDup (files_investigated st) ->
  List.NoDup (files_investigated (snd (bash subprocess_run command st)))
  /\ (exists added,
        files_investigated (snd (bash subprocess_run command st))
        = files_investigated st ++ added
        /\ List.Forall (fun file_path => In file_path (split command)) added)
  /\ (str_contains "cat " command && str_contains ".py" command
      && negb (str_contains "index.json" command) = false ->
      files_investigated (snd (bash subprocess_run command st)) = files_investigated st).
Proof.
  intros Hnd. unfold bash.
  destruct (List.find _ dangerous_commands) as [reported|].
  - cbn [snd]. split; [exact Hnd|]. split; [|reflexivity].
    exists []. split; [now rewrite app_nil_r|constructor].
  - cbv zeta.
    assert (Hfiles :
              List.NoDup
                (if str_contains "cat " command && str_contains ".py" command
                    && negb (str_contains "index.json" command)
                 then track (split command) (files_investigated st)
                 else files_investigated st)
              /\ (exists added,
                    (if str_contains "cat " command && str_contains ".py" command
                        && negb (str_contains "index.json" command)
                     then track (split command) (files_investigated st)
                     else files_investigated st)
                    = files_investigated st ++ added
                    /\ List.Forall (fun file_path => In file_path (split command)) added)
              /\ (str_contains "cat " command && str_contains ".py" command
                  && negb (str_contains "index.json" command) = false ->
                  (if str_contains "cat " command && str_contains ".py" command
                      && negb (str_contains "index.json" command)
                   then track (split command) (files_investigated st)
                   else files_investigated st)
                  = files_investigated st)).
    { destruct (str_contains "cat " command && str_contains ".py" command
                && negb (str_contains "index.json" command)).
      - destruct (track_appends (split command) (files_investigated st) Hnd)
          as (Hnd' & added & Htrack & Hadded).
        split; [exact Hnd'|]. split; [now exists added|discriminate].
      - split; [exact Hnd|]. split; [|reflexivity].
        exists []. split; [now rewrite app_nil_r|constructor]. }
    destruct (subprocess_run (length (executed st)) command);
      cbn [snd files_investigated]; exact Hfiles.
Qed.

Lemma substring_length n : forall s, (String.length (substring 0 n s) <= n)%nat.
Proof.
  induction n as [|n IH]; intros s; destruct s as [|c s]; cbn; try lia.
  specialize (IH s). lia.
Qed.

(** X27. What [bash] answers when the command completes (or is
    refused) is never longer than the limit of 50000 characters plus the
    notice that the output was cut: an output within the limit is passed on
    whole, a longer one is cut to its first 50000 characters. *)
Theorem output_is_cut command st stdout stderr :
  subprocess_run (length (executed st)) command = Completed stdout stderr ->
  (String.length (fst (bash subprocess_run command st))
   <= output_limit + String.length truncated_suffix)%nat
  /\ (List.find (fun dangerous => str_contains dangerous command) dangerous_commands = None ->
      let output := if (stdout =? EmptyString)%string then stderr else stdout in
      fst (bash subprocess_run command st)
      = if (output_limit <? String.length output)%nat
        then substring 0 output_limit output +:+ truncated_suffix
        else if (output =? EmptyString)%string
             then "Command executed successfully (no output)"
             else output).
Proof.
  intros Hrun. unfold bash.
  destruct (List.find _ dangerous_commands) as [reported|] eqn:Hfind.
  - split; [|discriminate]. cbn [fst]. rewrite PathFacts.append_length.
    destruct (find_some _ _ Hfind) as [Hin _]. unfold dangerous_commands in Hin.
    cbn [In] in Hin. unfold output_limit.
    repeat (destruct Hin as [<-|Hin]; [cbn; lia|]). destruct Hin.
  - rewrite Hrun. cbv zeta. cbn [fst].
    set (output := if (stdout =? EmptyString)%string then stderr else stdout).
    destruct (output_limit <? String.length output)%nat eqn:Hlong.
    + assert (Hcut : substring 0 output_limit output +:+ truncated_suffix <> EmptyString).
      { intros E. apply (f_equal String.length) in E.
        rewrite PathFacts.append_length in E.
        assert (0 < String.length truncated_suffix)%nat by (vm_compute; lia).
        cbn [String.length] in E. lia. }
      apply String.eqb_neq in Hcut. rewrite Hcut. split; [|reflexivity].
      rewrite PathFacts.append_length.
      pose proof (substring_length output_limit output). lia.
    + apply Nat.ltb_ge in Hlong. split; [|reflexivity].
      destruct (output =? EmptyString)%string; [|lia].
      change (String.length "Command executed successfully (no output)") with 41%nat.
      unfold output_limit. lia.
Qed.

End AgentFacts.

Lemma output_is_cut_witness :
  (String.length (fst (Agent.bash Agent.echo_shell "ls src" Agent.idle))
   <= Agent.output_limit + String.length Agent.truncated_suffix)%nat
  /\ (List.find (fun dangerous => Agent.str_contains dangerous "ls src")
        Agent.dangerous_commands = None ->
      let output := if ("ls src" =? EmptyString)%string then EmptyString else "ls src" in
      fst (Agent.bash Agent.echo_shell "ls src" Agent.idle)
      = if (Agent.output_limit <? String.length output)%nat
        then substring 0 Agent.output_limit output +:+ Agent.truncated_suffix
        else if (output =? EmptyString)%string
             then "Command executed successfully (no output)"
             else output).
Proof.
  apply (output_is_cut Agent.echo_shell "ls src" Agent.idle "ls src" EmptyString).
  reflexivity.
Defined.

Lemma restricted_command_is_not_run_witness :
  fst (Agent.bash Agent.echo_shell "ls src >> log" Agent.idle)
  = "Error: Command contains restricted operation: >"
  /\ exists reported before after,
       Agent.bash Agent.echo_shell "ls src >> log" Agent.idle
       = ("Error: Command contains restricted operation: " +:+ reported, Agent.idle)
       /\ Agent.dangerous_commands = before ++ reported :: after
       /\ Agent.str_contains reported "ls src >> log" = true
       /\ List.Forall
            (fun dangerous => Agent.str_contains dangerous "ls src >> log" = false)
            before
       /\ reported <> ">>".
Proof.
  split; [reflexivity|].
  apply (restricted_command_is_not_run Agent.echo_shell "ls src >> log" Agent.idle ">>").
  - cbn. tauto.
  - reflexivity.
Defined.

Lemma investigated_files_stay_distinct_witness :
  Agent.split Agent.spaced_command = ["cat"; "a.py"; "b.py;"; "cat"; "a.py"; "c.py"]
  /\ Agent.files_investigated (snd (Agent.bash Agent.echo_shell Agent.spaced_command
                                    Agent.idle))
     = ["a.py"]
  /\ List.NoDup
       (Agent.files_investigated
          (snd (Agent.bash Agent.echo_shell Agent.spaced_command Agent.idle)))
  /\ (exists added,
        Agent.files_investigated
          (snd (Agent.bash Agent.echo_shell Agent.spaced_command Agent.idle))
        = Agent.files_investigated Agent.idle ++ added
        /\ List.Forall (fun file_path => In file_path (Agent.split Agent.spaced_command))
             added)
  /\ (Agent.str_contains "cat " Agent.spaced_command
      && Agent.str_contains ".py" Agent.spaced_command
      && negb (Agent.str_contains "index.json" Agent.spaced_command) = false ->
      Agent.files_investigated
        (snd (Agent.bash Agent.echo_shell Agent.spaced_command Agent.idle))
      = Agent.files_investigated Agent.idle).
Proof.
  split; [vm_compute; reflexivity|].
  split; [vm_compute; reflexivity|].
  apply (investigated_files_stay_distinct Agent.echo_shell Agent.spaced_command Agent.idle).
  cbn. constructor.
Defined.
